(** * CodeInsight-CLI: the explanation orchestration core

    A shallow embedding of [src/core/explainer.py], [src/models/models.py],
    [src/providers/base.py], [src/providers/ollama.py],
    [src/providers/gemini.py], [src/prompts/prompts.py] and [src/config.py].

    Conventions.
    - A Python [str] is a [string]; one [ascii] stands for one code point in
      the range U+0000..U+00FF, so [String.length] is Python's [len].
    - A Python [float] is a binary64 [float] with the primitive operations.
    - A Python [int] is a [Z].
    - Everything outside the repository (the two SDKs, pydantic, diskcache and
      the system clock) is a field of [Backend] or of [World]; the code under
      [src/] is translated as it is written. *)

From Stdlib Require Import ZArith String Ascii List Bool Lia Floats.
From Stdlib Require Import DecimalString.
From stdpp Require Import gmap strings.

Import ListNotations.
Local Open Scope string_scope.
Local Open Scope Z_scope.

(* ===================================================================== *)
(** * Python string primitives *)
(* ===================================================================== *)

Module PyStr.

Definition LF : string := String "010"%char EmptyString.

Definition code_point (c : ascii) : Z := Z.of_nat (nat_of_ascii c).

(** [str.isspace] on U+0000..U+00FF: TAB..CR, FS..US, SPACE, NEL, NBSP. *)
Definition is_space (c : ascii) : bool :=
  let n := code_point c in
  ((9 <=? n) && (n <=? 13)) || ((28 <=? n) && (n <=? 32))
  || (n =? 133) || (n =? 160).

Fixpoint lstrip (s : string) : string :=
  match s with
  | EmptyString => EmptyString
  | String c rest => if is_space c then lstrip rest else s
  end.

(** [rstrip] keeps a character when it is not a space or when something
    survives to its right. *)
Fixpoint rstrip (s : string) : string :=
  match s with
  | EmptyString => EmptyString
  | String c rest =>
      match rstrip rest with
      | EmptyString => if is_space c then EmptyString else String c EmptyString
      | kept => String c kept
      end
  end.

Definition strip (s : string) : string := rstrip (lstrip s).

Definition len (s : string) : Z := Z.of_nat (String.length s).

(** Truthiness of a [str]: non-empty. *)
Definition truthy (s : string) : bool :=
  match s with EmptyString => false | _ => true end.

(** [str.lower] on U+0000..U+00FF: A-Z and the Latin-1 capitals
    U+00C0..U+00DE except the multiplication sign U+00D7. *)
Definition lower_char (c : ascii) : ascii :=
  let n := code_point c in
  if ((65 <=? n) && (n <=? 90))
     || ((192 <=? n) && (n <=? 222) && negb (n =? 215))
  then ascii_of_nat (Z.to_nat (n + 32)) else c.

Fixpoint lower (s : string) : string :=
  match s with
  | EmptyString => EmptyString
  | String c rest => String (lower_char c) (lower rest)
  end.

(** [needle in hay]. *)
Fixpoint contains (needle hay : string) : bool :=
  String.prefix needle hay
  || match hay with
     | EmptyString => false
     | String _ rest => contains needle rest
     end.

Fixpoint take (n : nat) (s : string) : string :=
  match n, s with
  | O, _ => EmptyString
  | S _, EmptyString => EmptyString
  | S n', String c rest => String c (take n' rest)
  end.

(** [s[:n]] for any integer [n]: a negative bound counts from the end. *)
Definition slice_to (n : Z) (s : string) : string :=
  if n <? 0 then take (Z.to_nat (len s + n)) s else take (Z.to_nat n) s.

(** [sep.join(parts)]. *)
Fixpoint join (sep : string) (parts : list string) : string :=
  match parts with
  | [] => EmptyString
  | [p] => p
  | p :: rest => p ++ sep ++ join sep rest
  end.

(** [str(n)] for an [int]. *)
Definition of_int (n : Z) : string := NilZero.string_of_int (Z.to_int n).

Fixpoint concat_all (parts : list string) : string :=
  match parts with
  | [] => EmptyString
  | p :: rest => p ++ concat_all rest
  end.

Fixpoint replicate (n : nat) (c : ascii) : string :=
  match n with
  | O => EmptyString
  | S n' => String c (replicate n' c)
  end.

End PyStr.

(* ===================================================================== *)
(** * [hashlib.sha256(...).hexdigest()] and [str.encode()] *)
(* ===================================================================== *)

Module Sha256.

Definition byte := Z.
Definition word := Z.

Definition wrap (x : Z) : word := x mod 2 ^ 32.
Definition add32 (x y : word) : word := wrap (x + y).
Definition rotr (n : Z) (x : word) : word :=
  Z.lor (Z.shiftr x n) (wrap (Z.shiftl x (32 - n))).
Definition not32 (x : word) : word := Z.lxor x (2 ^ 32 - 1).

Definition ch (x y z : word) : word :=
  Z.lxor (Z.land x y) (Z.land (not32 x) z).
Definition maj (x y z : word) : word :=
  Z.lxor (Z.lxor (Z.land x y) (Z.land x z)) (Z.land y z).
Definition bsig0 (x : word) : word :=
  Z.lxor (Z.lxor (rotr 2 x) (rotr 13 x)) (rotr 22 x).
Definition bsig1 (x : word) : word :=
  Z.lxor (Z.lxor (rotr 6 x) (rotr 11 x)) (rotr 25 x).
Definition ssig0 (x : word) : word :=
  Z.lxor (Z.lxor (rotr 7 x) (rotr 18 x)) (Z.shiftr x 3).
Definition ssig1 (x : word) : word :=
  Z.lxor (Z.lxor (rotr 17 x) (rotr 19 x)) (Z.shiftr x 10).

(** The first sixty-four primes. *)
Definition primes : list Z :=
  [ 2; 3; 5; 7; 11; 13; 17; 19; 23; 29; 31; 37; 41; 43; 47; 53;
    59; 61; 67; 71; 73; 79; 83; 89; 97; 101; 103; 107; 109; 113; 127; 131;
    137; 139; 149; 151; 157; 163; 167; 173; 179; 181; 191; 193; 197; 199;
    211; 223; 227; 229; 233; 239; 241; 251; 257; 263; 269; 271; 277; 281;
    283; 293; 307; 311 ].

(** The largest [r] in [[lo, hi)] with [r ^ 3 <= n], by bisection. *)
Fixpoint cube_root_between (steps : nat) (lo hi n : Z) : Z :=
  match steps with
  | O => lo
  | S k =>
      let mid := (lo + hi) / 2 in
      if mid * mid * mid <=? n
      then cube_root_between k mid hi n
      else cube_root_between k lo mid n
  end.

Definition cube_root (n : Z) : Z := cube_root_between 40 0 (2 ^ 36) n.

(** The first 32 bits of the fractional part of the cube root of each of
    the first sixty-four primes. *)
Definition round_constants : list word :=
  List.map (fun p => wrap (cube_root (p * 2 ^ 96))) primes.

(** Big-endian bytes of a [width]-byte integer. *)
Fixpoint be_bytes (width : nat) (x : Z) : list byte :=
  match width with
  | O => []
  | S w => Z.shiftr x (8 * Z.of_nat w) mod 256 :: be_bytes w x
  end.

Fixpoint be_word (bs : list byte) (acc : Z) : Z :=
  match bs with
  | [] => acc
  | b :: rest => be_word rest (acc * 256 + b)
  end.

(** Message followed by 0x80, zeros up to 56 mod 64, and the bit length
    as a 64-bit big-endian integer. *)
Definition pad (msg : list byte) : list byte :=
  let n := Z.of_nat (List.length msg) in
  let zeros := Z.to_nat ((55 - n) mod 64) in
  msg ++ [128] ++ List.repeat 0 zeros
      ++ be_bytes 8 (8 * n).

Fixpoint words_of (count : nat) (bs : list byte) : list word :=
  match count with
  | O => []
  | S c => be_word (firstn 4 bs) 0 :: words_of c (skipn 4 bs)
  end.

(** The message schedule, newest word first: [sched] holds W(t-1), W(t-2), ... *)
Fixpoint extend (steps : nat) (sched : list word) : list word :=
  match steps with
  | O => sched
  | S s =>
      let w2 := nth 1 sched 0 in
      let w7 := nth 6 sched 0 in
      let w15 := nth 14 sched 0 in
      let w16 := nth 15 sched 0 in
      extend s (add32 (add32 (ssig1 w2) w7) (add32 (ssig0 w15) w16) :: sched)
  end.

Definition schedule (block : list byte) : list word :=
  rev (extend 48 (rev (words_of 16 block))).

Record regs := Regs { ra : word; rb : word; rc : word; rd : word;
                      re : word; rf : word; rg : word; rh : word }.

Definition round (r : regs) (kw : word * word) : regs :=
  let t1 := add32 (add32 (add32 (rh r) (bsig1 (re r)))
                         (add32 (ch (re r) (rf r) (rg r)) (fst kw))) (snd kw) in
  let t2 := add32 (bsig0 (ra r)) (maj (ra r) (rb r) (rc r)) in
  Regs (add32 t1 t2) (ra r) (rb r) (rc r) (add32 (rd r) t1) (re r) (rf r) (rg r).

Definition compress (h : regs) (block : list byte) : regs :=
  let r := fold_left round (combine round_constants (schedule block)) h in
  Regs (add32 (ra h) (ra r)) (add32 (rb h) (rb r)) (add32 (rc h) (rc r))
       (add32 (rd h) (rd r)) (add32 (re h) (re r)) (add32 (rf h) (rf r))
       (add32 (rg h) (rg r)) (add32 (rh h) (rh r)).

Fixpoint blocks (count : nat) (bs : list byte) (h : regs) : regs :=
  match count with
  | O => h
  | S c => blocks c (skipn 64 bs) (compress h (firstn 64 bs))
  end.

(** The first 32 bits of the fractional part of the square root of a prime. *)
Definition root_bits (p : Z) : word := wrap (Z.sqrt (p * 2 ^ 64)).

Definition initial_hash : regs :=
  Regs (root_bits 2) (root_bits 3) (root_bits 5) (root_bits 7)
       (root_bits 11) (root_bits 13) (root_bits 17) (root_bits 19).

Definition digest (msg : list byte) : list byte :=
  let padded := pad msg in
  let r := blocks (Nat.div (List.length padded) 64) padded initial_hash in
  flat_map (be_bytes 4) [ra r; rb r; rc r; rd r; re r; rf r; rg r; rh r].

Definition hex_digit (n : Z) : ascii :=
  if n <? 10 then ascii_of_nat (Z.to_nat (48 + n))
  else ascii_of_nat (Z.to_nat (87 + n)).

Fixpoint hex (bs : list byte) : string :=
  match bs with
  | [] => EmptyString
  | b :: rest => String (hex_digit (b / 16)) (String (hex_digit (b mod 16)) (hex rest))
  end.

Definition hexdigest (msg : list byte) : string := hex (digest msg).

(** [str.encode()]: UTF-8 of code points below U+0100. *)
Fixpoint encode (s : string) : list byte :=
  match s with
  | EmptyString => []
  | String c rest =>
      let n := PyStr.code_point c in
      if n <? 128 then n :: encode rest
      else (192 + n / 64) :: (128 + n mod 64) :: encode rest
  end.

End Sha256.

(* ===================================================================== *)
(** * Exceptions *)
(* ===================================================================== *)

(** The exception classes of [src/providers/base.py]; [ValueError];
    [TypeError] and [OverflowError], which the interpreter raises on an
    addition with [None] and on an [int] too large for a [float]; any other
    [Exception] raised by a library ([LibraryError]); and
    [KeyboardInterrupt], which is a [BaseException] only. *)
Inductive ExnClass :=
| ValueError
| TypeError
| OverflowError
| ProviderError
| RateLimitError
| ModelUnavailableError
| APITimeoutError
| LibraryError
| KeyboardInterrupt.

Record exn := { exn_class : ExnClass; str_of : string }.

Definition mk_exn (c : ExnClass) (msg : string) : exn :=
  {| exn_class := c; str_of := msg |}.

(** [except Exception]. *)
Definition is_Exception (e : exn) : bool :=
  match exn_class e with KeyboardInterrupt => false | _ => true end.

(** [except ValueError]. *)
Definition is_ValueError (e : exn) : bool :=
  match exn_class e with ValueError => true | _ => false end.

(** What a call answers: a value or an exception. *)
Inductive Reply (A : Type) :=
| Returns (a : A)
| Raises (e : exn).
Arguments Returns {A} a.
Arguments Raises {A} e.

(* ===================================================================== *)
(** * [src/models/models.py] *)
(* ===================================================================== *)

(** The binary64 nearest to an integer, ties to even; an infinity when the
    integer is beyond the largest one. *)
Definition nearest_float (n : Z) : float :=
  SF2Prim (binary_normalize prec emax n 0 false).

(** The conversion of an [int] that meets a [float] in an arithmetic
    operation, as in [total_tokens / generation_time]: the nearest
    binary64, and [OverflowError] when that is not finite. *)
Definition float_of_int (n : Z) : Reply float :=
  let x := nearest_float n in
  if PrimFloat.is_infinity x
  then Raises (mk_exn OverflowError "int too large to convert to float")
  else Returns x.

(** Truthiness of a [float]: anything but a zero. *)
Definition truthy_float (x : float) : bool := negb (PrimFloat.eqb x 0%float).

Definition truthy_opt_float (x : option float) : bool :=
  match x with Some v => truthy_float v | None => false end.

Definition truthy_opt_int (x : option Z) : bool :=
  match x with Some v => negb (v =? 0) | None => false end.

Record PerformanceMetrics := {
  model : string;
  model_provider : string;
  start_time : float;
  end_time : option float;
  time_to_first_token : option float;
  total_tokens : option Z;
  error : option string;
  cache_hit : bool
}.

Definition total_time (self : PerformanceMetrics) : option float :=
  match end_time self with
  | Some e => if truthy_float e then Some (e - start_time self)%float else None
  | None => None
  end.

(** The property [tokens_per_second]; reading it raises when the division
    does. *)
Definition tokens_per_second (self : PerformanceMetrics)
  : Reply (option float) :=
  match end_time self, time_to_first_token self, total_tokens self with
  | Some e, Some ttft, Some n =>
      if truthy_float e && truthy_float ttft && negb (n =? 0) then
        let first_token_time := (start_time self + ttft)%float in
        let generation_time := (e - first_token_time)%float in
        if (0 <? generation_time)%float
        then
          match float_of_int n with
          | Returns tokens => Returns (Some (tokens / generation_time)%float)
          | Raises err => Raises err
          end
        else Returns None
      else Returns None
  | _, _, _ => Returns None
  end.

Definition set_model (v : string) (m : PerformanceMetrics) :=
  {| model := v; model_provider := model_provider m;
     start_time := start_time m; end_time := end_time m;
     time_to_first_token := time_to_first_token m;
     total_tokens := total_tokens m; error := error m;
     cache_hit := cache_hit m |}.

Definition set_model_provider (v : string) (m : PerformanceMetrics) :=
  {| model := model m; model_provider := v;
     start_time := start_time m; end_time := end_time m;
     time_to_first_token := time_to_first_token m;
     total_tokens := total_tokens m; error := error m;
     cache_hit := cache_hit m |}.

Definition set_start_time (v : float) (m : PerformanceMetrics) :=
  {| model := model m; model_provider := model_provider m;
     start_time := v; end_time := end_time m;
     time_to_first_token := time_to_first_token m;
     total_tokens := total_tokens m; error := error m;
     cache_hit := cache_hit m |}.

Definition set_end_time (v : float) (m : PerformanceMetrics) :=
  {| model := model m; model_provider := model_provider m;
     start_time := start_time m; end_time := Some v;
     time_to_first_token := time_to_first_token m;
     total_tokens := total_tokens m; error := error m;
     cache_hit := cache_hit m |}.

Definition set_time_to_first_token (v : float) (m : PerformanceMetrics) :=
  {| model := model m; model_provider := model_provider m;
     start_time := start_time m; end_time := end_time m;
     time_to_first_token := Some v;
     total_tokens := total_tokens m; error := error m;
     cache_hit := cache_hit m |}.

Definition set_total_tokens (v : option Z) (m : PerformanceMetrics) :=
  {| model := model m; model_provider := model_provider m;
     start_time := start_time m; end_time := end_time m;
     time_to_first_token := time_to_first_token m;
     total_tokens := v; error := error m;
     cache_hit := cache_hit m |}.

Definition set_error (v : string) (m : PerformanceMetrics) :=
  {| model := model m; model_provider := model_provider m;
     start_time := start_time m; end_time := end_time m;
     time_to_first_token := time_to_first_token m;
     total_tokens := total_tokens m; error := Some v;
     cache_hit := cache_hit m |}.

Definition set_cache_hit (v : bool) (m : PerformanceMetrics) :=
  {| model := model m; model_provider := model_provider m;
     start_time := start_time m; end_time := end_time m;
     time_to_first_token := time_to_first_token m;
     total_tokens := total_tokens m; error := error m;
     cache_hit := v |}.

(** [timestamp] is [datetime.now()], kept as the clock reading it is made of. *)
Record ExplanationResult := {
  original_code : string;
  explanation : string;
  metrics : PerformanceMetrics;
  timestamp : float
}.

Definition set_metrics (v : PerformanceMetrics) (r : ExplanationResult) :=
  {| original_code := original_code r; explanation := explanation r;
     metrics := v; timestamp := timestamp r |}.

Record ValidationResult := {
  is_valid : bool;
  reason : string;
  confidence : float
}.

(* ===================================================================== *)
(** * [src/config.py] *)
(* ===================================================================== *)

(** The fields the core reads.  [cache_dir], the temperatures, the token
    limits and [log_level] are only handed on to the SDKs. *)
Record Settings := {
  gemini_api_key : string;
  default_provider : string;
  gemini_model : string;
  ollama_model : string;
  cache_enabled : bool;
  cache_ttl : Z;
  min_code_length : Z;
  max_code_length : Z;
  validation_sample_size : Z
}.

(** [Settings()] with [GEMINI_API_KEY] read from the environment. *)
Definition default_settings (env_gemini_api_key : string) : Settings := {|
  gemini_api_key := env_gemini_api_key;
  default_provider := "gemini";
  gemini_model := "gemini-2.5-flash";
  ollama_model := "llama3.2:1b";
  cache_enabled := true;
  cache_ttl := 604800;
  min_code_length := 10;
  max_code_length := 100000;
  validation_sample_size := 1000
|}.

(* ===================================================================== *)
(** * [src/prompts/prompts.py] *)
(* ===================================================================== *)

Definition CODE_EXPLANATION_PROMPT : string :=
  "You are an expert programmer and technical educator. "
  ++ "Analyze the following piece of code and provide a clear, comprehensive explanation. "
  ++ "Focus on:" ++ PyStr.LF
  ++ "1. Overall purpose and functionality" ++ PyStr.LF
  ++ "2. Complex sections, algorithms, or patterns used" ++ PyStr.LF
  ++ "3. Key logic flow and important details" ++ PyStr.LF
  ++ "4. Potential edge cases or gotchas" ++ PyStr.LF
  ++ "5. Performance considerations if relevant" ++ PyStr.LF
  ++ PyStr.LF
  ++ "Structure your explanation to be clear and easy to understand. "
  ++ "Use markdown formatting for readability.".

Definition get_explanation_prompt : string := CODE_EXPLANATION_PROMPT.

Definition get_validation_prompt (code_sample : string) : string :=
  "Validate if this is actual programming code." ++ PyStr.LF
  ++ PyStr.LF
  ++ "Code to validate:" ++ PyStr.LF
  ++ "```" ++ PyStr.LF
  ++ code_sample ++ PyStr.LF
  ++ "```" ++ PyStr.LF
  ++ PyStr.LF
  ++ "Be lenient. " ++ PyStr.LF
  ++ "Provide your assessment with a confidence score.".

(* ===================================================================== *)
(** * The outside world and the effect monad *)
(* ===================================================================== *)

(** A lazy, finite, non-restartable iterator: asking for the next item
    yields it, ends the iteration or raises. *)
Inductive Stream (C : Type) :=
| SEnd
| SItem (c : C) (rest : Stream C)
| SRaise (e : exn).
Arguments SEnd {C}.
Arguments SItem {C} c rest.
Arguments SRaise {C} e.

(** One chunk of [ollama.chat(..., stream=True)]: [message.content], [done]
    and what [chunk.get('prompt_eval_count', 0)] and
    [chunk.get('eval_count', 0)] answer.  That is an [int], or [None] where
    the chunk has the attribute without a value, as the response object of
    the library has for a counter that did not come with it. *)
Record OllamaChunk := {
  oc_content : option string;
  oc_done : bool;
  oc_prompt_eval_count : option Z;
  oc_eval_count : option Z
}.

(** One chunk of [generate_content_stream]: [text], and
    [usage_metadata.total_token_count] when [usage_metadata] is there. *)
Record GeminiChunk := {
  gc_text : option string;
  gc_usage_metadata : option (option Z)
}.

(** The libraries and services the core talks to. *)
Record Backend := {
  (** [time.time()], by number of the reading *)
  clock : nat -> float;
  (** [ollama.list()] *)
  ollama_list : Reply unit;
  (** [ollama.chat(model, messages, format, options).message.content] *)
  ollama_chat : string -> string -> Reply (option string);
  (** [ValidationResult.model_validate_json(content)] *)
  model_validate_json : string -> Reply ValidationResult;
  (** [ollama.chat(model, messages, stream=True, options)] *)
  ollama_chat_stream : string -> string -> Reply (Stream OllamaChunk);
  (** [client.models.generate_content(model, contents, config).parsed] *)
  gemini_generate_content : string -> string -> Reply (option ValidationResult);
  (** [client.models.generate_content_stream(model, contents, config)] *)
  gemini_generate_content_stream : string -> string -> Reply (Stream GeminiChunk)
}.

(** What the core does to the outside, in order. *)
Inductive Event :=
| EvOllamaList
| EvOllamaChat (model prompt : string)
| EvOllamaChatStream (model content : string)
| EvGeminiGenerateContent (model prompt : string)
| EvGeminiGenerateContentStream (model prompt : string)
| EvNextChunk (provider : string)
| EvCallback (text : string)
| EvCacheGet (key : string)
| EvCacheSet (key : string).

(** A [diskcache] row: the pickled value and its [expire_time]. *)
Record CacheEntry := {
  entry_value : ExplanationResult;
  entry_expire_time : option float
}.

Record World := {
  ticks : nat;
  cache : gmap string CacheEntry;
  ollama_is_available_cache : option bool;
  trace : list Event
}.

Definition log (ev : Event) (w : World) : World :=
  {| ticks := ticks w; cache := cache w;
     ollama_is_available_cache := ollama_is_available_cache w;
     trace := trace w ++ [ev] |}.

Definition tick (w : World) : World :=
  {| ticks := S (ticks w); cache := cache w;
     ollama_is_available_cache := ollama_is_available_cache w;
     trace := trace w |}.

Definition set_cache (c : gmap string CacheEntry) (w : World) : World :=
  {| ticks := ticks w; cache := c;
     ollama_is_available_cache := ollama_is_available_cache w;
     trace := trace w |}.

Definition set_ollama_is_available_cache (b : bool) (w : World) : World :=
  {| ticks := ticks w; cache := cache w;
     ollama_is_available_cache := Some b;
     trace := trace w |}.

Definition M (A : Type) : Type := World -> Reply A * World.

Definition ret {A} (a : A) : M A := fun w => (Returns a, w).

Definition raise {A} (e : exn) : M A := fun w => (Raises e, w).

Definition bind {A B} (c : M A) (k : A -> M B) : M B :=
  fun w =>
    match c w with
    | (Returns a, w') => k a w'
    | (Raises e, w') => (Raises e, w')
    end.

(** [try: body  except <catches> as e: handler e]. *)
Definition try_except {A} (body : M A) (catches : exn -> bool)
    (handler : exn -> M A) : M A :=
  fun w =>
    match body w with
    | (Raises e, w') => if catches e then handler e w' else (Raises e, w')
    | other => other
    end.

Declare Scope py_scope.
Delimit Scope py_scope with py.
Notation "x <- c ;; k" := (bind c (fun x => k))
  (at level 100, c at next level, right associativity) : py_scope.
Local Open Scope py_scope.

(** [a or b] on an optional string. *)
Definition py_or (a : option string) (b : string) : string :=
  match a with
  | Some s => if PyStr.truthy s then s else b
  | None => b
  end.

(** The caller's [stream_callback]: each call is recorded in the trace. *)
Variant Callable := recording_callback.

Definition call_callback (stream_callback : option Callable) (text : string)
    (w : World) : World :=
  match stream_callback with
  | Some _ => log (EvCallback text) w
  | None => w
  end.

(* ===================================================================== *)
(** * [src/providers/] *)
(* ===================================================================== *)

Module BaseProvider.

Inductive Class := GeminiProvider | OllamaProvider.

Record t := {
  class : Class;
  api_key : option string;
  model : string
}.

Definition name (self : t) : string :=
  match class self with
  | GeminiProvider => "gemini"
  | OllamaProvider => "ollama"
  end.

(** [bool(self.api_key and len(self.api_key) > 0)]. *)
Definition is_available (self : t) : bool :=
  match api_key self with
  | Some k => PyStr.truthy k && (0 <? PyStr.len k)
  | None => false
  end.

Definition _build_prompt : string := get_explanation_prompt.

End BaseProvider.

(** The one message sent for a generation: [f"{prompt}\n\nCode to explain:\n\n{code}"]. *)
Definition full_prompt (prompt code : string) : string :=
  prompt ++ PyStr.LF ++ PyStr.LF ++ "Code to explain:"
         ++ PyStr.LF ++ PyStr.LF ++ code.

Section Core.

Variable settings : Settings.
Variable B : Backend.

Definition time_time : M float :=
  fun w => (Returns (clock B (ticks w)), tick w).

(* ------------------------------------------------------------------- *)
(** ** [src/providers/gemini.py] *)

Definition GeminiProvider (model : option string) : BaseProvider.t := {|
  BaseProvider.class := BaseProvider.GeminiProvider;
  BaseProvider.api_key := Some (gemini_api_key settings);
  BaseProvider.model := py_or model (gemini_model settings)
|}.

(** [self._client] is set in [__init__] exactly when the key is truthy. *)
Definition gemini_client (self : BaseProvider.t) : bool :=
  match BaseProvider.api_key self with
  | Some k => PyStr.truthy k
  | None => false
  end.

Definition gemini_generate_structured (self : BaseProvider.t)
    (prompt : string) : M ValidationResult :=
  try_except
    (if negb (gemini_client self)
     then raise (mk_exn ProviderError "Gemini client not initialized")
     else
       fun w =>
         let w := log (EvGeminiGenerateContent (BaseProvider.model self) prompt) w in
         match gemini_generate_content B (BaseProvider.model self) prompt with
         | Raises e => (Raises e, w)
         | Returns None =>
             (Raises (mk_exn ProviderError "Gemini returned empty structured response"), w)
         | Returns (Some parsed) => (Returns parsed, w)
         end)
    is_Exception
    (fun e => raise (mk_exn ProviderError
                       ("Gemini structured generation error: " ++ str_of e))).

Fixpoint gemini_for_chunks (response : Stream GeminiChunk)
    (stream_callback : option Callable)
    (first_token_time : option float) (explanation : string)
    (final_chunk : option GeminiChunk)
    (metrics : PerformanceMetrics) (w : World)
  : Reply (string * option GeminiChunk) * PerformanceMetrics * World :=
  let w := log (EvNextChunk "gemini") w in
  match response with
  | SEnd => (Returns (explanation, final_chunk), metrics, w)
  | SRaise e => (Raises e, metrics, w)
  | SItem chunk rest =>
      let text := match gc_text chunk with Some t => t | None => "" end in
      let '(first_token_time, metrics, w) :=
        match first_token_time with
        | None =>
            if PyStr.truthy text then
              let t := clock B (ticks w) in
              (Some t,
               set_time_to_first_token (t - start_time metrics)%float metrics,
               tick w)
            else (None, metrics, w)
        | Some _ => (first_token_time, metrics, w)
        end in
      let '(explanation, w) :=
        if PyStr.truthy text
        then (explanation ++ text, call_callback stream_callback text w)
        else (explanation, w) in
      gemini_for_chunks rest stream_callback first_token_time explanation
        (Some chunk) metrics w
  end.

Definition gemini_classify (self : BaseProvider.t) (e : exn) : exn :=
  let error_msg := PyStr.lower (str_of e) in
  let has s := PyStr.contains s error_msg in
  if has "quota" || has "rate limit" || has "429" then
    mk_exn RateLimitError ("Gemini rate limit exceeded: " ++ str_of e)
  else if has "timeout" || has "timed out" then
    mk_exn APITimeoutError ("Gemini API timeout: " ++ str_of e)
  else if has "not found" || has "invalid model" || has "404" then
    mk_exn ModelUnavailableError
      ("Gemini model '" ++ BaseProvider.model self ++ "' not available: " ++ str_of e)
  else if has "unauthorized" || has "invalid api key" || has "401" || has "403" then
    mk_exn ProviderError
      ("Gemini authentication failed. Check your GEMINI_API_KEY: " ++ str_of e)
  else
    mk_exn ProviderError ("Gemini API error: " ++ str_of e).

Definition gemini_invoke_model (self : BaseProvider.t) (prompt code : string)
    (metrics : PerformanceMetrics) (stream_callback : option Callable)
    (w : World) : Reply string * PerformanceMetrics * World :=
  let '(body, metrics, w) :=
    if negb (gemini_client self) then
      (Raises (mk_exn ProviderError "Gemini client not initialized"), metrics, w)
    else
      let full_prompt := full_prompt prompt code in
      let w := log (EvGeminiGenerateContentStream (BaseProvider.model self) full_prompt) w in
      match gemini_generate_content_stream B (BaseProvider.model self) full_prompt with
      | Raises e => (Raises e, metrics, w)
      | Returns response =>
          match gemini_for_chunks response stream_callback None "" None metrics w with
          | (Raises e, metrics, w) => (Raises e, metrics, w)
          | (Returns (explanation, final_chunk), metrics, w) =>
              let metrics :=
                match final_chunk with
                | Some chunk =>
                    match gc_usage_metadata chunk with
                    | Some total_token_count => set_total_tokens total_token_count metrics
                    | None => metrics
                    end
                | None => metrics
                end in
              if negb (PyStr.truthy explanation) then
                (Raises (mk_exn ProviderError "Gemini returned empty response"), metrics, w)
              else (Returns explanation, metrics, w)
          end
      end in
  match body with
  | Raises e =>
      if is_Exception e then (Raises (gemini_classify self e), metrics, w)
      else (Raises e, metrics, w)
  | Returns explanation => (Returns explanation, metrics, w)
  end.

(* ------------------------------------------------------------------- *)
(** ** [src/providers/ollama.py] *)

Definition OllamaProvider (model : option string) : BaseProvider.t := {|
  BaseProvider.class := BaseProvider.OllamaProvider;
  BaseProvider.api_key := Some "local";
  BaseProvider.model := py_or model (ollama_model settings)
|}.

Definition ollama_is_available : M bool :=
  fun w =>
    match ollama_is_available_cache w with
    | Some known => (Returns known, w)
    | None =>
        let w := log EvOllamaList w in
        match ollama_list B with
        | Returns _ => (Returns true, set_ollama_is_available_cache true w)
        | Raises e =>
            if is_Exception e
            then (Returns false, set_ollama_is_available_cache false w)
            else (Raises e, w)
        end
    end.

Definition ollama_generate_structured (self : BaseProvider.t)
    (prompt : string) : M ValidationResult :=
  try_except
    (fun w =>
       let w := log (EvOllamaChat (BaseProvider.model self) prompt) w in
       match ollama_chat B (BaseProvider.model self) prompt with
       | Raises e => (Raises e, w)
       | Returns content =>
           match content with
           | Some c =>
               if PyStr.truthy c then (model_validate_json B c, w)
               else (Raises (mk_exn ProviderError
                               "Ollama returned empty structured response"), w)
           | None =>
               (Raises (mk_exn ProviderError
                          "Ollama returned empty structured response"), w)
           end
       end)
    is_Exception
    (fun e => raise (mk_exn ProviderError
                       ("Ollama structured generation error: " ++ str_of e))).

(** [prompt_tokens + completion_tokens] at line 120: the sum of two [int]s,
    and a [TypeError] when one of them is [None]. *)
Definition type_name (x : option Z) : string :=
  match x with Some _ => "int" | None => "NoneType" end.

Definition add_counts (prompt_tokens completion_tokens : option Z) : Reply Z :=
  match prompt_tokens, completion_tokens with
  | Some p, Some c => Returns (p + c)
  | _, _ =>
      Raises (mk_exn TypeError
                ("unsupported operand type(s) for +: '" ++ type_name prompt_tokens
                 ++ "' and '" ++ type_name completion_tokens ++ "'"))
  end.

Fixpoint ollama_for_chunks (stream : Stream OllamaChunk)
    (stream_callback : option Callable)
    (first_token_time : option float) (explanation : string)
    (metrics : PerformanceMetrics) (w : World)
  : Reply string * PerformanceMetrics * World :=
  let w := log (EvNextChunk "ollama") w in
  match stream with
  | SEnd => (Returns explanation, metrics, w)
  | SRaise e => (Raises e, metrics, w)
  | SItem chunk rest =>
      let content := match oc_content chunk with Some c => c | None => "" end in
      let '(first_token_time, metrics, w) :=
        match first_token_time with
        | None =>
            if PyStr.truthy content then
              let t := clock B (ticks w) in
              (Some t,
               set_time_to_first_token (t - start_time metrics)%float metrics,
               tick w)
            else (None, metrics, w)
        | Some _ => (first_token_time, metrics, w)
        end in
      let '(explanation, w) :=
        if PyStr.truthy content
        then (explanation ++ content, call_callback stream_callback content w)
        else (explanation, w) in
      if oc_done chunk then
        let prompt_tokens := oc_prompt_eval_count chunk in
        let completion_tokens := oc_eval_count chunk in
        match add_counts prompt_tokens completion_tokens with
        | Raises e => (Raises e, metrics, w)
        | Returns total =>
            let metrics := set_total_tokens (Some total) metrics in
            ollama_for_chunks rest stream_callback first_token_time explanation
              metrics w
        end
      else
        ollama_for_chunks rest stream_callback first_token_time explanation
          metrics w
  end.

Definition ollama_classify (self : BaseProvider.t) (e : exn) : exn :=
  let error_msg := PyStr.lower (str_of e) in
  let has s := PyStr.contains s error_msg in
  if has "connection" || has "refused" || has "unreachable" then
    mk_exn ProviderError
      "Cannot connect to Ollama server. Is it running? Try: ollama serve"
  else if has "model" && (has "not found" || has "pull") then
    mk_exn ModelUnavailableError
      ("Ollama model '" ++ BaseProvider.model self
       ++ "' not found. Try: ollama pull " ++ BaseProvider.model self)
  else if has "timeout" || has "timed out" then
    mk_exn APITimeoutError ("Ollama request timed out: " ++ str_of e)
  else
    mk_exn ProviderError ("Ollama error: " ++ str_of e).

Definition ollama_invoke_model (self : BaseProvider.t) (prompt code : string)
    (metrics : PerformanceMetrics) (stream_callback : option Callable)
    (w : World) : Reply string * PerformanceMetrics * World :=
  let content := full_prompt prompt code in
  let w := log (EvOllamaChatStream (BaseProvider.model self) content) w in
  let '(body, metrics, w) :=
    match ollama_chat_stream B (BaseProvider.model self) content with
    | Raises e => (Raises e, metrics, w)
    | Returns stream =>
        match ollama_for_chunks stream stream_callback None "" metrics w with
        | (Raises e, metrics, w) => (Raises e, metrics, w)
        | (Returns explanation, metrics, w) =>
            if negb (PyStr.truthy explanation) then
              (Raises (mk_exn ProviderError "Ollama returned empty response"), metrics, w)
            else (Returns explanation, metrics, w)
        end
    end in
  match body with
  | Raises e =>
      if is_Exception e then (Raises (ollama_classify self e), metrics, w)
      else (Raises e, metrics, w)
  | Returns explanation => (Returns explanation, metrics, w)
  end.

(* ------------------------------------------------------------------- *)
(** ** Method dispatch on the provider's class *)

Definition is_available (self : BaseProvider.t) : M bool :=
  match BaseProvider.class self with
  | BaseProvider.GeminiProvider => ret (BaseProvider.is_available self)
  | BaseProvider.OllamaProvider => ollama_is_available
  end.

Definition generate_structured (self : BaseProvider.t) (prompt : string)
  : M ValidationResult :=
  match BaseProvider.class self with
  | BaseProvider.GeminiProvider => gemini_generate_structured self prompt
  | BaseProvider.OllamaProvider => ollama_generate_structured self prompt
  end.

Definition _invoke_model (self : BaseProvider.t) (prompt code : string)
    (metrics : PerformanceMetrics) (stream_callback : option Callable)
    (w : World) : Reply string * PerformanceMetrics * World :=
  match BaseProvider.class self with
  | BaseProvider.GeminiProvider =>
      gemini_invoke_model self prompt code metrics stream_callback w
  | BaseProvider.OllamaProvider =>
      ollama_invoke_model self prompt code metrics stream_callback w
  end.

(** [BaseProvider.explain_code]. *)
Definition explain_code (self : BaseProvider.t) (code : string)
    (metrics : PerformanceMetrics) (stream_callback : option Callable)
    (w : World) : Reply string * PerformanceMetrics * World :=
  let metrics := set_model (BaseProvider.model self) metrics in
  let metrics := set_model_provider (BaseProvider.name self) metrics in
  let prompt := BaseProvider._build_prompt in
  match _invoke_model self prompt code metrics stream_callback w with
  | (Returns explanation, metrics, w) =>
      (Returns (PyStr.strip explanation), metrics, w)
  | (Raises e, metrics, w) =>
      if is_Exception e then (Raises e, set_error (str_of e) metrics, w)
      else (Raises e, metrics, w)
  end.

End Core.

(* ===================================================================== *)
(** * [src/core/explainer.py] *)
(* ===================================================================== *)

Record CodeExplainer := {
  self_default_provider : string;
  use_cache : bool;
  self_cache_ttl : Z;
  providers : gmap string BaseProvider.t
}.

(** [_get_cache_key]: SHA-256 of the UTF-8 bytes of [code|provider|model]. *)
Definition cache_input (code provider_name model : string) : string :=
  code ++ "|" ++ provider_name ++ "|" ++ model.

Definition _get_cache_key (code provider_name model : string) : string :=
  Sha256.hexdigest (Sha256.encode (cache_input code provider_name model)).

Section Explainer.

Variable settings : Settings.
Variable B : Backend.

(** [CodeExplainer.__init__]. *)
Definition CodeExplainer_init (provider : option string) : CodeExplainer := {|
  self_default_provider := py_or provider (default_provider settings);
  use_cache := cache_enabled settings;
  self_cache_ttl := cache_ttl settings;
  providers :=
    {[ "gemini" := GeminiProvider settings (Some (gemini_model settings));
       "ollama" := OllamaProvider settings (Some (ollama_model settings)) ]}
|}.

(* ------------------------------------------------------------------- *)
(** ** The disk cache

    [diskcache.Cache] is a library outside the repository.  Its two
    operations follow section 4.2 of the specification: [get] answers the
    stored value unless the key was never written or its expiry has
    passed, [set] stores the value with expiry at write time plus the
    time to live and replaces an older row.  Each reads the clock once.

    The map is the store as [get] shows it.  A row whose expiry has passed
    is dead: no [get] returns it, and the library deletes such rows when it
    next writes, where the map keeps them.  Nothing below is stated about
    dead rows.  Failures of the store itself are outside the model; the
    time to live enters the sum as the nearest binary64, which is exact
    below 2^53 and so for the 604800 seconds of [config.py]. *)

Definition cache_get (key : string) : M (option ExplanationResult) :=
  fun w =>
    let now := clock B (ticks w) in
    let w := tick (log (EvCacheGet key) w) in
    match cache w !! key with
    | Some row =>
        match entry_expire_time row with
        | Some expire_time =>
            if (now <? expire_time)%float
            then (Returns (Some (entry_value row)), w)
            else (Returns None, w)
        | None => (Returns (Some (entry_value row)), w)
        end
    | None => (Returns None, w)
    end.

Definition cache_set (key : string) (value : ExplanationResult) (expire : Z)
  : M unit :=
  fun w =>
    let now := clock B (ticks w) in
    let w := tick (log (EvCacheSet key) w) in
    let row := {| entry_value := value;
                  entry_expire_time := Some (now + nearest_float expire)%float |} in
    (Returns tt, set_cache (<[key := row]> (cache w)) w).

(* ------------------------------------------------------------------- *)
(** ** Provider lookup *)

Definition _get_provider (self : CodeExplainer) (provider_name : option string)
  : M BaseProvider.t :=
  let name := py_or provider_name (self_default_provider self) in
  match providers self !! name with
  | None => raise (mk_exn ValueError ("Unknown provider: " ++ name))
  | Some provider =>
      available <- is_available B provider ;;
      if negb available then
        raise (mk_exn ValueError
                 ("Provider " ++ name ++ " is not available (missing API key)"))
      else ret provider
  end.

Definition fallback_name (failed_provider : string) : string :=
  if String.eqb failed_provider "gemini" then "ollama" else "gemini".

Definition _get_fallback_provider (self : CodeExplainer)
    (failed_provider : string) : M (option BaseProvider.t) :=
  match providers self !! fallback_name failed_provider with
  | Some provider =>
      available <- is_available B provider ;;
      if available then ret (Some provider) else ret None
  | None => ret None
  end.

(* ------------------------------------------------------------------- *)
(** ** [_validate_input_code] *)

(** Lines 115-120: the code sample and the prompt made of it. *)
Definition validation_prompt_for (code : string) : string :=
  let code_sample :=
    PyStr.slice_to (validation_sample_size settings) code in
  let code_sample :=
    if validation_sample_size settings <? PyStr.len code
    then code_sample ++ PyStr.LF ++ "... (truncated)"
    else code_sample in
  get_validation_prompt code_sample.

(** The body of [for provider_name in [...]] with the statements after it. *)
Fixpoint validate_with (self : CodeExplainer) (code : string)
    (names : list string) (validation_errors : list string)
  : M ValidationResult :=
  match names with
  | [] =>
      let all_errors := PyStr.join "; " validation_errors in
      ret {| is_valid := true;
             reason := "Validation check skipped due to errors: " ++ all_errors;
             confidence := 0.5%float |}
  | provider_name :: rest =>
      match providers self !! provider_name with
      | None => validate_with self code rest validation_errors
      | Some provider =>
          available <- is_available B provider ;;
          if negb available then validate_with self code rest validation_errors
          else
            try_except
              (let validation_prompt := validation_prompt_for code in
               generate_structured B provider validation_prompt)
              is_Exception
              (fun e =>
                 validate_with self code rest
                   (validation_errors ++ [provider_name ++ ": " ++ str_of e]))
      end
  end.

Definition _validate_input_code (self : CodeExplainer) (code : string)
  : M ValidationResult :=
  if PyStr.len (PyStr.strip code) <? min_code_length settings then
    ret {| is_valid := false;
           reason := "Code is too short (minimum "
                     ++ PyStr.of_int (min_code_length settings) ++ " characters)";
           confidence := 1%float |}
  else if max_code_length settings <? PyStr.len code then
    ret {| is_valid := false;
           reason := "Code is too large (maximum "
                     ++ PyStr.of_int (max_code_length settings / 1000) ++ "KB)";
           confidence := 1%float |}
  else validate_with self code ["ollama"; "gemini"] [].

(* ------------------------------------------------------------------- *)
(** ** [explain], by its parts *)

(** Lines 164-168: input validation. *)
Definition explain_validate (self : CodeExplainer) (code : string)
    (validate_input : bool) : M unit :=
  if validate_input then
    validation_result <- _validate_input_code self code ;;
    if negb (is_valid validation_result) then
      raise (mk_exn ValueError
               ("Input validation failed: " ++ reason validation_result))
    else ret tt
  else ret tt.

(** Lines 170-181: the provider, or its substitute. *)
Definition explain_resolve (self : CodeExplainer)
    (provider_name : option string) (auto_fallback : bool)
  : M BaseProvider.t :=
  try_except (_get_provider self provider_name) is_ValueError
    (fun e =>
       if negb auto_fallback then raise e
       else
         let failed_provider_name :=
           py_or provider_name (self_default_provider self) in
         fallback_provider <- _get_fallback_provider self failed_provider_name ;;
         match fallback_provider with
         | None => raise (mk_exn ValueError "No ML providers are available")
         | Some provider => ret provider
         end).

(** Lines 183-198: the cache probe.  Answers the key and, on a hit, the
    result to return. *)
Definition explain_probe (self : CodeExplainer) (code : string)
    (provider : BaseProvider.t) (stream_callback : option Callable)
  : M (option string * option ExplanationResult) :=
  if use_cache self then
    let cache_key :=
      _get_cache_key code (BaseProvider.name provider) (BaseProvider.model provider) in
    cache_start <- time_time B ;;
    cached <- cache_get cache_key ;;
    match cached with
    | Some cached_result =>
        cache_end <- time_time B ;;
        let cached_result :=
          set_metrics
            (set_end_time cache_end
               (set_start_time cache_start
                  (set_cache_hit true (metrics cached_result))))
            cached_result in
        fun w =>
          (Returns (Some cache_key, Some cached_result),
           call_callback stream_callback (explanation cached_result) w)
    | None => ret (Some cache_key, None)
    end
  else ret (None, None).

(** Lines 200-204: the fresh metrics. *)
Definition explain_metrics (provider : BaseProvider.t) : M PerformanceMetrics :=
  start <- time_time B ;;
  ret {| model := BaseProvider.model provider;
         model_provider := BaseProvider.name provider;
         start_time := start;
         end_time := None;
         time_to_first_token := None;
         total_tokens := None;
         error := None;
         cache_hit := false |}.

(** Lines 207-221: the body of [try]. *)
Definition explain_try (self : CodeExplainer) (code : string)
    (provider : BaseProvider.t) (stream_callback : option Callable)
    (cache_key : option string) (metrics : PerformanceMetrics)
    (w : World) : Reply ExplanationResult * PerformanceMetrics * World :=
  match explain_code B provider code metrics stream_callback w with
  | (Raises e, metrics, w) => (Raises e, metrics, w)
  | (Returns explanation, metrics, w) =>
      let metrics := set_end_time (clock B (ticks w)) metrics in
      let w := tick w in
      let result := {| original_code := code;
                       explanation := explanation;
                       metrics := metrics;
                       timestamp := clock B (ticks w) |} in
      let w := tick w in
      let w :=
        match cache_key with
        | Some key =>
            if use_cache self && PyStr.truthy key
            then snd (cache_set key result (self_cache_ttl self) w)
            else w
        | None => w
        end in
      (Returns result, metrics, w)
  end.

(** [explain].  [fuel] bounds the depth of the recursion; [None] is
    running out of it. *)
Fixpoint explain (fuel : nat) (self : CodeExplainer) (code : string)
    (provider_name : option string) (auto_fallback : bool)
    (stream_callback : option Callable) (validate_input : bool)
    (w : World) : option (Reply ExplanationResult * World) :=
  match fuel with
  | O => None
  | S fuel =>
      match explain_validate self code validate_input w with
      | (Raises e, w) => Some (Raises e, w)
      | (Returns _, w) =>
      match explain_resolve self provider_name auto_fallback w with
      | (Raises e, w) => Some (Raises e, w)
      | (Returns provider, w) =>
      match explain_probe self code provider stream_callback w with
      | (Raises e, w) => Some (Raises e, w)
      | (Returns (_, Some cached_result), w) => Some (Returns cached_result, w)
      | (Returns (cache_key, None), w) =>
      match explain_metrics provider w with
      | (Raises e, w) => Some (Raises e, w)
      | (Returns metrics, w) =>
      match explain_try self code provider stream_callback cache_key metrics w with
      | (Returns result, _, w) => Some (Returns result, w)
      | (Raises e, metrics, w) =>
          if is_Exception e then
            let metrics := set_end_time (clock B (ticks w)) metrics in
            let w := tick w in
            let metrics := set_error (str_of e) metrics in
            if auto_fallback then
              match _get_fallback_provider self (BaseProvider.name provider) w with
              | (Raises e', w) => Some (Raises e', w)
              | (Returns (Some fallback_provider), w) =>
                  explain fuel self code
                    (Some (BaseProvider.name fallback_provider))
                    false stream_callback false w
              | (Returns None, w) => Some (Raises e, w)
              end
            else Some (Raises e, w)
          else Some (Raises e, w)
      end end end end end
  end.

End Explainer.

(* ------------------------------------------------------------------- *)
(** ** [list_available_providers] *)

Section Listing.

Variable B : Backend.

(** The comprehension of [list_available_providers] over the items of
    [self.providers]; a [dict] hands out its items in insertion order. *)
Fixpoint available_among (self : CodeExplainer) (names : list string)
  : M (list string) :=
  match names with
  | [] => ret []
  | name :: rest =>
      match providers self !! name with
      | None => available_among self rest
      | Some provider =>
          available <- is_available B provider ;;
          listed <- available_among self rest ;;
          ret (if available then name :: listed else listed)
      end
  end.

(** [list_available_providers]; [__init__] inserts "gemini", then "ollama". *)
Definition list_available_providers (self : CodeExplainer) : M (list string) :=
  available_among self ["gemini"; "ollama"].

End Listing.

(* ===================================================================== *)
(** * Observations on a run *)
(* ===================================================================== *)

(** A stream that hands out the items of a list and then ends. *)
Fixpoint stream_of_list {C} (items : list C) : Stream C :=
  match items with
  | [] => SEnd
  | c :: rest => SItem c (stream_of_list rest)
  end.

Definition ollama_fragment (chunk : OllamaChunk) : string :=
  match oc_content chunk with Some c => c | None => "" end.

Definition gemini_fragment (chunk : GeminiChunk) : string :=
  match gc_text chunk with Some t => t | None => "" end.

(** The fragments a stream emits before it ends or fails. *)
Fixpoint fragments {C} (fragment : C -> string) (s : Stream C) : list string :=
  match s with
  | SItem c rest => fragment c :: fragments fragment rest
  | _ => []
  end.

(** How a stream finishes: it ends, and [v] is the answer, or it raises. *)
Fixpoint stream_end {C A} (s : Stream C) (v : A) : Reply A :=
  match s with
  | SEnd => Returns v
  | SItem _ rest => stream_end rest v
  | SRaise e => Raises e
  end.

Definition callback_events (stream_callback : option Callable) (text : string)
  : list Event :=
  match stream_callback with
  | Some _ => [EvCallback text]
  | None => []
  end.

(** What a consumer that asks for a fragment, hands it to the sink when it
    is not empty, and only then asks for the next one, leaves in the trace. *)
Fixpoint forwarding (provider : string) (stream_callback : option Callable)
    (emitted : list string) : list Event :=
  match emitted with
  | [] => [EvNextChunk provider]
  | f :: rest =>
      EvNextChunk provider
        :: (if PyStr.truthy f then callback_events stream_callback f else [])
        ++ forwarding provider stream_callback rest
  end.

(** The fragments that are not empty. *)
Fixpoint non_empty (emitted : list string) : list string :=
  match emitted with
  | [] => []
  | f :: rest => if PyStr.truthy f then f :: non_empty rest else non_empty rest
  end.

(** The texts handed to the sink, in order. *)
Fixpoint callbacks (t : list Event) : list string :=
  match t with
  | [] => []
  | EvCallback text :: rest => text :: callbacks rest
  | _ :: rest => callbacks rest
  end.

(** Requests for a streamed generation. *)
Fixpoint generation_calls (t : list Event) : nat :=
  match t with
  | [] => O
  | EvOllamaChatStream _ _ :: rest => S (generation_calls rest)
  | EvGeminiGenerateContentStream _ _ :: rest => S (generation_calls rest)
  | _ :: rest => generation_calls rest
  end.

(** Requests to a validator. *)
Fixpoint validator_calls (t : list Event) : nat :=
  match t with
  | [] => O
  | EvOllamaChat _ _ :: rest => S (validator_calls rest)
  | EvGeminiGenerateContent _ _ :: rest => S (validator_calls rest)
  | _ :: rest => validator_calls rest
  end.

(** The last item a stream hands out, [init] when it hands out none. *)
Fixpoint last_chunk {C} (s : Stream C) (init : option C) : option C :=
  match s with
  | SItem c rest => last_chunk rest (Some c)
  | _ => init
  end.

(** From [w] to [w'] at most [n] streamed generations are requested;
    with [effect], the cache is untouched as well. *)
Definition requests (n : nat) (w w' : World) : Prop :=
  exists events,
    trace w' = (trace w ++ events)%list
    /\ (generation_calls events <= n)%nat.

Definition effect (n : nat) (w w' : World) : Prop :=
  cache w' = cache w /\ requests n w w'.

(** The cache after a call of [explain] for [code] that answered [r]:
    as before, or with the one result the call returned, generated in this
    call, filed under the key of the provider that generated it. *)
Definition written (code : string) (w w' : World)
    (r : Reply ExplanationResult) : Prop :=
  cache w' = cache w
  \/ exists result expire_time,
       r = Returns result
       /\ cache_hit (metrics result) = false
       /\ cache w'
          = <[_get_cache_key code (model_provider (metrics result))
                (model (metrics result))
              := {| entry_value := result;
                    entry_expire_time := Some expire_time |}]> (cache w).

(** A computation that neither writes the cache nor requests a generation. *)
Definition quiet {A} (c : M A) : Prop :=
  forall w r w', c w = (r, w') -> effect 0 w w'.

(** What lines 117-120 of [ollama.py] make of a chunk: nothing when it is
    not flagged [done], the sum of its two counters, or the [TypeError] of
    the addition. *)
Definition chunk_total (chunk : OllamaChunk) : Reply (option Z) :=
  if oc_done chunk then
    match add_counts (oc_prompt_eval_count chunk) (oc_eval_count chunk) with
    | Returns total => Returns (Some total)
    | Raises e => Raises e
    end
  else Returns None.

(** The fragments the loop of Ollama is handed: those of the stream up to
    its end, its failure, or the first chunk whose counters cannot be
    added, that chunk included. *)
Fixpoint ollama_emitted (s : Stream OllamaChunk) : list string :=
  match s with
  | SItem chunk rest =>
      ollama_fragment chunk
        :: match chunk_total chunk with
           | Returns _ => ollama_emitted rest
           | Raises _ => []
           end
  | _ => []
  end.

(** How the loop of Ollama finishes: as the stream does, or with the
    [TypeError] of the first chunk whose counters cannot be added. *)
Fixpoint ollama_end {A} (s : Stream OllamaChunk) (v : A) : Reply A :=
  match s with
  | SEnd => Returns v
  | SItem chunk rest =>
      match chunk_total chunk with
      | Returns _ => ollama_end rest v
      | Raises e => Raises e
      end
  | SRaise e => Raises e
  end.

(** What the loop of Ollama leaves in the trace: as [forwarding], but after
    a chunk whose counters cannot be added nothing more is asked for. *)
Fixpoint ollama_forwarding (stream_callback : option Callable)
    (s : Stream OllamaChunk) : list Event :=
  match s with
  | SItem chunk rest =>
      EvNextChunk "ollama"
        :: (if PyStr.truthy (ollama_fragment chunk)
            then callback_events stream_callback (ollama_fragment chunk)
            else [])
        ++ match chunk_total chunk with
           | Returns _ => ollama_forwarding stream_callback rest
           | Raises _ => []
           end
  | _ => [EvNextChunk "ollama"]
  end.

(** Every chunk flagged [done] comes with both counters. *)
Fixpoint all_counted (s : Stream OllamaChunk) : bool :=
  match s with
  | SItem chunk rest =>
      match chunk_total chunk with
      | Returns _ => all_counted rest
      | Raises _ => false
      end
  | _ => true
  end.

(** A streamed generation by [self] that sends [request], leaves [events]
    in the trace while it is handed the fragments [emitted], and then sees
    the loop finish as [ending]: the sink gets the non-empty fragments in
    order, and when the loop ends with some text, [_invoke_model] answers
    the concatenation and [explain_code] answers it stripped. *)
Definition streamed (B : Backend) (self : BaseProvider.t) (code : string)
    (stream_callback : option Callable) (request : Event)
    (events : list Event) (emitted : list string) (ending : Reply unit) : Prop :=
  forall m w,
  exists r m' w',
    explain_code B self code m stream_callback w = (r, m', w')
    /\ trace w' = (trace w ++ request :: events)%list
    /\ callbacks (trace w')
       = (callbacks (trace w)
            ++ match stream_callback with
               | Some _ => non_empty emitted
               | None => []
               end)%list
    /\ (ending = Returns tt ->
        PyStr.truthy (PyStr.concat_all emitted) = true ->
        (forall m0,
            fst (fst (_invoke_model B self BaseProvider._build_prompt code m0
                        stream_callback w))
            = Returns (PyStr.concat_all emitted))
        /\ r = Returns (PyStr.strip (PyStr.concat_all emitted))).

(** A validation candidate that gives no answer between [w] and [w']:
    it is not available, or it is asked and raises; [errors] is what the
    validator notes down for it. *)
Inductive candidate_fails (settings : Settings) (B : Backend) (code : string)
    (provider_name : string) (p : BaseProvider.t)
  : World -> list string -> World -> Prop :=
| candidate_unavailable w w' :
    is_available B p w = (Returns false, w') ->
    candidate_fails settings B code provider_name p w [] w'
| candidate_raises w w1 e w' :
    is_available B p w = (Returns true, w1) ->
    generate_structured B p (validation_prompt_for settings code) w1
    = (Raises e, w') ->
    is_Exception e = true ->
    candidate_fails settings B code provider_name p w
      [provider_name ++ ": " ++ str_of e] w'.

(** What a loop over a stream leaves untouched, and what it adds. *)
Record loop_frame (events : list Event)
    (m m' : PerformanceMetrics) (w w' : World) : Prop := {
  frame_trace : trace w' = (trace w ++ events)%list;
  frame_cache : cache w' = cache w;
  frame_available : ollama_is_available_cache w' = ollama_is_available_cache w;
  frame_model : model m' = model m;
  frame_model_provider : model_provider m' = model_provider m;
  frame_cache_hit : cache_hit m' = cache_hit m
}.

(** What a streamed generation leaves of the metrics it was given. *)
Definition same_identity (m m' : PerformanceMetrics) : Prop :=
  model m' = model m /\ model_provider m' = model_provider m
  /\ cache_hit m' = cache_hit m.

(** Two different byte strings with one digest. *)
Definition sha256_collision (a b : list Sha256.byte) : Prop :=
  a <> b /\ Sha256.hexdigest a = Sha256.hexdigest b.

(** ["|" not in s]. *)
Definition bar_free (s : string) : bool := negb (PyStr.contains "|" s).

(* ------------------------------------------------------------------- *)
(** ** Further observations *)

(** [ProviderError] and its three subclasses. *)
Definition is_ProviderError (e : exn) : bool :=
  match exn_class e with
  | ProviderError | RateLimitError | ModelUnavailableError | APITimeoutError => true
  | _ => false
  end.

(** What [generate_structured] puts in front of the cause. *)
Definition structured_prefix (self : BaseProvider.t) : string :=
  match BaseProvider.class self with
  | BaseProvider.GeminiProvider => "Gemini structured generation error: "
  | BaseProvider.OllamaProvider => "Ollama structured generation error: "
  end.

(** The request of a provider to its validator. *)
Definition structured_request (self : BaseProvider.t) (prompt : string) : Event :=
  match BaseProvider.class self with
  | BaseProvider.GeminiProvider => EvGeminiGenerateContent (BaseProvider.model self) prompt
  | BaseProvider.OllamaProvider => EvOllamaChat (BaseProvider.model self) prompt
  end.

(** How [explain_code] treats a stream that ends with the fragments
    [emitted]: without any text it raises a [ProviderError] saying [message]
    and the sink is never called; with text that is white space only it
    returns the empty explanation. *)
Definition checks_before_stripping (B : Backend) (self : BaseProvider.t)
    (code : string) (cb : option Callable) (emitted : list string)
    (message : string) : Prop :=
  (PyStr.concat_all emitted = "" ->
   forall m w, exists m' w',
     explain_code B self code m cb w = (Raises (mk_exn ProviderError message), m', w')
     /\ callbacks (trace w') = callbacks (trace w))
  /\ (PyStr.truthy (PyStr.concat_all emitted) = true ->
      PyStr.strip (PyStr.concat_all emitted) = "" ->
      forall m w, exists m' w',
        explain_code B self code m cb w = (Returns "", m', w')).

(** The first-token time a streaming loop leaves in the metrics, and the
    clock readings it takes: one reading, at the first fragment that is not
    empty, and none when the stream emits no text. *)
Definition first_token_clock (B : Backend) (emitted : list string)
    (m m' : PerformanceMetrics) (w w' : World) : Prop :=
  start_time m' = start_time m
  /\ match non_empty emitted with
     | [] =>
         time_to_first_token m' = time_to_first_token m
         /\ ticks w' = ticks w
     | _ :: _ =>
         time_to_first_token m'
         = Some (clock B (ticks w) - start_time m)%float
         /\ ticks w' = S (ticks w)
     end.

(** What [explain] makes of a validator's verdict. *)
Definition verdict_reply (verdict : ValidationResult) : Reply unit :=
  if is_valid verdict then Returns tt
  else Raises (mk_exn ValueError
                 ("Input validation failed: " ++ reason verdict)).

(** The characters in which [hexdigest] writes. *)
Definition is_hex (c : ascii) : bool :=
  existsb (Ascii.eqb c) (list_ascii_of_string "0123456789abcdef").

(** Every character of [s] satisfies [p]. *)
Fixpoint all_chars (p : ascii -> bool) (s : string) : bool :=
  match s with
  | EmptyString => true
  | String c rest => p c && all_chars p rest
  end.

(** From [w] to [w'] at most [n] structured requests go to a validator. *)
Definition asks (n : nat) (w w' : World) : Prop :=
  exists events,
    trace w' = (trace w ++ events)%list
    /\ (validator_calls events <= n)%nat.

(** A computation that sends at most [n] structured requests. *)
Definition asking {A} (n : nat) (c : M A) : Prop :=
  forall w r w', c w = (r, w') -> asks n w w'.

(** The events of a streamed generation. *)
Definition is_generation_event (ev : Event) : bool :=
  match ev with
  | EvOllamaChatStream _ _ | EvGeminiGenerateContentStream _ _
  | EvNextChunk _ | EvCallback _ => true
  | _ => false
  end.

(** What a generation adds to the trace, and that it leaves the memo of
    Ollama's availability alone. *)
Definition generation_only (w w' : World) : Prop :=
  ollama_is_available_cache w' = ollama_is_available_cache w
  /\ exists events,
       trace w' = (trace w ++ events)%list
       /\ forallb is_generation_event events = true.

(** Calls of [ollama.list()]. *)
Fixpoint list_calls (t : list Event) : nat :=
  match t with
  | [] => O
  | EvOllamaList :: rest => S (list_calls rest)
  | _ :: rest => list_calls rest
  end.

(** An exception that no [except Exception] handler catches. *)
Definition uncaught {A} (r : Reply A) : Prop :=
  exists e, r = Raises e /\ is_Exception e = false.

(** From [w] to [w'], answering [r]: the server is not asked for its list
    and the memo stays as it was, or it is asked once, the memo was empty
    and is now filled, unless the request was interrupted. *)
Definition probed {A} (w : World) (r : Reply A) (w' : World) : Prop :=
  exists events,
    trace w' = (trace w ++ events)%list
    /\ ((list_calls events = 0%nat
         /\ ollama_is_available_cache w' = ollama_is_available_cache w)
        \/ (list_calls events = 1%nat
            /\ ollama_is_available_cache w = None
            /\ (ollama_is_available_cache w' <> None \/ uncaught r))).

(** A computation that keeps to this, from every state. *)
Definition probing {A} (c : M A) : Prop :=
  forall w r w', c w = (r, w') -> probed w r w'.

(** The last chunk of a stream that is flagged [done], [init] when there is
    none. *)
Fixpoint last_done (s : Stream OllamaChunk) (init : option OllamaChunk)
  : option OllamaChunk :=
  match s with
  | SItem chunk rest =>
      last_done rest (if oc_done chunk then Some chunk else init)
  | _ => init
  end.

(** The token count the loop of Ollama leaves in metrics that held [init]:
    the sum of the counters of the last chunk flagged [done] that it got
    through, and [init] when there is none. *)
Fixpoint ollama_total (s : Stream OllamaChunk) (init : option Z) : option Z :=
  match s with
  | SItem chunk rest =>
      match chunk_total chunk with
      | Returns (Some total) => ollama_total rest (Some total)
      | Returns None => ollama_total rest init
      | Raises _ => init
      end
  | _ => init
  end.

(** The fields of the metrics that a generation does not write unless it
    fails. *)
Definition same_bookkeeping (m m' : PerformanceMetrics) : Prop :=
  start_time m' = start_time m
  /\ end_time m' = end_time m
  /\ error m' = error m.

(** A result as [explain] builds it from a generation that started at the
    [n]-th reading of the clock. *)
Definition well_formed_result (B : Backend) (code : string)
    (result : ExplanationResult) : Prop :=
  original_code result = code
  /\ PyStr.strip (explanation result) = explanation result
  /\ error (metrics result) = None
  /\ exists n k,
       (k = 1 \/ k = 2)%nat
       /\ start_time (metrics result) = clock B n
       /\ end_time (metrics result) = Some (clock B (n + k))
       /\ timestamp result = clock B (n + k + 1).

(* ===================================================================== *)
(** * Scenarios *)
(* ===================================================================== *)

Module Scenario.

(** The clock reads 1000, 1001, 1002, ... *)
Definition readings (n : nat) : float := nearest_float (1000 + Z.of_nat n).

Definition refused : exn := mk_exn LibraryError "Connection refused".

Definition chunk (text : string) (done : bool) : OllamaChunk :=
  {| oc_content := Some text; oc_done := done;
     oc_prompt_eval_count := Some 7; oc_eval_count := Some 13 |}.

(** A final chunk that came without its [prompt_eval_count]. *)
Definition uncounted (text : string) : OllamaChunk :=
  {| oc_content := Some text; oc_done := true;
     oc_prompt_eval_count := None; oc_eval_count := Some 13 |}.

Definition accepted : ValidationResult :=
  {| is_valid := true; reason := "Looks like Python"; confidence := 0.75%float |}.

Definition hello : list OllamaChunk :=
  [chunk "Hello" false; chunk " world" true].

Definition padded_hello : list OllamaChunk :=
  [chunk " Hello" false; chunk (" world" ++ PyStr.LF) true].

(** Ollama is running and streams the given chunks; Gemini accepts the
    input as code but its generation runs into the rate limit. *)
Definition gemini_limited (chunks : list OllamaChunk) : Backend := {|
  clock := readings;
  ollama_list := Returns tt;
  ollama_chat := fun _ _ => Raises refused;
  model_validate_json := fun _ => Raises refused;
  ollama_chat_stream := fun _ _ => Returns (stream_of_list chunks);
  gemini_generate_content := fun _ _ => Returns (Some accepted);
  gemini_generate_content_stream :=
    fun _ _ => Raises (mk_exn LibraryError "429 quota exceeded")
|}.

(** Gemini accepts the input as code and then runs into its rate limit;
    Ollama is running, but its generation times out. *)
Definition both_fail : Backend := {|
  clock := readings;
  ollama_list := Returns tt;
  ollama_chat := fun _ _ => Raises refused;
  model_validate_json := fun _ => Raises refused;
  ollama_chat_stream :=
    fun _ _ => Raises (mk_exn LibraryError "request timed out");
  gemini_generate_content := fun _ _ => Returns (Some accepted);
  gemini_generate_content_stream :=
    fun _ _ => Raises (mk_exn LibraryError "429 quota exceeded")
|}.

(** Both providers are there, but neither answers a validation request. *)
Definition validators_down : Backend := {|
  clock := readings;
  ollama_list := Returns tt;
  ollama_chat := fun _ _ => Raises refused;
  model_validate_json := fun _ => Raises refused;
  ollama_chat_stream := fun _ _ => Returns (stream_of_list hello);
  gemini_generate_content :=
    fun _ _ => Raises (mk_exn LibraryError "503 unavailable");
  gemini_generate_content_stream :=
    fun _ _ => Raises (mk_exn LibraryError "503 unavailable")
|}.

(** Gemini emits one fragment and is then interrupted by the caller. *)
Definition interrupted : Backend := {|
  clock := readings;
  ollama_list := Returns tt;
  ollama_chat := fun _ _ => Raises refused;
  model_validate_json := fun _ => Raises refused;
  ollama_chat_stream := fun _ _ => Returns (stream_of_list hello);
  gemini_generate_content := fun _ _ => Returns (Some accepted);
  gemini_generate_content_stream :=
    fun _ _ =>
      Returns (SItem {| gc_text := Some "Adds"; gc_usage_metadata := None |}
                 (SRaise (mk_exn KeyboardInterrupt "")))
|}.

Definition turned_down : ValidationResult :=
  {| is_valid := false; reason := "Not code"; confidence := 0.875%float |}.

(** Ollama is down and Gemini, as validator, turns the input down. *)
Definition rejecting : Backend := {|
  clock := readings;
  ollama_list := Raises refused;
  ollama_chat := fun _ _ => Raises refused;
  model_validate_json := fun _ => Raises refused;
  ollama_chat_stream := fun _ _ => Raises refused;
  gemini_generate_content := fun _ _ => Returns (Some turned_down);
  gemini_generate_content_stream :=
    fun _ _ => Raises (mk_exn LibraryError "429 quota exceeded")
|}.

(** Nothing answers. *)
Definition all_down : Backend := {|
  clock := readings;
  ollama_list := Raises refused;
  ollama_chat := fun _ _ => Raises refused;
  model_validate_json := fun _ => Raises refused;
  ollama_chat_stream := fun _ _ => Raises refused;
  gemini_generate_content := fun _ _ => Raises refused;
  gemini_generate_content_stream := fun _ _ => Raises refused
|}.

Definition fresh : World :=
  {| ticks := 0; cache := ∅; ollama_is_available_cache := None; trace := [] |}.

Definition with_key : Settings := default_settings "AIza-test-key".
Definition without_key : Settings := default_settings "".

Definition code : string := "def f(x): return x + 1".

Definition blank_metrics : PerformanceMetrics :=
  {| model := ""; model_provider := ""; start_time := 1000%float;
     end_time := None; time_to_first_token := None; total_tokens := None;
     error := None; cache_hit := false |}.

(** An earlier answer of Gemini for [code], as it sits in the cache. *)
Definition earlier : ExplanationResult :=
  {| original_code := code;
     explanation := "Adds one to its argument.";
     metrics := {| model := "gemini-2.5-flash"; model_provider := "gemini";
                   start_time := 10%float; end_time := Some 12%float;
                   time_to_first_token := Some 0.5%float;
                   total_tokens := Some 40; error := None;
                   cache_hit := false |};
     timestamp := 12%float |}.

Definition warm : World :=
  {| ticks := 0;
     cache := {[ _get_cache_key code "gemini" "gemini-2.5-flash" :=
                   {| entry_value := earlier; entry_expire_time := None |} ]};
     ollama_is_available_cache := None;
     trace := [] |}.

End Scenario.

(* ===================================================================== *)
(** * The embedding on known values *)
(* ===================================================================== *)

Example sha256_constants :
  List.firstn 2 Sha256.round_constants = [0x428a2f98; 0x71374491]
  /\ List.nth 63 Sha256.round_constants 0 = 0xc67178f2
  /\ Sha256.ra Sha256.initial_hash = 0x6a09e667
  /\ Sha256.rh Sha256.initial_hash = 0x5be0cd19.
Proof. vm_compute. repeat split. Qed.

Example sha256_abc :
  Sha256.hexdigest (Sha256.encode "abc")
  = "ba7816bf8f01cfea414140de5dae2223b00361a396177a9cb410ff61f20015ad".
Proof. vm_compute. reflexivity. Qed.

Example sha256_empty :
  Sha256.hexdigest (Sha256.encode "")
  = "e3b0c44298fc1c149afbf4c8996fb92427ae41e4649b934ca495991b7852b855".
Proof. vm_compute. reflexivity. Qed.

Example sha256_two_blocks :
  Sha256.hexdigest
    (Sha256.encode "abcdbcdecdefdefgefghfghighijhijkijkljklmklmnlmnomnopnopq")
  = "248d6a61d20638b8e5c026930c3e6039a33ce45964ff2167f6ecedd419db06c1".
Proof. vm_compute. reflexivity. Qed.

Example strip_example : PyStr.strip ("  a b " ++ PyStr.LF) = "a b".
Proof. reflexivity. Qed.

Example of_int_examples :
  PyStr.of_int 10 = "10" /\ PyStr.of_int 0 = "0" /\ PyStr.of_int (-5) = "-5".
Proof. repeat split. Qed.

Example float_of_int_examples :
  float_of_int 20 = Returns 20%float
  /\ float_of_int (2 ^ 53 + 1) = Returns 9007199254740992%float
  /\ float_of_int (2 ^ 53 + 3) = Returns 9007199254740996%float
  /\ float_of_int (2 ^ 1024 - 2 ^ 970 - 1)
     = Returns 0x1.fffffffffffffp+1023%float
  /\ float_of_int (2 ^ 1024 - 2 ^ 970)
     = Raises (mk_exn OverflowError "int too large to convert to float")
  /\ float_of_int (- 10 ^ 400)
     = Raises (mk_exn OverflowError "int too large to convert to float").
Proof. vm_compute. repeat split. Qed.

Example add_counts_examples :
  add_counts (Some 7) (Some 13) = Returns 20
  /\ add_counts None (Some 13)
     = Raises (mk_exn TypeError
                 "unsupported operand type(s) for +: 'NoneType' and 'int'")
  /\ add_counts (Some 7) None
     = Raises (mk_exn TypeError
                 "unsupported operand type(s) for +: 'int' and 'NoneType'")
  /\ add_counts None None
     = Raises (mk_exn TypeError
                 "unsupported operand type(s) for +: 'NoneType' and 'NoneType'").
Proof. repeat split. Qed.

Example lower_contains_example :
  PyStr.contains "quota" (PyStr.lower "429 Quota exceeded") = true.
Proof. reflexivity. Qed.

(* ===================================================================== *)
(** * Derived metrics *)
(* ===================================================================== *)

Lemma truthy_opt_float_Some (x : option float) :
  truthy_opt_float x = true -> exists v, x = Some v /\ truthy_float v = true.
Proof. destruct x as [v|]; simpl; [eauto | discriminate]. Qed.

(** C4, as stated, fails: an end time of zero counts as unset, a first
    token at elapsed time zero or a token count of zero leaves the rate
    undefined although the generation time is positive, and a token count
    too large for a [float] makes the division raise. *)
Lemma metrics_derived_counterexample :
  let at_zero :=
    {| model := "m"; model_provider := "ollama"; start_time := 0%float;
       end_time := Some 0%float; time_to_first_token := None;
       total_tokens := None; error := None; cache_hit := false |} in
  let no_tokens :=
    {| model := "m"; model_provider := "ollama"; start_time := 0%float;
       end_time := Some 3%float; time_to_first_token := Some 1%float;
       total_tokens := Some 0; error := None; cache_hit := false |} in
  let instant :=
    {| model := "m"; model_provider := "ollama"; start_time := 0%float;
       end_time := Some 2%float; time_to_first_token := Some 0%float;
       total_tokens := Some 20; error := None; cache_hit := false |} in
  let huge :=
    {| model := "m"; model_provider := "ollama"; start_time := 0%float;
       end_time := Some 3%float; time_to_first_token := Some 1%float;
       total_tokens := Some (10 ^ 400); error := None; cache_hit := false |} in
  (end_time at_zero = Some 0%float /\ total_time at_zero = None)
  /\ ((0 <? 3 - (0 + 1))%float = true
      /\ tokens_per_second no_tokens = Returns None)
  /\ ((0 <? 2 - (0 + 0))%float = true
      /\ tokens_per_second instant = Returns None)
  /\ ((0 <? 3 - (0 + 1))%float = true
      /\ tokens_per_second huge
         = Raises (mk_exn OverflowError "int too large to convert to float")).
Proof. vm_compute. repeat split. Qed.

(** C4, amended: [total_time] is [end_time - start_time] when [end_time] is
    set and not zero and undefined otherwise; [tokens_per_second] is
    [total_tokens / (end_time - (start_time + time_to_first_token))] when
    [end_time], [time_to_first_token] and [total_tokens] are all set and not
    zero, that denominator is positive and [total_tokens] has a finite
    nearest [float]; with a larger [total_tokens] it raises
    [OverflowError]; it is undefined otherwise, and has a value or raises in
    no other case. *)
Theorem metrics_derived (m : PerformanceMetrics) :
  (forall e, end_time m = Some e -> truthy_float e = true ->
     total_time m = Some (e - start_time m)%float)
  /\ (truthy_opt_float (end_time m) = false ->
      total_time m = None /\ tokens_per_second m = Returns None)
  /\ (forall e t n,
        end_time m = Some e -> time_to_first_token m = Some t ->
        total_tokens m = Some n ->
        truthy_float e = true -> truthy_float t = true -> n <> 0 ->
        (0 <? e - (start_time m + t))%float = true ->
        (forall tokens,
            float_of_int n = Returns tokens ->
            tokens_per_second m
            = Returns (Some (tokens / (e - (start_time m + t)))%float))
        /\ (forall err,
              float_of_int n = Raises err ->
              err = mk_exn OverflowError "int too large to convert to float"
              /\ tokens_per_second m = Raises err))
  /\ (tokens_per_second m <> Returns None ->
        exists e t n,
          end_time m = Some e /\ time_to_first_token m = Some t
          /\ total_tokens m = Some n
          /\ truthy_float e = true /\ truthy_float t = true /\ n <> 0
          /\ (0 <? e - (start_time m + t))%float = true).
Proof.
  unfold total_time, tokens_per_second.
  split; [|split; [|split]].
  - intros e -> ->. reflexivity.
  - intros H. split.
    + destruct (end_time m) as [e|]; simpl in *; [rewrite H|]; reflexivity.
    + destruct (end_time m) as [e|]; simpl in *; [|reflexivity].
      rewrite H. simpl.
      destruct (time_to_first_token m), (total_tokens m); reflexivity.
  - intros e t n -> -> -> -> -> Hn Hpos. simpl.
    apply Z.eqb_neq in Hn. rewrite Hn. simpl. rewrite Hpos. split.
    + intros tokens ->. reflexivity.
    + intros err Herr. rewrite Herr. split; [|reflexivity].
      unfold float_of_int in Herr.
      destruct (PrimFloat.is_infinity (nearest_float n)); [|discriminate].
      now injection Herr as <-.
  - intros Hdefined.
    destruct (end_time m) as [e|]; [|contradiction].
    destruct (time_to_first_token m) as [t|]; [|contradiction].
    destruct (total_tokens m) as [n|]; [|contradiction].
    destruct (truthy_float e) eqn:He; [|contradiction].
    destruct (truthy_float t) eqn:Ht; [|contradiction].
    destruct (n =? 0) eqn:Hn; [contradiction|]. simpl in Hdefined.
    destruct (0 <? e - (start_time m + t))%float eqn:Hpos; [|contradiction].
    exists e, t, n. apply Z.eqb_neq in Hn. auto 10.
Qed.

(** The worked example: start 0, first token after 1.0, end 3.0 and 20
    tokens give 10.0 tokens per second; without an end time both derived
    values are undefined. *)
Lemma metrics_derived_witness :
  let m :=
    {| model := "m"; model_provider := "ollama"; start_time := 0%float;
       end_time := Some 3%float; time_to_first_token := Some 1%float;
       total_tokens := Some 20; error := None; cache_hit := false |} in
  let running :=
    {| model := "m"; model_provider := "ollama"; start_time := 0%float;
       end_time := None; time_to_first_token := Some 1%float;
       total_tokens := Some 20; error := None; cache_hit := false |} in
  tokens_per_second m = Returns (Some 10%float)
  /\ total_time m = Some 3%float
  /\ total_time running = None /\ tokens_per_second running = Returns None.
Proof.
  intros m running.
  destruct (metrics_derived m) as (Htotal & _ & Hrate & _).
  destruct (metrics_derived running) as (_ & Hunset & _).
  split; [|split].
  - assert (tokens_per_second m
            = Returns (Some (20 / (3 - (start_time m + 1)))%float)) as ->
      by (refine (proj1 (Hrate 3%float 1%float 20 _ _ _ _ _ _ _) 20%float _);
          reflexivity || discriminate).
    vm_compute. reflexivity.
  - rewrite (Htotal 3%float) by reflexivity. vm_compute. reflexivity.
  - apply Hunset. reflexivity.
Defined.

(* ===================================================================== *)
(** * The cache key *)
(* ===================================================================== *)

Section CacheKey.

Lemma code_point_range (c : ascii) : 0 <= PyStr.code_point c < 256.
Proof.
  unfold PyStr.code_point.
  pose proof (nat_ascii_bounded c). lia.
Qed.

Lemma code_point_inj (a b : ascii) :
  PyStr.code_point a = PyStr.code_point b -> a = b.
Proof.
  unfold PyStr.code_point. intros H. apply Nat2Z.inj in H.
  rewrite <- (ascii_nat_embedding a), <- (ascii_nat_embedding b).
  now rewrite H.
Qed.

(** UTF-8 is one-to-one. *)
Lemma encode_inj (s1 : string) :
  forall s2, Sha256.encode s1 = Sha256.encode s2 -> s1 = s2.
Proof.
  induction s1 as [|a s1 IH]; intros [|b s2]; simpl.
  - reflexivity.
  - destruct (PyStr.code_point b <? 128); discriminate.
  - destruct (PyStr.code_point a <? 128); discriminate.
  - pose proof (code_point_range a) as Ra.
    pose proof (code_point_range b) as Rb.
    pose proof (Z.div_mod (PyStr.code_point a) 64 ltac:(lia)) as Da.
    pose proof (Z.div_mod (PyStr.code_point b) 64 ltac:(lia)) as Db.
    assert (0 <= PyStr.code_point a / 64) by (apply Z.div_pos; lia).
    assert (0 <= PyStr.code_point b / 64) by (apply Z.div_pos; lia).
    destruct (PyStr.code_point a <? 128) eqn:Ha;
      destruct (PyStr.code_point b <? 128) eqn:Hb;
      intros Heq; injection Heq; intros;
      try apply Z.ltb_lt in Ha; try apply Z.ltb_lt in Hb; try lia;
      (f_equal; [apply code_point_inj; lia | apply IH; assumption]).
Qed.

Lemma append_assoc (a b c : string) : (a ++ b) ++ c = a ++ b ++ c.
Proof.
  induction a as [|x a IH]; [reflexivity|].
  change (String x ((a ++ b) ++ c) = String x (a ++ b ++ c)).
  now rewrite IH.
Qed.

Lemma contains_bar_cons (c : ascii) (s : string) :
  PyStr.contains "|" (String c s)
  = (if ascii_dec "|" c then true else PyStr.contains "|" s).
Proof.
  change (PyStr.contains "|" (String c s))
    with (String.prefix "|" (String c s) || PyStr.contains "|" s).
  change (String.prefix "|" (String c s))
    with (if ascii_dec "|" c then String.prefix "" s else false).
  destruct (ascii_dec "|" c); [|reflexivity].
  destruct s; reflexivity.
Qed.

Lemma bar_free_app_bar (a b : string) : bar_free (a ++ "|" ++ b) = false.
Proof.
  unfold bar_free. induction a as [|x a IH].
  - change ("" ++ "|" ++ b) with (String "|"%char b).
    rewrite contains_bar_cons. destruct (ascii_dec "|" "|"); [reflexivity | congruence].
  - change (String x a ++ "|" ++ b) with (String x (a ++ "|" ++ b)).
    rewrite contains_bar_cons. destruct (ascii_dec "|" x); [reflexivity | exact IH].
Qed.

(** A text is cut in one way only at its last bar. *)
Lemma split_at_last_bar (a1 : string) :
  forall a2 b1 b2,
    bar_free b1 = true -> bar_free b2 = true ->
    a1 ++ "|" ++ b1 = a2 ++ "|" ++ b2 -> a1 = a2 /\ b1 = b2.
Proof.
  induction a1 as [|x a1 IH]; intros [|y a2] b1 b2 H1 H2 Heq.
  - change (String "|"%char b1 = String "|"%char b2) in Heq.
    injection Heq as ->. auto.
  - change ("" ++ "|" ++ b1) with (String "|"%char b1) in Heq.
    change (String y a2 ++ "|" ++ b2) with (String y (a2 ++ "|" ++ b2)) in Heq.
    injection Heq as _ ->. rewrite bar_free_app_bar in H1. discriminate.
  - change ("" ++ "|" ++ b2) with (String "|"%char b2) in Heq.
    change (String x a1 ++ "|" ++ b1) with (String x (a1 ++ "|" ++ b1)) in Heq.
    injection Heq as _ <-. rewrite bar_free_app_bar in H2. discriminate.
  - change (String x a1 ++ "|" ++ b1) with (String x (a1 ++ "|" ++ b1)) in Heq.
    change (String y a2 ++ "|" ++ b2) with (String y (a2 ++ "|" ++ b2)) in Heq.
    injection Heq as -> Heq.
    destruct (IH a2 b1 b2 H1 H2 Heq) as [-> ->]. auto.
Qed.

Lemma cache_input_inj (c1 p1 m1 c2 p2 m2 : string) :
  bar_free p1 = true -> bar_free m1 = true ->
  bar_free p2 = true -> bar_free m2 = true ->
  cache_input c1 p1 m1 = cache_input c2 p2 m2 ->
  (c1, p1, m1) = (c2, p2, m2).
Proof.
  unfold cache_input. intros Hp1 Hm1 Hp2 Hm2 Heq.
  rewrite <- (append_assoc c1 "|" (p1 ++ "|" ++ m1)) in Heq.
  rewrite <- (append_assoc c2 "|" (p2 ++ "|" ++ m2)) in Heq.
  rewrite <- (append_assoc (c1 ++ "|") p1 ("|" ++ m1)) in Heq.
  rewrite <- (append_assoc (c2 ++ "|") p2 ("|" ++ m2)) in Heq.
  destruct (split_at_last_bar _ _ _ _ Hm1 Hm2 Heq) as [Hleft ->].
  rewrite !append_assoc in Hleft.
  destruct (split_at_last_bar _ _ _ _ Hp1 Hp2 Hleft) as [-> ->].
  reflexivity.
Qed.

End CacheKey.

(** C3, as stated, fails: the bar that separates the three components may
    also occur inside one.  These two requests differ, yet the very same
    bytes are hashed for both, so their keys agree without any collision of
    SHA-256. *)
Lemma cache_key_fingerprint_counterexample :
  ("x|gemini", "gemini", "m") <> ("x", "gemini", "gemini|m")
  /\ Sha256.encode (cache_input "x|gemini" "gemini" "m")
     = Sha256.encode (cache_input "x" "gemini" "gemini|m")
  /\ _get_cache_key "x|gemini" "gemini" "m" = _get_cache_key "x" "gemini" "gemini|m".
Proof. split; [discriminate | split; reflexivity]. Qed.

(** C3, amended: the key is a function of the triple (equal triples give
    equal keys), and two distinct triples whose provider name and model name
    contain no bar never share a key except through a collision of SHA-256
    on two different byte strings. *)
Theorem cache_key_fingerprint (c1 p1 m1 c2 p2 m2 : string) :
  bar_free p1 = true -> bar_free m1 = true ->
  bar_free p2 = true -> bar_free m2 = true ->
  ((c1, p1, m1) = (c2, p2, m2) -> _get_cache_key c1 p1 m1 = _get_cache_key c2 p2 m2)
  /\ (_get_cache_key c1 p1 m1 = _get_cache_key c2 p2 m2 ->
      (c1, p1, m1) = (c2, p2, m2)
      \/ sha256_collision (Sha256.encode (cache_input c1 p1 m1))
                          (Sha256.encode (cache_input c2 p2 m2))).
Proof.
  intros Hp1 Hm1 Hp2 Hm2. split.
  - intros Heq. injection Heq as -> -> ->. reflexivity.
  - intros Hkey.
    destruct (decide ((Sha256.encode (cache_input c1 p1 m1) : list Z)
                      = Sha256.encode (cache_input c2 p2 m2)))
      as [Hbytes | Hbytes].
    + left. apply encode_inj in Hbytes. now apply cache_input_inj.
    + right. split; [exact Hbytes | exact Hkey].
Qed.

(** The two registered providers with their default models: same code,
    different keys. *)
Lemma cache_key_fingerprint_witness :
  (bar_free "gemini" = true /\ bar_free "gemini-2.5-flash" = true
   /\ bar_free "ollama" = true /\ bar_free "llama3.2:1b" = true)
  /\ _get_cache_key Scenario.code "gemini" "gemini-2.5-flash"
     = _get_cache_key Scenario.code "gemini" "gemini-2.5-flash"
  /\ (_get_cache_key Scenario.code "gemini" "gemini-2.5-flash"
      = _get_cache_key Scenario.code "ollama" "llama3.2:1b" ->
      (Scenario.code, "gemini", "gemini-2.5-flash")
      = (Scenario.code, "ollama", "llama3.2:1b")
      \/ sha256_collision
           (Sha256.encode (cache_input Scenario.code "gemini" "gemini-2.5-flash"))
           (Sha256.encode (cache_input Scenario.code "ollama" "llama3.2:1b"))).
Proof.
  split; [repeat split; reflexivity|].
  split.
  - apply (cache_key_fingerprint Scenario.code "gemini" "gemini-2.5-flash"
             Scenario.code "gemini" "gemini-2.5-flash"); reflexivity.
  - apply (cache_key_fingerprint Scenario.code "gemini" "gemini-2.5-flash"
             Scenario.code "ollama" "llama3.2:1b"); reflexivity.
Defined.

(* ===================================================================== *)
(** * Input validation: the length checks *)
(* ===================================================================== *)

(** C8, as stated, fails: the checks run in order, so an input that is
    longer than the maximum but blank after trimming is turned down by the
    first check, and the reason states the minimum, not the maximum. *)
Lemma validate_length_counterexample :
  let code := PyStr.replicate (Z.to_nat 100001) " " in
  (max_code_length Scenario.with_key <? PyStr.len code) = true
  /\ fst (_validate_input_code Scenario.with_key Scenario.all_down
            (CodeExplainer_init Scenario.with_key None) code Scenario.fresh)
     = Returns {| is_valid := false;
                  reason := "Code is too short (minimum 10 characters)";
                  confidence := 1%float |}.
Proof. vm_compute. split; reflexivity. Qed.

(** C8, amended: an input whose trimmed length is below the minimum is
    invalid with confidence 1.0 and a reason stating the minimum; an input
    whose trimmed length is not below the minimum and whose raw length
    exceeds the maximum is invalid with confidence 1.0 and a reason stating
    the maximum (in thousands of characters); in both cases the world is
    left as it was, so no provider is contacted. *)
Theorem validate_length_checks (settings : Settings) (B : Backend)
    (self : CodeExplainer) (code : string) (w : World) :
  (PyStr.len (PyStr.strip code) < min_code_length settings ->
   _validate_input_code settings B self code w
   = (Returns {| is_valid := false;
                 reason := "Code is too short (minimum "
                           ++ PyStr.of_int (min_code_length settings)
                           ++ " characters)";
                 confidence := 1%float |}, w))
  /\ (min_code_length settings <= PyStr.len (PyStr.strip code) ->
      max_code_length settings < PyStr.len code ->
      _validate_input_code settings B self code w
      = (Returns {| is_valid := false;
                    reason := "Code is too large (maximum "
                              ++ PyStr.of_int (max_code_length settings / 1000)
                              ++ "KB)";
                    confidence := 1%float |}, w)).
Proof.
  unfold _validate_input_code. split.
  - intros Hshort. apply Z.ltb_lt in Hshort. rewrite Hshort. reflexivity.
  - intros Hlong Hlarge.
    apply Z.ltb_ge in Hlong. apply Z.ltb_lt in Hlarge.
    rewrite Hlong, Hlarge. reflexivity.
Qed.

(** Code of length 5 against the minimum of 10, and 100001 letters against
    the maximum of 100000, with every service down and an empty trace before
    and after. *)
Lemma validate_length_checks_witness :
  let self := CodeExplainer_init Scenario.with_key None in
  let run := _validate_input_code Scenario.with_key Scenario.all_down self in
  (PyStr.len "x = 1" = 5
   /\ run "x = 1" Scenario.fresh
      = (Returns {| is_valid := false;
                    reason := "Code is too short (minimum 10 characters)";
                    confidence := 1%float |}, Scenario.fresh))
  /\ run (PyStr.replicate (Z.to_nat 100001) "x") Scenario.fresh
     = (Returns {| is_valid := false;
                   reason := "Code is too large (maximum 100KB)";
                   confidence := 1%float |}, Scenario.fresh).
Proof.
  intros self run.
  destruct (validate_length_checks Scenario.with_key Scenario.all_down self
              "x = 1" Scenario.fresh) as [Hshort _].
  destruct (validate_length_checks Scenario.with_key Scenario.all_down self
              (PyStr.replicate (Z.to_nat 100001) "x") Scenario.fresh) as [_ Hlarge].
  split; [split; [reflexivity|] |].
  - apply Hshort. vm_compute. reflexivity.
  - apply Hlarge; vm_compute; [discriminate | reflexivity].
Defined.

(* ===================================================================== *)
(** * Streaming *)
(* ===================================================================== *)

Lemma append_empty_r (s : string) : s ++ "" = s.
Proof.
  induction s as [|x s IH]; [reflexivity|].
  change (String x (s ++ "") = String x s). now rewrite IH.
Qed.

Lemma not_truthy_empty (s : string) : PyStr.truthy s = false -> s = "".
Proof. destruct s; [reflexivity | discriminate]. Qed.

Lemma trace_call_callback (cb : option Callable) (text : string) (w : World) :
  trace (call_callback cb text w) = (trace w ++ callback_events cb text)%list.
Proof. destruct cb; simpl; [reflexivity | now rewrite app_nil_r]. Qed.

Lemma cache_call_callback (cb : option Callable) (text : string) (w : World) :
  cache (call_callback cb text w) = cache w.
Proof. destruct cb; reflexivity. Qed.

Lemma available_call_callback (cb : option Callable) (text : string) (w : World) :
  ollama_is_available_cache (call_callback cb text w)
  = ollama_is_available_cache w.
Proof. destruct cb; reflexivity. Qed.

(** One more turn of a loop, given the frame of the turns after it. *)
Ltac frame_step Ht Hc Ha Hm Hp Hh :=
  constructor;
  [ rewrite Ht; cbn [trace log tick forwarding ollama_forwarding PyStr.truthy];
    try match goal with H : PyStr.truthy _ = true |- _ => rewrite H end;
    rewrite ?trace_call_callback; cbn [trace log tick];
    now rewrite <- ?app_assoc
  | rewrite Hc; cbn [cache log tick];
    rewrite ?cache_call_callback; reflexivity
  | rewrite Ha; cbn [ollama_is_available_cache log tick];
    rewrite ?available_call_callback; reflexivity
  | rewrite Hm; reflexivity
  | rewrite Hp; reflexivity
  | rewrite Hh; reflexivity ].

Lemma ollama_for_chunks_spec (B : Backend) (cb : option Callable)
    (s : Stream OllamaChunk) :
  forall first_token_time text m w,
  exists m' w',
    ollama_for_chunks B s cb first_token_time text m w
    = (ollama_end s (text ++ PyStr.concat_all (ollama_emitted s)), m', w')
    /\ loop_frame (ollama_forwarding cb s) m m' w w'.
Proof.
  induction s as [| chunk rest IH | e]; intros first_token_time text m w.
  - eexists _, _. simpl. rewrite append_empty_r.
    split; [reflexivity | split; reflexivity].
  - cbn [ollama_for_chunks ollama_emitted ollama_end ollama_forwarding].
    unfold chunk_total. fold (ollama_fragment chunk).
    destruct (PyStr.truthy (ollama_fragment chunk)) eqn:Hfrag;
      destruct first_token_time as [t|]; destruct (oc_done chunk);
      try destruct (add_counts _ _) as [total|bad];
      cbn [PyStr.concat_all];
      first
        [ match goal with
          | |- context [ollama_for_chunks B rest cb ?a ?b ?c ?d] =>
              destruct (IH a b c d) as (m' & w' & Heq & [Ht Hc Ha Hm Hp Hh]);
              exists m', w'; rewrite Heq;
              try rewrite (not_truthy_empty _ Hfrag);
              (split; [ now rewrite ?append_assoc
                      | frame_step Ht Hc Ha Hm Hp Hh ])
          end
        | eexists _, _; (split; [reflexivity|]);
          constructor;
          rewrite ?trace_call_callback, ?cache_call_callback,
            ?available_call_callback;
          cbn [trace cache ollama_is_available_cache log tick];
          rewrite <- ?app_assoc, ?app_nil_r; reflexivity ].
  - eexists _, _. simpl. split; [reflexivity | split; reflexivity].
Qed.

Lemma gemini_for_chunks_spec (B : Backend) (cb : option Callable)
    (s : Stream GeminiChunk) :
  forall first_token_time text final m w,
  exists m' w',
    gemini_for_chunks B s cb first_token_time text final m w
    = (stream_end s (text ++ PyStr.concat_all (fragments gemini_fragment s),
                     last_chunk s final), m', w')
    /\ loop_frame (forwarding "gemini" cb (fragments gemini_fragment s))
         m m' w w'.
Proof.
  induction s as [| chunk rest IH | e]; intros first_token_time text final m w.
  - eexists _, _. simpl. rewrite append_empty_r.
    split; [reflexivity | split; reflexivity].
  - cbn [gemini_for_chunks fragments stream_end PyStr.concat_all last_chunk].
    fold (gemini_fragment chunk).
    destruct (PyStr.truthy (gemini_fragment chunk)) eqn:Hfrag;
      destruct first_token_time as [t|];
      match goal with
      | |- context [gemini_for_chunks B rest cb ?a ?b ?c ?d ?e] =>
          destruct (IH a b c d e) as (m' & w' & Heq & [Ht Hc Ha Hm Hp Hh])
      end;
      exists m', w'; rewrite Heq;
      try rewrite (not_truthy_empty _ Hfrag);
      (split; [ now rewrite ?append_assoc | frame_step Ht Hc Ha Hm Hp Hh ]).
  - eexists _, _. simpl. split; [reflexivity | split; reflexivity].
Qed.

Lemma stream_end_reply {C A} (s : Stream C) (v : A) :
  stream_end s v
  = match stream_end s tt with
    | Returns _ => Returns v
    | Raises e => Raises e
    end.
Proof. induction s; simpl; auto. Qed.

Lemma ollama_end_reply {A} (s : Stream OllamaChunk) (v : A) :
  ollama_end s v
  = match ollama_end s tt with
    | Returns _ => Returns v
    | Raises e => Raises e
    end.
Proof.
  induction s as [|chunk rest IH|e]; simpl; auto.
  now destruct (chunk_total chunk).
Qed.

(** On a stream whose chunks flagged [done] all come with their counters,
    the loop of Ollama is handed every fragment of the stream and finishes
    as the stream does. *)
Lemma ollama_counted (s : Stream OllamaChunk) :
  all_counted s = true ->
  ollama_emitted s = fragments ollama_fragment s
  /\ (forall cb,
        ollama_forwarding cb s
        = forwarding "ollama" cb (fragments ollama_fragment s))
  /\ (forall A (v : A), ollama_end s v = stream_end s v).
Proof.
  induction s as [|chunk rest IH|e]; cbn; [auto | | auto].
  destruct (chunk_total chunk); [|discriminate].
  intros Hrest. destruct (IH Hrest) as (Hemitted & Hevents & Hend).
  split; [now rewrite Hemitted|]. split; [|exact Hend].
  intros cb. now rewrite Hevents.
Qed.

Lemma generation_calls_app (a b : list Event) :
  generation_calls (a ++ b) = (generation_calls a + generation_calls b)%nat.
Proof.
  induction a as [|ev a IH]; [reflexivity|].
  destruct ev; simpl; rewrite IH; reflexivity.
Qed.

Lemma generation_calls_forwarding (provider : string) (cb : option Callable)
    (emitted : list string) :
  generation_calls (forwarding provider cb emitted) = O.
Proof.
  induction emitted as [|f rest IH]; [reflexivity|].
  cbn [forwarding generation_calls]. rewrite generation_calls_app, IH.
  destruct (PyStr.truthy f), cb; reflexivity.
Qed.

Lemma callbacks_app (a b : list Event) :
  callbacks (a ++ b) = (callbacks a ++ callbacks b)%list.
Proof.
  induction a as [|ev a IH]; [reflexivity|].
  destruct ev; simpl; rewrite IH; reflexivity.
Qed.

Lemma generation_calls_ollama_forwarding (cb : option Callable)
    (s : Stream OllamaChunk) :
  generation_calls (ollama_forwarding cb s) = O.
Proof.
  induction s as [|chunk rest IH|e]; [reflexivity | | reflexivity].
  cbn [ollama_forwarding generation_calls]. rewrite generation_calls_app.
  destruct (chunk_total chunk); [rewrite IH|];
    destruct (PyStr.truthy (ollama_fragment chunk)), cb; reflexivity.
Qed.

(** With a sink, the calls it receives are the fragments that are not
    empty, in the order of emission. *)
Lemma callbacks_forwarding (provider : string) (emitted : list string) :
  callbacks (forwarding provider (Some recording_callback) emitted)
  = non_empty emitted.
Proof.
  induction emitted as [|f rest IH]; [reflexivity|].
  cbn [forwarding callbacks non_empty]. rewrite callbacks_app, IH.
  destruct (PyStr.truthy f); reflexivity.
Qed.

Lemma effect_refl (n : nat) (w : World) : effect n w w.
Proof.
  split; [reflexivity|]. exists []. rewrite app_nil_r. split; [reflexivity | simpl; lia].
Qed.

Lemma effect_trans (a b : nat) (w w1 w2 : World) :
  effect a w w1 -> effect b w1 w2 -> effect (a + b) w w2.
Proof.
  intros [Hc1 (e1 & Ht1 & Hn1)] [Hc2 (e2 & Ht2 & Hn2)].
  split; [congruence|].
  exists (e1 ++ e2)%list. split.
  - rewrite Ht2, Ht1. now rewrite app_assoc.
  - rewrite generation_calls_app. lia.
Qed.

Lemma effect_weaken (a b : nat) (w w' : World) :
  (a <= b)%nat -> effect a w w' -> effect b w w'.
Proof.
  intros Hle [Hc (e & Ht & Hn)]. split; [exact Hc|]. exists e. split; [exact Ht | lia].
Qed.

Lemma effect_tick (w : World) : effect 0 w (tick w).
Proof.
  split; [reflexivity|]. exists []. cbn [trace tick].
  rewrite app_nil_r. split; [reflexivity | simpl; lia].
Qed.

(** One request followed by the turns of a loop. *)
Lemma effect_of_request (ev : Event) (events : list Event) (w w' : World) :
  generation_calls events = O ->
  trace w' = (trace (log ev w) ++ events)%list ->
  cache w' = cache (log ev w) ->
  effect (generation_calls [ev]) w w'.
Proof.
  intros Hnone Ht Hc. split; [exact Hc|].
  exists (ev :: events). split.
  - rewrite Ht. cbn [trace log]. now rewrite <- app_assoc.
  - change (ev :: events) with ([ev] ++ events)%list.
    rewrite generation_calls_app, Hnone. lia.
Qed.

Lemma effect_of_log (ev : Event) (w : World) :
  effect (generation_calls [ev]) w (log ev w).
Proof.
  split; [reflexivity|]. exists [ev]. split; [reflexivity | lia].
Qed.

Lemma ollama_invoke_model_frame (B : Backend) (self : BaseProvider.t)
    (prompt code : string) (m : PerformanceMetrics) (cb : option Callable)
    (w : World) r m' w' :
  ollama_invoke_model B self prompt code m cb w = (r, m', w') ->
  effect 1 w w' /\ same_identity m m'.
Proof.
  unfold ollama_invoke_model.
  set (ev := EvOllamaChatStream _ _).
  destruct (ollama_chat_stream B _ _) as [s|e].
  - destruct (ollama_for_chunks_spec B cb s None "" m (log ev w))
      as (m1 & w1 & -> & [Ht Hc Ha Hm Hp Hh]).
    assert (effect 1 w w1) as Heff
      by exact (effect_of_request ev _ _ _
                  (generation_calls_ollama_forwarding cb s) Ht Hc).
    destruct (ollama_end s _) as [text|e];
      [destruct (PyStr.truthy text); cbn [negb] | ];
      try destruct (is_Exception _);
      intros H; injection H as <- <- <-; (split; [exact Heff | repeat split; assumption]).
  - destruct (is_Exception e); intros H; injection H as <- <- <-;
      (split; [exact (effect_of_log ev w) | repeat split]).
Qed.

Lemma gemini_invoke_model_frame (B : Backend) (self : BaseProvider.t)
    (prompt code : string) (m : PerformanceMetrics) (cb : option Callable)
    (w : World) r m' w' :
  gemini_invoke_model B self prompt code m cb w = (r, m', w') ->
  effect 1 w w' /\ same_identity m m'.
Proof.
  unfold gemini_invoke_model.
  destruct (gemini_client self); cbn [negb].
  - set (ev := EvGeminiGenerateContentStream _ _).
    destruct (gemini_generate_content_stream B _ _) as [s|e].
    + destruct (gemini_for_chunks_spec B cb s None "" None m (log ev w))
        as (m1 & w1 & -> & [Ht Hc Ha Hm Hp Hh]).
      assert (effect 1 w w1) as Heff
        by exact (effect_of_request ev _ _ _
                    (generation_calls_forwarding "gemini" cb _) Ht Hc).
      destruct (stream_end s _) as [[text final]|e].
      * assert (same_identity m
                  match final with
                  | Some chunk =>
                      match gc_usage_metadata chunk with
                      | Some total_token_count => set_total_tokens total_token_count m1
                      | None => m1
                      end
                  | None => m1
                  end) as Hid.
        { destruct final as [chunk|]; [destruct (gc_usage_metadata chunk)|];
            repeat split; assumption. }
        destruct (PyStr.truthy text); cbn [negb];
          try destruct (is_Exception _);
          intros H; injection H as <- <- <-; (split; [exact Heff | exact Hid]).
      * destruct (is_Exception e); intros H; injection H as <- <- <-;
          (split; [exact Heff | repeat split; assumption]).
    + destruct (is_Exception e); intros H; injection H as <- <- <-;
        (split; [exact (effect_of_log ev w) | repeat split]).
  - cbn. intros H; injection H as <- <- <-.
    split; [apply effect_refl | repeat split].
Qed.

Lemma explain_code_frame (B : Backend) (self : BaseProvider.t) (code : string)
    (m : PerformanceMetrics) (cb : option Callable) (w : World) r m' w' :
  explain_code B self code m cb w = (r, m', w') ->
  effect 1 w w'
  /\ model m' = BaseProvider.model self
  /\ model_provider m' = BaseProvider.name self
  /\ cache_hit m' = cache_hit m.
Proof.
  unfold explain_code, _invoke_model.
  set (m0 := set_model_provider _ _).
  destruct (BaseProvider.class self) eqn:Hclass.
  - destruct (gemini_invoke_model B self BaseProvider._build_prompt code m0 cb w)
      as [[r1 m1] w1] eqn:Hrun.
    apply gemini_invoke_model_frame in Hrun as [Heff (Hm & Hp & Hh)].
    destruct r1 as [text|e]; [|destruct (is_Exception e)];
      intros H; injection H as <- <- <-; auto.
  - destruct (ollama_invoke_model B self BaseProvider._build_prompt code m0 cb w)
      as [[r1 m1] w1] eqn:Hrun.
    apply ollama_invoke_model_frame in Hrun as [Heff (Hm & Hp & Hh)].
    destruct r1 as [text|e]; [|destruct (is_Exception e)];
      intros H; injection H as <- <- <-; auto.
Qed.

Lemma callbacks_forwarding_none (provider : string) (emitted : list string) :
  callbacks (forwarding provider None emitted) = [].
Proof.
  induction emitted as [|f rest IH]; [reflexivity|].
  cbn [forwarding callbacks]. rewrite callbacks_app, IH.
  destruct (PyStr.truthy f); reflexivity.
Qed.

Lemma callbacks_of_stream (provider : string) (cb : option Callable)
    (emitted : list string) :
  callbacks (forwarding provider cb emitted)
  = match cb with Some _ => non_empty emitted | None => [] end.
Proof.
  destruct cb as [[]|];
    [apply callbacks_forwarding | apply callbacks_forwarding_none].
Qed.

Lemma callbacks_of_ollama (cb : option Callable) (s : Stream OllamaChunk) :
  callbacks (ollama_forwarding cb s)
  = match cb with Some _ => non_empty (ollama_emitted s) | None => [] end.
Proof.
  induction s as [|chunk rest IH|e]; [now destruct cb | | now destruct cb].
  cbn [ollama_forwarding ollama_emitted callbacks non_empty].
  rewrite callbacks_app.
  destruct (chunk_total chunk); [rewrite IH|];
    destruct (PyStr.truthy (ollama_fragment chunk)), cb as [[]|];
    cbn; rewrite ?app_nil_r; reflexivity.
Qed.

Lemma ollama_invoke_model_streams (B : Backend) (self : BaseProvider.t)
    (prompt code : string) (m : PerformanceMetrics) (cb : option Callable)
    (w : World) (s : Stream OllamaChunk) :
  ollama_chat_stream B (BaseProvider.model self) (full_prompt prompt code)
  = Returns s ->
  exists r m' w',
    ollama_invoke_model B self prompt code m cb w = (r, m', w')
    /\ trace w'
       = (trace w
            ++ EvOllamaChatStream (BaseProvider.model self) (full_prompt prompt code)
            :: ollama_forwarding cb s)%list
    /\ (ollama_end s tt = Returns tt ->
        PyStr.truthy (PyStr.concat_all (ollama_emitted s)) = true ->
        r = Returns (PyStr.concat_all (ollama_emitted s)))
    /\ (forall e, ollama_end s tt = Raises e ->
          r = Raises (if is_Exception e then ollama_classify self e else e)).
Proof.
  intros Hs. unfold ollama_invoke_model. rewrite Hs.
  set (ev := EvOllamaChatStream _ _).
  destruct (ollama_for_chunks_spec B cb s None "" m (log ev w))
    as (m1 & w1 & -> & [Ht Hc Ha Hm Hp Hh]).
  assert (trace w1 = (trace w ++ ev :: ollama_forwarding cb s)%list)
    as Htrace.
  { rewrite Ht. cbn [trace log]. now rewrite <- app_assoc. }
  rewrite ollama_end_reply.
  change ("" ++ PyStr.concat_all (ollama_emitted s))
    with (PyStr.concat_all (ollama_emitted s)).
  destruct (ollama_end s tt) as [[]|e].
  - destruct (PyStr.truthy (PyStr.concat_all _)) eqn:Htext; cbn [negb].
    + eexists _, _, _. split; [reflexivity|]. split; [exact Htrace|].
      split; [auto | discriminate].
    + eexists _, _, _. split; [reflexivity|]. split; [exact Htrace|].
      split; discriminate.
  - destruct (is_Exception e) eqn:He;
      eexists _, _, _; (split; [reflexivity|]); (split; [exact Htrace|]);
      (split; [discriminate|]); intros e' H; injection H as <-;
      now rewrite He.
Qed.

Lemma gemini_invoke_model_streams (B : Backend) (self : BaseProvider.t)
    (prompt code : string) (m : PerformanceMetrics) (cb : option Callable)
    (w : World) (s : Stream GeminiChunk) :
  gemini_client self = true ->
  gemini_generate_content_stream B (BaseProvider.model self) (full_prompt prompt code)
  = Returns s ->
  exists r m' w',
    gemini_invoke_model B self prompt code m cb w = (r, m', w')
    /\ trace w'
       = (trace w
            ++ EvGeminiGenerateContentStream (BaseProvider.model self)
                 (full_prompt prompt code)
            :: forwarding "gemini" cb (fragments gemini_fragment s))%list
    /\ (stream_end s tt = Returns tt ->
        PyStr.truthy (PyStr.concat_all (fragments gemini_fragment s)) = true ->
        r = Returns (PyStr.concat_all (fragments gemini_fragment s))).
Proof.
  intros Hclient Hs. unfold gemini_invoke_model. rewrite Hclient, Hs. cbn [negb].
  set (ev := EvGeminiGenerateContentStream _ _).
  destruct (gemini_for_chunks_spec B cb s None "" None m (log ev w))
    as (m1 & w1 & -> & [Ht Hc Ha Hm Hp Hh]).
  assert (trace w1
          = (trace w ++ ev :: forwarding "gemini" cb (fragments gemini_fragment s))%list)
    as Htrace.
  { rewrite Ht. cbn [trace log]. now rewrite <- app_assoc. }
  rewrite stream_end_reply.
  change ("" ++ PyStr.concat_all (fragments gemini_fragment s))
    with (PyStr.concat_all (fragments gemini_fragment s)).
  destruct (stream_end s tt) as [[]|e].
  - destruct (PyStr.truthy (PyStr.concat_all _)) eqn:Htext; cbn [negb].
    + eexists _, _, _. split; [reflexivity|]. split; [exact Htrace | auto].
    + eexists _, _, _. split; [reflexivity|]. split; [exact Htrace | discriminate].
  - destruct (is_Exception e);
      eexists _, _, _; (split; [reflexivity|]); (split; [exact Htrace | discriminate]).
Qed.

Lemma ollama_streamed (B : Backend) (self : BaseProvider.t) (code : string)
    (cb : option Callable) (s : Stream OllamaChunk) :
  BaseProvider.class self = BaseProvider.OllamaProvider ->
  ollama_chat_stream B (BaseProvider.model self)
    (full_prompt BaseProvider._build_prompt code) = Returns s ->
  streamed B self code cb
    (EvOllamaChatStream (BaseProvider.model self)
       (full_prompt BaseProvider._build_prompt code))
    (ollama_forwarding cb s) (ollama_emitted s) (ollama_end s tt).
Proof.
  intros Hclass Hs m w.
  unfold explain_code, _invoke_model. rewrite Hclass.
  set (m0 := set_model_provider _ _).
  destruct (ollama_invoke_model_streams B self BaseProvider._build_prompt code
              m0 cb w s Hs) as (r1 & m1 & w1 & Heq & Htrace & Hret & _).
  rewrite Heq.
  assert (callbacks (trace w1)
          = (callbacks (trace w)
               ++ match cb with
                  | Some _ => non_empty (ollama_emitted s)
                  | None => []
                  end)%list) as Hcalls.
  { rewrite Htrace, callbacks_app. cbn [callbacks].
    now rewrite callbacks_of_ollama. }
  assert (ollama_end s tt = Returns tt ->
          PyStr.truthy (PyStr.concat_all (ollama_emitted s)) = true ->
          forall m2,
            fst (fst (ollama_invoke_model B self BaseProvider._build_prompt code
                        m2 cb w))
            = Returns (PyStr.concat_all (ollama_emitted s))) as Hany.
  { intros Hend Htext m2.
    destruct (ollama_invoke_model_streams B self BaseProvider._build_prompt code
                m2 cb w s Hs) as (r2 & m2' & w2 & Heq2 & _ & Hret2 & _).
    rewrite Heq2. simpl. auto. }
  destruct r1 as [text|e]; [|destruct (is_Exception e)];
    eexists _, _, _; (split; [reflexivity|]);
    (split; [exact Htrace|]); (split; [exact Hcalls|]);
    intros Hend Htext; (split; [now apply Hany|]);
    specialize (Hret Hend Htext); congruence.
Qed.


Lemma gemini_streamed (B : Backend) (self : BaseProvider.t) (code : string)
    (cb : option Callable) (s : Stream GeminiChunk) :
  BaseProvider.class self = BaseProvider.GeminiProvider ->
  gemini_client self = true ->
  gemini_generate_content_stream B (BaseProvider.model self)
    (full_prompt BaseProvider._build_prompt code) = Returns s ->
  streamed B self code cb
    (EvGeminiGenerateContentStream (BaseProvider.model self)
       (full_prompt BaseProvider._build_prompt code))
    (forwarding "gemini" cb (fragments gemini_fragment s))
    (fragments gemini_fragment s) (stream_end s tt).
Proof.
  intros Hclass Hclient Hs m w.
  unfold explain_code, _invoke_model. rewrite Hclass.
  set (m0 := set_model_provider _ _).
  destruct (gemini_invoke_model_streams B self BaseProvider._build_prompt code
              m0 cb w s Hclient Hs) as (r1 & m1 & w1 & Heq & Htrace & Hret).
  rewrite Heq.
  assert (callbacks (trace w1)
          = (callbacks (trace w)
               ++ match cb with
                  | Some _ => non_empty (fragments gemini_fragment s)
                  | None => []
                  end)%list) as Hcalls.
  { rewrite Htrace, callbacks_app. cbn [callbacks].
    now rewrite callbacks_of_stream. }
  assert (stream_end s tt = Returns tt ->
          PyStr.truthy (PyStr.concat_all (fragments gemini_fragment s)) = true ->
          forall m2,
            fst (fst (gemini_invoke_model B self BaseProvider._build_prompt code
                        m2 cb w))
            = Returns (PyStr.concat_all (fragments gemini_fragment s))) as Hany.
  { intros Hend Htext m2.
    destruct (gemini_invoke_model_streams B self BaseProvider._build_prompt code
                m2 cb w s Hclient Hs) as (r2 & m2' & w2 & Heq2 & _ & Hret2).
    rewrite Heq2. simpl. auto. }
  destruct r1 as [text|e]; [|destruct (is_Exception e)];
    eexists _, _, _; (split; [reflexivity|]);
    (split; [exact Htrace|]); (split; [exact Hcalls|]);
    intros Hend Htext; (split; [now apply Hany|]);
    specialize (Hret Hend Htext); congruence.
Qed.




(* ===================================================================== *)
(** * What the parts of [explain] leave untouched *)
(* ===================================================================== *)

Section Quiet.

Variable settings : Settings.
Variable B : Backend.

Lemma quiet_ret {A} (a : A) : quiet (ret a).
Proof. intros w r w' H. injection H as <- <-. apply effect_refl. Qed.

Lemma quiet_raise {A} (e : exn) : quiet (@raise A e).
Proof. intros w r w' H. injection H as <- <-. apply effect_refl. Qed.

Lemma quiet_bind {A C} (c : M A) (k : A -> M C) :
  quiet c -> (forall a, quiet (k a)) -> quiet (bind c k).
Proof.
  intros Hc Hk w r w'. unfold bind.
  destruct (c w) as [[a|e] w1] eqn:H1.
  - intros H2. exact (effect_trans 0 0 w w1 w' (Hc _ _ _ H1) (Hk _ _ _ _ H2)).
  - intros H. injection H as <- <-. exact (Hc _ _ _ H1).
Qed.

Lemma quiet_try_except {A} (body : M A) (catches : exn -> bool)
    (handler : exn -> M A) :
  quiet body -> (forall e, quiet (handler e)) ->
  quiet (try_except body catches handler).
Proof.
  intros Hb Hh w r w'. unfold try_except.
  destruct (body w) as [[a|e] w1] eqn:H1.
  - intros H. injection H as <- <-. exact (Hb _ _ _ H1).
  - destruct (catches e).
    + intros H2. exact (effect_trans 0 0 w w1 w' (Hb _ _ _ H1) (Hh _ _ _ _ H2)).
    + intros H. injection H as <- <-. exact (Hb _ _ _ H1).
Qed.

Lemma quiet_time_time : quiet (time_time B).
Proof. intros w r w' H. injection H as <- <-. apply effect_tick. Qed.

Lemma effect_of_event (ev : Event) (w w' : World) :
  generation_calls [ev] = O ->
  cache w' = cache w -> trace w' = (trace w ++ [ev])%list ->
  effect 0 w w'.
Proof.
  intros Hev Hc Ht. split; [exact Hc|]. exists [ev]. split; [exact Ht | lia].
Qed.

Lemma quiet_ollama_is_available : quiet (ollama_is_available B).
Proof.
  intros w r w'. unfold ollama_is_available.
  destruct (ollama_is_available_cache w) as [known|].
  - intros H. injection H as <- <-. apply effect_refl.
  - destruct (ollama_list B) as [[]|e]; [|destruct (is_Exception e)];
      intros H; injection H as <- <-;
      now apply (effect_of_event EvOllamaList).
Qed.

Lemma quiet_is_available (self : BaseProvider.t) : quiet (is_available B self).
Proof.
  unfold is_available. destruct (BaseProvider.class self).
  - apply quiet_ret.
  - apply quiet_ollama_is_available.
Qed.

Lemma quiet_generate_structured (self : BaseProvider.t) (prompt : string) :
  quiet (generate_structured B self prompt).
Proof.
  unfold generate_structured. destruct (BaseProvider.class self).
  - unfold gemini_generate_structured.
    apply quiet_try_except; [|intros e; apply quiet_raise].
    destruct (gemini_client self); cbn [negb]; [|apply quiet_raise].
    intros w r w'.
    destruct (gemini_generate_content B _ _) as [[parsed|]|e];
      intros H; injection H as <- <-;
      now apply (effect_of_event (EvGeminiGenerateContent (BaseProvider.model self) prompt)).
  - unfold ollama_generate_structured.
    apply quiet_try_except; [|intros e; apply quiet_raise].
    intros w r w'.
    destruct (ollama_chat B _ _) as [[c|]|e];
      [destruct (PyStr.truthy c)| |];
      intros H; injection H as <- <-;
      now apply (effect_of_event (EvOllamaChat (BaseProvider.model self) prompt)).
Qed.

Lemma quiet_validate_with (self : CodeExplainer) (code : string)
    (names : list string) :
  forall validation_errors,
    quiet (validate_with settings B self code names validation_errors).
Proof.
  induction names as [|provider_name rest IH]; intros validation_errors.
  - apply quiet_ret.
  - cbn [validate_with].
    destruct (providers self !! provider_name) as [provider|]; [|apply IH].
    apply quiet_bind; [apply quiet_is_available|].
    intros available. destruct available; cbn [negb]; [|apply IH].
    apply quiet_try_except; [apply quiet_generate_structured|].
    intros e. apply IH.
Qed.

Lemma quiet_validate_input_code (self : CodeExplainer) (code : string) :
  quiet (_validate_input_code settings B self code).
Proof.
  unfold _validate_input_code.
  destruct (_ <? _); [apply quiet_ret|].
  destruct (_ <? _); [apply quiet_ret|].
  apply quiet_validate_with.
Qed.

Lemma quiet_explain_validate (self : CodeExplainer) (code : string)
    (validate_input : bool) :
  quiet (explain_validate settings B self code validate_input).
Proof.
  unfold explain_validate. destruct validate_input; [|apply quiet_ret].
  apply quiet_bind; [apply quiet_validate_input_code|].
  intros v. destruct (is_valid v); [apply quiet_ret | apply quiet_raise].
Qed.

Lemma quiet_get_provider (self : CodeExplainer) (provider_name : option string) :
  quiet (_get_provider B self provider_name).
Proof.
  unfold _get_provider.
  destruct (providers self !! _) as [provider|]; [|apply quiet_raise].
  apply quiet_bind; [apply quiet_is_available|].
  intros available. destruct available; [apply quiet_ret | apply quiet_raise].
Qed.

Lemma quiet_get_fallback_provider (self : CodeExplainer) (failed : string) :
  quiet (_get_fallback_provider B self failed).
Proof.
  unfold _get_fallback_provider.
  destruct (providers self !! _) as [provider|]; [|apply quiet_ret].
  apply quiet_bind; [apply quiet_is_available|].
  intros available. destruct available; apply quiet_ret.
Qed.

Lemma quiet_explain_resolve (self : CodeExplainer)
    (provider_name : option string) (auto_fallback : bool) :
  quiet (explain_resolve B self provider_name auto_fallback).
Proof.
  unfold explain_resolve.
  apply quiet_try_except; [apply quiet_get_provider|].
  intros e. destruct auto_fallback; cbn [negb]; [|apply quiet_raise].
  apply quiet_bind; [apply quiet_get_fallback_provider|].
  intros [p|]; [apply quiet_ret | apply quiet_raise].
Qed.

Lemma quiet_cache_get (key : string) : quiet (cache_get B key).
Proof.
  intros w r w'. unfold cache_get.
  destruct (cache _ !! key) as [row|];
    [destruct (entry_expire_time row) as [t|]; [destruct (_ <? _)%float|]|];
    intros H; injection H as <- <-;
    now apply (effect_of_event (EvCacheGet key)).
Qed.

Lemma quiet_call_callback {A} (a : A) (cb : option Callable) (text : string) :
  quiet (fun w => (Returns a, call_callback cb text w)).
Proof.
  intros w r w' H. injection H as <- <-.
  split; [apply cache_call_callback|].
  exists (callback_events cb text). split; [apply trace_call_callback|].
  destruct cb; simpl; lia.
Qed.

Lemma quiet_explain_probe (self : CodeExplainer) (code : string)
    (provider : BaseProvider.t) (cb : option Callable) :
  quiet (explain_probe B self code provider cb).
Proof.
  unfold explain_probe. destruct (use_cache self); [|apply quiet_ret].
  apply quiet_bind; [apply quiet_time_time|]. intros cache_start.
  apply quiet_bind; [apply quiet_cache_get|]. intros [cached|]; [|apply quiet_ret].
  apply quiet_bind; [apply quiet_time_time|]. intros cache_end.
  apply quiet_call_callback.
Qed.

Lemma quiet_explain_metrics (provider : BaseProvider.t) :
  quiet (explain_metrics B provider).
Proof.
  unfold explain_metrics.
  apply quiet_bind; [apply quiet_time_time|]. intros start. apply quiet_ret.
Qed.

End Quiet.

(* ===================================================================== *)
(** * Provider resolution *)
(* ===================================================================== *)

Section Registry.

Variable settings : Settings.
Variable default : option string.

Let self := CodeExplainer_init settings default.

Lemma providers_gemini :
  providers self !! "gemini"
  = Some (GeminiProvider settings (Some (gemini_model settings))).
Proof. reflexivity. Qed.

Lemma providers_ollama :
  providers self !! "ollama"
  = Some (OllamaProvider settings (Some (ollama_model settings))).
Proof. reflexivity. Qed.

Lemma providers_other (name : string) :
  name <> "gemini" -> name <> "ollama" -> providers self !! name = None.
Proof.
  intros Hg Ho. subst self. cbn [providers CodeExplainer_init].
  rewrite lookup_insert_ne by congruence.
  now rewrite lookup_singleton_ne by congruence.
Qed.

(** The registry holds each provider under its own name. *)
Lemma providers_name (name : string) (p : BaseProvider.t) :
  providers self !! name = Some p -> BaseProvider.name p = name.
Proof.
  destruct (decide (name = "gemini")) as [->|Hg].
  - rewrite providers_gemini. intros H. injection H as <-. reflexivity.
  - destruct (decide (name = "ollama")) as [->|Ho].
    + rewrite providers_ollama. intros H. injection H as <-. reflexivity.
    + rewrite providers_other by assumption. discriminate.
Qed.

(** The fallback of any name is registered, under a name other than
    the failed one. *)
Lemma fallback_registered (failed : string) :
  exists q,
    providers self !! fallback_name failed = Some q
    /\ BaseProvider.name q = fallback_name failed
    /\ fallback_name failed <> failed.
Proof.
  unfold fallback_name. destruct (String.eqb_spec failed "gemini") as [->|Hne].
  - eexists. split; [apply providers_ollama|]. split; [reflexivity | discriminate].
  - eexists. split; [apply providers_gemini|]. split; [reflexivity | congruence].
Qed.

End Registry.



(* ===================================================================== *)
(** * Input validation: the validators *)
(* ===================================================================== *)

Section Validators.

Variable settings : Settings.
Variable B : Backend.
Variable self : CodeExplainer.
Variable code : string.

Lemma validate_with_fails (provider_name : string) (p : BaseProvider.t)
    (rest errors noted : list string) (w w' : World) :
  providers self !! provider_name = Some p ->
  candidate_fails settings B code provider_name p w noted w' ->
  validate_with settings B self code (provider_name :: rest) errors w
  = validate_with settings B self code rest (errors ++ noted) w'.
Proof.
  intros Hp Hfail. cbn [validate_with]. rewrite Hp. unfold bind.
  destruct Hfail as [w w' Havail | w w1 e w' Havail Hraise Hexn].
  - rewrite Havail. cbn [negb]. now rewrite app_nil_r.
  - rewrite Havail. cbn [negb]. unfold try_except.
    now rewrite Hraise, Hexn.
Qed.

Lemma validate_in_bounds (w : World) :
  min_code_length settings <= PyStr.len (PyStr.strip code) ->
  PyStr.len code <= max_code_length settings ->
  _validate_input_code settings B self code w
  = validate_with settings B self code ["ollama"; "gemini"] [] w.
Proof.
  intros Hmin Hmax. unfold _validate_input_code.
  apply Z.ltb_ge in Hmin. apply Z.ltb_ge in Hmax.
  now rewrite Hmin, Hmax.
Qed.

(** Both candidates fail: the input passes, with what was noted. *)
Lemma validate_fails_open (ollama gemini : BaseProvider.t)
    (noted_ollama noted_gemini : list string) (w w1 w2 : World) :
  min_code_length settings <= PyStr.len (PyStr.strip code) ->
  PyStr.len code <= max_code_length settings ->
  providers self !! "ollama" = Some ollama ->
  providers self !! "gemini" = Some gemini ->
  candidate_fails settings B code "ollama" ollama w noted_ollama w1 ->
  candidate_fails settings B code "gemini" gemini w1 noted_gemini w2 ->
  _validate_input_code settings B self code w
  = (Returns {| is_valid := true;
                reason := "Validation check skipped due to errors: "
                          ++ PyStr.join "; " (noted_ollama ++ noted_gemini);
                confidence := 0.5%float |}, w2).
Proof.
  intros Hmin Hmax Ho Hg Hfo Hfg.
  rewrite validate_in_bounds by assumption.
  rewrite (validate_with_fails "ollama" ollama _ _ _ _ _ Ho Hfo).
  rewrite (validate_with_fails "gemini" gemini _ _ _ _ _ Hg Hfg).
  reflexivity.
Qed.

End Validators.

(** C9: for an input within the length bounds, when every candidate
    provider (Ollama first, then Gemini; a provider that is not available is
    no candidate) raises during the validation request, validation returns
    [is_valid = true] with confidence 0.5 and a reason that lists, per
    candidate, its name and its error message; no exception is raised. *)
Theorem validation_fails_open (settings : Settings) (B : Backend)
    (default : option string) (code : string)
    (noted_ollama noted_gemini : list string) (w w1 w2 : World) :
  let self := CodeExplainer_init settings default in
  min_code_length settings <= PyStr.len (PyStr.strip code) ->
  PyStr.len code <= max_code_length settings ->
  candidate_fails settings B code "ollama"
    (OllamaProvider settings (Some (ollama_model settings))) w noted_ollama w1 ->
  candidate_fails settings B code "gemini"
    (GeminiProvider settings (Some (gemini_model settings))) w1 noted_gemini w2 ->
  _validate_input_code settings B self code w
  = (Returns {| is_valid := true;
                reason := "Validation check skipped due to errors: "
                          ++ PyStr.join "; " (noted_ollama ++ noted_gemini);
                confidence := 0.5%float |}, w2).
Proof.
  intros self Hmin Hmax Hfo Hfg.
  exact (validate_fails_open settings B self code _ _ _ _ _ _ _
           Hmin Hmax (providers_ollama settings default)
           (providers_gemini settings default) Hfo Hfg).
Qed.

(** Both providers are available and both validation requests are refused:
    the reason carries both messages. *)
Lemma validation_fails_open_witness :
  let self := CodeExplainer_init Scenario.with_key None in
  fst (_validate_input_code Scenario.with_key Scenario.validators_down self
         Scenario.code Scenario.fresh)
  = Returns {| is_valid := true;
               reason := "Validation check skipped due to errors: "
                         ++ "ollama: Ollama structured generation error: Connection refused; "
                         ++ "gemini: Gemini structured generation error: 503 unavailable";
               confidence := 0.5%float |}.
Proof.
  cbv zeta.
  erewrite (validation_fails_open Scenario.with_key Scenario.validators_down None
              Scenario.code
              ["ollama: Ollama structured generation error: Connection refused"]
              ["gemini: Gemini structured generation error: 503 unavailable"]).
  - reflexivity.
  - vm_compute. discriminate.
  - vm_compute. discriminate.
  - eapply (candidate_raises _ _ _ "ollama" _ _ _
              (mk_exn ProviderError
                 "Ollama structured generation error: Connection refused"));
      reflexivity.
  - eapply (candidate_raises _ _ _ "gemini" _ _ _
              (mk_exn ProviderError
                 "Gemini structured generation error: 503 unavailable"));
      reflexivity.
Defined.

Lemma validator_calls_app (a b : list Event) :
  validator_calls (a ++ b) = (validator_calls a + validator_calls b)%nat.
Proof.
  induction a as [|ev a IH]; [reflexivity|].
  destruct ev; simpl; rewrite IH; reflexivity.
Qed.

(** Asking a provider whether it is available is no validation request. *)
Lemma is_available_no_validation (B : Backend) (p : BaseProvider.t)
    (w : World) r w' :
  is_available B p w = (r, w') ->
  validator_calls (trace w') = validator_calls (trace w).
Proof.
  unfold is_available. destruct (BaseProvider.class p).
  - intros H. injection H as <- <-. reflexivity.
  - unfold ollama_is_available.
    destruct (ollama_is_available_cache w) as [known|].
    + intros H. injection H as <- <-. reflexivity.
    + destruct (ollama_list B) as [[]|e]; [|destruct (is_Exception e)];
        intros H; injection H as <- <-; cbn [trace log set_ollama_is_available_cache];
        rewrite validator_calls_app; simpl; lia.
Qed.

(** C10: for an input within the length bounds, when neither registered
    provider reports [is_available()] true, validation contacts no validator
    and returns [is_valid = true] with confidence 0.5 and an empty list of
    errors in the reason; [explain] with [validate_input] on then goes on
    exactly as a call with [validate_input] off would. *)
Theorem validation_without_providers (settings : Settings) (B : Backend)
    (default : option string) (code : string) (w w1 w2 : World) :
  let self := CodeExplainer_init settings default in
  min_code_length settings <= PyStr.len (PyStr.strip code) ->
  PyStr.len code <= max_code_length settings ->
  is_available B (OllamaProvider settings (Some (ollama_model settings))) w
  = (Returns false, w1) ->
  is_available B (GeminiProvider settings (Some (gemini_model settings))) w1
  = (Returns false, w2) ->
  _validate_input_code settings B self code w
  = (Returns {| is_valid := true;
                reason := "Validation check skipped due to errors: ";
                confidence := 0.5%float |}, w2)
  /\ validator_calls (trace w2) = validator_calls (trace w)
  /\ explain_validate settings B self code true w = (Returns tt, w2)
  /\ (forall fuel provider_name auto_fallback cb,
        explain settings B fuel self code provider_name auto_fallback cb true w
        = explain settings B fuel self code provider_name auto_fallback cb false w2).
Proof.
  intros self Hmin Hmax Ho Hg.
  assert (_validate_input_code settings B self code w
          = (Returns {| is_valid := true;
                        reason := "Validation check skipped due to errors: ";
                        confidence := 0.5%float |}, w2)) as Hvalid.
  { exact (validate_fails_open settings B self code _ _ [] [] _ _ _
             Hmin Hmax (providers_ollama settings default)
             (providers_gemini settings default)
             (candidate_unavailable _ _ _ _ _ _ _ Ho)
             (candidate_unavailable _ _ _ _ _ _ _ Hg)). }
  assert (explain_validate settings B self code true w = (Returns tt, w2)) as Hpass.
  { unfold explain_validate, bind. now rewrite Hvalid. }
  split; [exact Hvalid|]. split; [|split; [exact Hpass|]].
  - rewrite (is_available_no_validation _ _ _ _ _ Hg).
    exact (is_available_no_validation _ _ _ _ _ Ho).
  - intros [|fuel] provider_name auto_fallback cb; [reflexivity|].
    cbn [explain]. rewrite Hpass. reflexivity.
Qed.

(** No key for Gemini and no Ollama server: validation passes the input
    on, and the call ends on the missing providers, not on validation. *)
Lemma validation_without_providers_witness :
  let self := CodeExplainer_init Scenario.without_key None in
  fst (_validate_input_code Scenario.without_key Scenario.all_down self
         Scenario.code Scenario.fresh)
  = Returns {| is_valid := true;
               reason := "Validation check skipped due to errors: ";
               confidence := 0.5%float |}
  /\ option_map fst
       (explain Scenario.without_key Scenario.all_down 2 self Scenario.code
          None true None true Scenario.fresh)
     = Some (Raises (mk_exn ValueError "No ML providers are available")).
Proof.
  cbv zeta.
  destruct (validation_without_providers Scenario.without_key Scenario.all_down
              None Scenario.code Scenario.fresh _ _
              ltac:(vm_compute; discriminate) ltac:(vm_compute; discriminate)
              eq_refl eq_refl) as (Hvalid & _ & _ & Hgo).
  split.
  - rewrite Hvalid. reflexivity.
  - rewrite Hgo. vm_compute. reflexivity.
Defined.

(* ===================================================================== *)
(** * Runs of [explain] *)
(* ===================================================================== *)

Lemma requests_trans (a b : nat) (w w1 w2 : World) :
  requests a w w1 -> requests b w1 w2 -> requests (a + b) w w2.
Proof.
  intros (e1 & Ht1 & Hn1) (e2 & Ht2 & Hn2).
  exists (e1 ++ e2)%list. split.
  - rewrite Ht2, Ht1. now rewrite app_assoc.
  - rewrite generation_calls_app. lia.
Qed.

Lemma requests_weaken (a b : nat) (w w' : World) :
  (a <= b)%nat -> requests a w w' -> requests b w w'.
Proof. intros Hle (e & Ht & Hn). exists e. split; [exact Ht | lia]. Qed.

Section Runs.

Variable settings : Settings.
Variable B : Backend.

Lemma explain_try_raises (self : CodeExplainer) (code : string)
    (p : BaseProvider.t) (cb : option Callable) (key : option string)
    (m : PerformanceMetrics) (w : World) e m' w' :
  explain_code B p code m cb w = (Raises e, m', w') <->
  explain_try B self code p cb key m w = (Raises e, m', w').
Proof.
  unfold explain_try.
  destruct (explain_code B p code m cb w) as [[[text|e1] m1] w1].
  - split; discriminate.
  - split; intros H; injection H as <- <- <-; reflexivity.
Qed.

Lemma explain_try_returns (self : CodeExplainer) (code : string)
    (p : BaseProvider.t) (cb : option Callable) (key : option string)
    (m : PerformanceMetrics) (w : World) result m' w' :
  explain_try B self code p cb key m w = (Returns result, m', w') ->
  requests 1 w w'
  /\ model (metrics result) = BaseProvider.model p
  /\ model_provider (metrics result) = BaseProvider.name p
  /\ cache_hit (metrics result) = cache_hit m
  /\ (cache w' = cache w
      \/ exists k expire_time,
           key = Some k
           /\ cache w'
              = <[k := {| entry_value := result;
                          entry_expire_time := Some expire_time |}]> (cache w)).
Proof.
  unfold explain_try.
  destruct (explain_code B p code m cb w) as [[[text|e1] m1] w1] eqn:Hcode;
    [|discriminate].
  apply explain_code_frame in Hcode as ([Hcache Hreq] & Hm & Hp & Hh).
  intros H. injection H as <- _ <-. cbn [metrics].
  split; [|split; [exact Hm|split; [exact Hp|split; [exact Hh|]]]].
  - apply (requests_trans 1 0 w w1); [exact Hreq|].
    destruct key as [k|];
      [destruct (use_cache self && PyStr.truthy k)|].
    + exists [EvCacheSet k]. split; [reflexivity | simpl; lia].
    + exists []. cbn [trace tick]. rewrite app_nil_r. split; [reflexivity | simpl; lia].
    + exists []. cbn [trace tick]. rewrite app_nil_r. split; [reflexivity | simpl; lia].
  - destruct key as [k|];
      [destruct (use_cache self && PyStr.truthy k)|].
    + right. eexists k, _. split; [reflexivity|].
      cbn [snd cache_set cache set_cache tick log]. now rewrite Hcache.
    + left. exact Hcache.
    + left. exact Hcache.
Qed.

Lemma explain_probe_key (self : CodeExplainer) (code : string)
    (p : BaseProvider.t) (cb : option Callable) (w : World) key hit w' :
  explain_probe B self code p cb w = (Returns (key, hit), w') ->
  forall k, key = Some k ->
    k = _get_cache_key code (BaseProvider.name p) (BaseProvider.model p).
Proof.
  unfold explain_probe. destruct (use_cache self).
  - unfold bind, time_time.
    destruct (cache_get B _ _) as [[[cached|]|e] w1].
    + intros H. injection H as <- _ _. intros k Hk. now injection Hk as <-.
    + intros H. injection H as <- _ _. intros k Hk. now injection Hk as <-.
    + discriminate.
  - intros H. injection H as <- _ _. discriminate.
Qed.

Lemma explain_metrics_fresh (p : BaseProvider.t) (w : World) m w' :
  explain_metrics B p w = (Returns m, w') -> cache_hit m = false.
Proof. intros H. injection H as <- _. reflexivity. Qed.

(** Every run: what it may write, and how many generations it requests. *)
Lemma explain_run (self : CodeExplainer) (code : string)
    (cb : option Callable) (fuel : nat) :
  forall provider_name auto_fallback validate_input w r w',
    explain settings B fuel self code provider_name auto_fallback cb
      validate_input w = Some (r, w') ->
    written code w w' r
    /\ requests (if auto_fallback then 2 else 1) w w'.
Proof.
  induction fuel as [|fuel IH];
    intros provider_name auto_fallback validate_input w r w'; [discriminate|].
  assert (forall n, (n <= 1)%nat -> forall a b, requests n a b ->
            requests (if auto_fallback then 2 else 1) a b) as Hup.
  { intros n Hn a b. apply requests_weaken. destruct auto_fallback; lia. }
  cbn [explain].
  destruct (explain_validate _ _ _ _ _ w) as [[[]|e] w1] eqn:Hv;
    apply quiet_explain_validate in Hv as Hv'; destruct Hv' as [Hc1 Hr1].
  2: { intros H. injection H as <- <-. split; [left; exact Hc1 | apply (Hup 0%nat); [lia | assumption]]. }
  destruct (explain_resolve _ _ _ _ w1) as [[p|e] w2] eqn:Hres;
    apply quiet_explain_resolve in Hres as Hres'; destruct Hres' as [Hc2 Hr2].
  2: { intros H. injection H as <- <-. split; [left; congruence|].
       apply (Hup 0%nat); [lia|]. exact (requests_trans 0 0 _ _ _ Hr1 Hr2). }
  destruct (explain_probe _ _ _ _ _ w2) as [[[key hit]|e] w3] eqn:Hprobe;
    apply quiet_explain_probe in Hprobe as Hprobe'; destruct Hprobe' as [Hc3 Hr3].
  2: { intros H. injection H as <- <-. split; [left; congruence|].
       apply (Hup 0%nat); [lia|].
       exact (requests_trans 0 0 _ _ _ (requests_trans 0 0 _ _ _ Hr1 Hr2) Hr3). }
  assert (cache w3 = cache w) as Hc03 by congruence.
  assert (requests 0 w w3) as Hr03
    by exact (requests_trans 0 0 _ _ _ (requests_trans 0 0 _ _ _ Hr1 Hr2) Hr3).
  destruct hit as [cached|].
  { intros H. injection H as <- <-. split; [left; exact Hc03 | apply (Hup 0%nat); [lia | assumption]]. }
  destruct (explain_metrics _ _ w3) as [[m|e] w4] eqn:Hmet;
    apply quiet_explain_metrics in Hmet as Hmet'; destruct Hmet' as [Hc4 Hr4].
  2: { intros H. injection H as <- <-. split; [left; congruence|].
       apply (Hup 0%nat); [lia|]. exact (requests_trans 0 0 _ _ _ Hr03 Hr4). }
  assert (cache w4 = cache w) as Hc04 by congruence.
  assert (requests 0 w w4) as Hr04 by exact (requests_trans 0 0 _ _ _ Hr03 Hr4).
  destruct (explain_try _ _ _ _ _ _ _ w4) as [[[result|e] m'] w5] eqn:Htry.
  - apply explain_try_returns in Htry as (Hr5 & Hm & Hp & Hh & Hwritten).
    intros H. injection H as <- <-. split.
    + destruct Hwritten as [Hsame | (k & t & Hkey & Hnew)]; [left; congruence|].
      right. exists result, t. split; [reflexivity|].
      split; [rewrite Hh; exact (explain_metrics_fresh _ _ _ _ Hmet)|].
      rewrite Hnew, Hc04, Hm, Hp.
      now rewrite (explain_probe_key _ _ _ _ _ _ _ _ Hprobe k Hkey).
    + apply (Hup 1%nat); [lia|]. exact (requests_trans 0 1 _ _ _ Hr04 Hr5).
  - apply explain_try_raises in Htry. apply explain_code_frame in Htry as ([Hc5 Hr5] & _).
    assert (cache w5 = cache w) as Hc05 by congruence.
    assert (requests 1 w w5) as Hr05 by exact (requests_trans 0 1 _ _ _ Hr04 Hr5).
    destruct (is_Exception e).
    2: { intros H. injection H as <- <-. split; [left; exact Hc05 | apply (Hup 1%nat); [lia | assumption]]. }
    destruct auto_fallback.
    2: { intros H. injection H as <- <-. split; [left; exact Hc05 | exact Hr05]. }
    destruct (_get_fallback_provider _ _ _ (tick w5)) as [[[other|]|e'] w6] eqn:Hfb;
      apply quiet_get_fallback_provider in Hfb as [Hc6 Hr6];
      cbn [cache tick] in Hc6.
    + intros Hrec. apply IH in Hrec as [Hwritten Hr7].
      assert (requests 1 w w6) as Hr06.
      { apply (requests_trans 1 0 _ w5); [exact Hr05|].
        exact (requests_trans 0 0 _ _ _ (proj2 (effect_tick w5)) Hr6). }
      split; [|exact (requests_trans 1 1 _ _ _ Hr06 Hr7)].
      unfold written in *. rewrite Hc6, Hc05 in Hwritten. exact Hwritten.
    + intros H. injection H as <- <-. split; [left; congruence|].
      apply (requests_weaken 1); [lia|].
      apply (requests_trans 1 0 _ w5); [exact Hr05|].
      exact (requests_trans 0 0 _ _ _ (proj2 (effect_tick w5)) Hr6).
    + intros H. injection H as <- <-. split; [left; congruence|].
      apply (requests_weaken 1); [lia|].
      apply (requests_trans 1 0 _ w5); [exact Hr05|].
      exact (requests_trans 0 0 _ _ _ (proj2 (effect_tick w5)) Hr6).
Qed.

End Runs.

Section Depth.

Variable settings : Settings.
Variable B : Backend.
Variable self : CodeExplainer.
Variable code : string.
Variable cb : option Callable.

(** Without [auto_fallback] there is no recursive call. *)
Lemma explain_no_fallback_depth (fuel : nat) (provider_name : option string)
    (validate_input : bool) (w : World) :
  explain settings B (S fuel) self code provider_name false cb validate_input w
  = explain settings B 1 self code provider_name false cb validate_input w.
Proof.
  cbn [explain].
  destruct (explain_validate _ _ _ _ _ w) as [[[]|e] w1]; [|reflexivity].
  destruct (explain_resolve _ _ _ _ w1) as [[p|e] w2]; [|reflexivity].
  destruct (explain_probe _ _ _ _ _ w2) as [[[key [cached|]]|e] w3];
    [reflexivity| |reflexivity].
  destruct (explain_metrics _ _ w3) as [[m|e] w4]; [|reflexivity].
  destruct (explain_try _ _ _ _ _ _ _ w4) as [[[result|e] m'] w5];
    [reflexivity|].
  destruct (is_Exception e); reflexivity.
Qed.

(** A call without [auto_fallback] answers. *)
Lemma explain_no_fallback_total (provider_name : option string)
    (validate_input : bool) (w : World) :
  exists r w',
    explain settings B 1 self code provider_name false cb validate_input w
    = Some (r, w').
Proof.
  cbn [explain].
  destruct (explain_validate _ _ _ _ _ w) as [[[]|e] w1]; [|eauto].
  destruct (explain_resolve _ _ _ _ w1) as [[p|e] w2]; [|eauto].
  destruct (explain_probe _ _ _ _ _ w2) as [[[key [cached|]]|e] w3];
    [eauto| |eauto].
  destruct (explain_metrics _ _ w3) as [[m|e] w4]; [|eauto].
  destruct (explain_try _ _ _ _ _ _ _ w4) as [[[result|e] m'] w5];
    [eauto|].
  destruct (is_Exception e); eauto.
Qed.

(** Depth two is all a call ever uses, and with it every call answers. *)
Lemma explain_depth (fuel : nat) (provider_name : option string)
    (auto_fallback validate_input : bool) (w : World) :
  explain settings B (S (S fuel)) self code provider_name auto_fallback cb
    validate_input w
  = explain settings B 2 self code provider_name auto_fallback cb
      validate_input w
  /\ exists r w',
       explain settings B 2 self code provider_name auto_fallback cb
         validate_input w = Some (r, w').
Proof.
  destruct auto_fallback.
  2: { rewrite !explain_no_fallback_depth. split; [reflexivity|].
       apply explain_no_fallback_total. }
  cbn [explain].
  destruct (explain_validate _ _ _ _ _ w) as [[[]|e] w1]; [|eauto].
  destruct (explain_resolve _ _ _ _ w1) as [[p|e] w2]; [|eauto].
  destruct (explain_probe _ _ _ _ _ w2) as [[[key [cached|]]|e] w3];
    [eauto| |eauto].
  destruct (explain_metrics _ _ w3) as [[m|e] w4]; [|eauto].
  destruct (explain_try _ _ _ _ _ _ _ w4) as [[[result|e] m'] w5];
    [eauto|].
  destruct (is_Exception e); [|eauto].
  destruct (_get_fallback_provider _ _ _ _) as [[[other|]|e'] w6]; [|eauto|eauto].
  fold (explain settings B).
  change (explain settings B (S fuel) self code (Some (BaseProvider.name other))
            false cb false w6
          = explain settings B 1 self code (Some (BaseProvider.name other))
              false cb false w6
          /\ exists r w',
               explain settings B 1 self code (Some (BaseProvider.name other))
                 false cb false w6 = Some (r, w')).
  split; [apply explain_no_fallback_depth | apply explain_no_fallback_total].
Qed.

End Depth.

(* ===================================================================== *)
(** * Fallback *)
(* ===================================================================== *)

Lemma is_available_memo (B : Backend) (p : BaseProvider.t)
    (w w1 : World) (known : bool) :
  is_available B p w = (Returns known, w1) ->
  is_available B p w1 = (Returns known, w1)
  /\ cache w1 = cache w
  /\ (w1 = w
      \/ (BaseProvider.class p = BaseProvider.OllamaProvider
          /\ ollama_is_available_cache w = None
          /\ ollama_is_available_cache w1 = Some known
          /\ trace w1 = (trace w ++ [EvOllamaList])%list)).
Proof.
  unfold is_available. destruct (BaseProvider.class p).
  - intros H. injection H as <- <-. auto.
  - unfold ollama_is_available.
    destruct (ollama_is_available_cache w) as [stored|] eqn:Hstored.
    + intros H. injection H as <- <-. rewrite Hstored. auto.
    + destruct (ollama_list B) as [[]|e]; [|destruct (is_Exception e)];
        intros H; try discriminate; injection H as <- <-;
        cbn [ollama_is_available_cache set_ollama_is_available_cache log cache trace];
        auto 10.
Qed.

(** C1, as stated, fails in its last clause: when the retry fails too, the
    caller gets the exception of the retry, not the one that set it off.
    Gemini runs into its rate limit and Ollama, which is running, times
    out: without [auto_fallback] the call raises Gemini's error, with it
    the call raises Ollama's. *)
Lemma fallback_once_counterexample :
  option_map fst
    (explain Scenario.with_key Scenario.both_fail 2
       (CodeExplainer_init Scenario.with_key None) Scenario.code None false
       None true Scenario.fresh)
  = Some (Raises (mk_exn RateLimitError
                    "Gemini rate limit exceeded: 429 quota exceeded"))
  /\ option_map fst
       (explain Scenario.with_key Scenario.both_fail 2
          (CodeExplainer_init Scenario.with_key None) Scenario.code None true
          None true Scenario.fresh)
     = Some (Raises (mk_exn APITimeoutError
                       "Ollama request timed out: request timed out")).
Proof. vm_compute. split; reflexivity. Qed.

(** C1, amended: when validation has passed, a provider [p] is resolved, the
    cache misses and the generation by [p] raises an exception [e]: without
    [auto_fallback] the call raises [e]; with it, the other registered
    provider is looked up, and when that one is not available the call
    raises [e]; when it is available the whole call is made again, once,
    for that provider with [auto_fallback] and [validate_input] off.  That
    second call does not recurse (depth one is all it uses), always
    answers, and asks for at most one generation; what it answers is the
    answer of the whole call, so when its own generation raises [e'], the
    caller gets [e'] and not [e]. *)
Theorem fallback_once (settings : Settings) (B : Backend)
    (default provider_name : option string) (auto_fallback validate_input : bool)
    (cb : option Callable) (code : string) (fuel : nat)
    (w w1 w2 w3 w4 w5 : World) (p : BaseProvider.t) (key : option string)
    (m m' : PerformanceMetrics) (e : exn) :
  let self := CodeExplainer_init settings default in
  explain_validate settings B self code validate_input w = (Returns tt, w1) ->
  explain_resolve B self provider_name auto_fallback w1 = (Returns p, w2) ->
  explain_probe B self code p cb w2 = (Returns (key, None), w3) ->
  explain_metrics B p w3 = (Returns m, w4) ->
  explain_code B p code m cb w4 = (Raises e, m', w5) ->
  is_Exception e = true ->
  exists other,
    providers self !! fallback_name (BaseProvider.name p) = Some other
    /\ BaseProvider.name other <> BaseProvider.name p
    /\ (auto_fallback = false ->
        explain settings B (S fuel) self code provider_name auto_fallback cb
          validate_input w = Some (Raises e, tick w5))
    /\ (auto_fallback = true ->
        forall w6,
          is_available B other (tick w5) = (Returns false, w6) ->
          explain settings B (S fuel) self code provider_name auto_fallback cb
            validate_input w = Some (Raises e, w6))
    /\ (auto_fallback = true ->
        forall w6,
          is_available B other (tick w5) = (Returns true, w6) ->
          explain settings B (S (S fuel)) self code provider_name auto_fallback
            cb validate_input w
          = explain settings B 1 self code (Some (BaseProvider.name other))
              false cb false w6
          /\ (exists r w7,
                explain settings B 1 self code (Some (BaseProvider.name other))
                  false cb false w6 = Some (r, w7)
                /\ requests 1 w6 w7)
          /\ (forall key' w7 m2 w8 e' m2' w9,
                explain_probe B self code other cb w6
                = (Returns (key', None), w7) ->
                explain_metrics B other w7 = (Returns m2, w8) ->
                explain_code B other code m2 cb w8 = (Raises e', m2', w9) ->
                explain settings B (S (S fuel)) self code provider_name
                  auto_fallback cb validate_input w
                = Some (Raises e', if is_Exception e' then tick w9 else w9))).
Proof.
  intros self Hvalid Hresolve Hprobe Hmetrics Hcode Hexn.
  destruct (fallback_registered settings default (BaseProvider.name p))
    as (other & Hother & Hname & Hne).
  fold self in Hother.
  apply (explain_try_raises B self code p cb key) in Hcode.
  exists other. split; [exact Hother|]. split; [congruence|].
  split; [|split].
  - intros ->. cbn [explain].
    now rewrite Hvalid, Hresolve, Hprobe, Hmetrics, Hcode, Hexn.
  - intros -> w6 Havail. cbn [explain].
    rewrite Hvalid, Hresolve, Hprobe, Hmetrics, Hcode, Hexn.
    unfold _get_fallback_provider, bind. now rewrite Hother, Havail.
  - intros -> w6 Havail.
    assert (explain settings B (S (S fuel)) self code provider_name true cb
              validate_input w
            = explain settings B 1 self code (Some (BaseProvider.name other))
                false cb false w6) as Hagain.
    { remember (S fuel) as depth eqn:Hdepth. cbn [explain].
      rewrite Hvalid, Hresolve, Hprobe, Hmetrics, Hcode, Hexn.
      unfold _get_fallback_provider, bind. rewrite Hother, Havail.
      cbv beta iota delta [ret]. subst depth.
      apply explain_no_fallback_depth. }
    split; [exact Hagain|]. split.
    + destruct (explain_no_fallback_total settings B self code cb
                  (Some (BaseProvider.name other)) false w6) as (r & w7 & Hrun).
      exists r, w7. split; [exact Hrun|].
      exact (proj2 (explain_run settings B self code cb 1 _ _ _ _ _ _ Hrun)).
    + intros key' w7 m2 w8 e' m2' w9 Hprobe' Hmetrics' Hcode'.
      apply (explain_try_raises B self code other cb key') in Hcode'.
      destruct (is_available_memo B other _ _ _ Havail) as (Hknown & _).
      assert (PyStr.truthy (BaseProvider.name other) = true) as Htruthy
        by (rewrite Hname; unfold fallback_name;
            destruct (String.eqb _ "gemini"); reflexivity).
      rewrite Hagain. cbn [explain explain_validate ret].
      unfold explain_resolve, try_except, _get_provider.
      cbn [py_or]. rewrite Htruthy, Hname, Hother.
      unfold bind. rewrite Hknown. cbn [negb ret].
      rewrite Hprobe', Hmetrics', Hcode'.
      now destruct (is_Exception e').
Qed.

(** Gemini accepts the input and then runs into its rate limit; Ollama is
    running.  The call is made again for Ollama and answers with Ollama's
    explanation; two generations were requested, one from each provider. *)
Lemma fallback_once_witness :
  let B := Scenario.gemini_limited Scenario.hello in
  let self := CodeExplainer_init Scenario.with_key None in
  exists result w',
    explain Scenario.with_key B 2 self Scenario.code None true
      (Some recording_callback) true Scenario.fresh
    = Some (Returns result, w')
    /\ model_provider (metrics result) = "ollama"
    /\ explanation result = "Hello world"
    /\ generation_calls (trace w') = 2%nat.
Proof.
  intros B self.
  set (gemini := GeminiProvider Scenario.with_key (Some "gemini-2.5-flash")).
  set (w1 := snd (explain_validate Scenario.with_key B self Scenario.code true
                    Scenario.fresh)).
  set (w2 := snd (explain_resolve B self None true w1)).
  set (probe := explain_probe B self Scenario.code gemini
                  (Some recording_callback) w2).
  set (key := Some (_get_cache_key Scenario.code "gemini" "gemini-2.5-flash")).
  set (m := set_start_time (Scenario.readings (ticks (snd probe))) Scenario.blank_metrics).
  set (m0 := set_model_provider "gemini" (set_model "gemini-2.5-flash" m)).
  set (w4 := tick (snd probe)).
  set (run := explain_code B gemini Scenario.code m0 (Some recording_callback) w4).
  destruct (fallback_once Scenario.with_key B None None true true
              (Some recording_callback) Scenario.code 0
              Scenario.fresh w1 w2 (snd probe) w4 (snd run) gemini key
              m0 (snd (fst run))
              (mk_exn RateLimitError "Gemini rate limit exceeded: 429 quota exceeded"))
    as (other & Hother & _ & _ & _ & Hretry);
    try (vm_compute; reflexivity).
  injection Hother as <-.
  destruct (Hretry eq_refl _ eq_refl) as [Hagain _].
  fold B self in Hagain. rewrite Hagain.
  eexists _, _. split; [vm_compute; reflexivity|].
  vm_compute. repeat split.
Defined.

(* ===================================================================== *)
(** * Writes to the cache *)
(* ===================================================================== *)

Section Writes.

Variable settings : Settings.
Variable B : Backend.
Variable default : option string.

Let self := CodeExplainer_init settings default.

Lemma explain_probe_hit (code : string) (p : BaseProvider.t)
    (cb : option Callable) (w : World) key cached w' :
  explain_probe B self code p cb w = (Returns (key, Some cached), w') ->
  cache_hit (metrics cached) = true.
Proof.
  unfold explain_probe. destruct (use_cache self); [|discriminate].
  unfold bind, time_time.
  destruct (cache_get B _ _) as [[[found|]|e] w1]; [|discriminate|discriminate].
  intros H. injection H as _ <- _. reflexivity.
Qed.

(** Without [auto_fallback], only the provider that was asked for resolves. *)
Lemma explain_resolve_requested (name : string) (w : World) p w' :
  PyStr.truthy name = true ->
  explain_resolve B self (Some name) false w = (Returns p, w') ->
  BaseProvider.name p = name.
Proof.
  intros Hname. unfold explain_resolve, try_except.
  destruct (_get_provider B self (Some name) w) as [[q|e] w1] eqn:Hget.
  - intros H. injection H as <- <-.
    unfold _get_provider in Hget. cbn [py_or] in Hget. rewrite Hname in Hget.
    destruct (providers self !! name) as [q'|] eqn:Hq; [|discriminate].
    apply providers_name in Hq. unfold bind in Hget.
    destruct (is_available B q' w) as [[[]|]?]; try discriminate.
    cbn in Hget. injection Hget as <- _. exact Hq.
  - destruct (is_ValueError e); discriminate.
Qed.

(** A result that a call without [auto_fallback] generated carries the
    name of the provider the call was made for. *)
Lemma generated_by_requested (fuel : nat) (code name : string)
    (cb : option Callable) (validate_input : bool) (w : World) result w' :
  PyStr.truthy name = true ->
  explain settings B fuel self code (Some name) false cb validate_input w
  = Some (Returns result, w') ->
  cache_hit (metrics result) = false ->
  model_provider (metrics result) = name.
Proof.
  intros Hname. destruct fuel as [|fuel]; [discriminate|]. cbn [explain].
  destruct (explain_validate _ _ _ _ _ w) as [[[]|e] w1]; [|discriminate].
  destruct (explain_resolve _ _ _ _ w1) as [[p|e] w2] eqn:Hres; [|discriminate].
  apply explain_resolve_requested in Hres; [|exact Hname].
  destruct (explain_probe _ _ _ _ _ w2) as [[[key [cached|]]|e] w3] eqn:Hprobe;
    [| |discriminate].
  { apply explain_probe_hit in Hprobe.
    intros H. injection H as <- _. congruence. }
  destruct (explain_metrics _ _ w3) as [[m|e] w4]; [|discriminate].
  destruct (explain_try _ _ _ _ _ _ _ w4) as [[[made|e] m'] w5] eqn:Htry.
  - apply explain_try_returns in Htry as (_ & _ & Hp & _).
    intros H. injection H as <- _. congruence.
  - destruct (is_Exception e); discriminate.
Qed.

Lemma fallback_name_truthy (failed : string) :
  PyStr.truthy (fallback_name failed) = true.
Proof. unfold fallback_name. destruct (String.eqb failed "gemini"); reflexivity. Qed.

End Writes.

(** C6, as stated, fails: after a generation that raised, the fallback
    retry may succeed and its result is written.  Gemini is resolved and its
    generation raises; the cache was empty before the call and holds
    Ollama's answer under Ollama's key after it. *)
Lemma cache_on_failure_counterexample :
  let B := Scenario.gemini_limited Scenario.hello in
  let self := CodeExplainer_init Scenario.with_key None in
  let gemini := GeminiProvider Scenario.with_key (Some "gemini-2.5-flash") in
  let probe := explain_probe B self Scenario.code gemini None Scenario.fresh in
  let m := set_start_time (Scenario.readings (ticks (snd probe))) Scenario.blank_metrics in
  let m0 := set_model_provider "gemini" (set_model "gemini-2.5-flash" m) in
  (explain_resolve B self None true Scenario.fresh = (Returns gemini, Scenario.fresh)
   /\ fst probe
      = Returns (Some (_get_cache_key Scenario.code "gemini" "gemini-2.5-flash"), None)
   /\ fst (fst (explain_code B gemini Scenario.code m0 None (tick (snd probe))))
      = Raises (mk_exn RateLimitError
                  "Gemini rate limit exceeded: 429 quota exceeded"))
  /\ cache Scenario.fresh = ∅
  /\ exists result expire_time w',
       explain Scenario.with_key B 2 self Scenario.code None true None false
         Scenario.fresh = Some (Returns result, w')
       /\ cache w'
          = {[ _get_cache_key Scenario.code "ollama" "llama3.2:1b"
               := {| entry_value := result;
                     entry_expire_time := Some expire_time |} ]}.
Proof.
  cbv zeta. split; [|split; [reflexivity|]].
  - vm_compute. repeat split.
  - eexists _, _, _. split; vm_compute; reflexivity.
Qed.

(** C6, amended: [explain] writes the cache only after a generation has
    completed successfully.  A call that raises leaves the cache unchanged;
    so does a request rejected by input validation; a generation that
    raises (also when interrupted partway) writes nothing, and the cache is
    then unchanged by the call unless the fallback retry generates a
    result, in which case that result, filed under the fallback provider's
    key, is the only entry written. *)
Theorem cache_written_on_success (settings : Settings) (B : Backend)
    (default provider_name : option string) (auto_fallback validate_input : bool)
    (cb : option Callable) (code : string) (fuel : nat)
    (w w' : World) (r : Reply ExplanationResult) :
  let self := CodeExplainer_init settings default in
  explain settings B fuel self code provider_name auto_fallback cb
    validate_input w = Some (r, w') ->
  written code w w' r
  /\ (forall e, r = Raises e -> cache w' = cache w)
  /\ (forall e w1,
        explain_validate settings B self code validate_input w = (Raises e, w1) ->
        r = Raises e /\ cache w' = cache w)
  /\ (forall w1 p w2 key w3 m w4 e m' w5,
        explain_validate settings B self code validate_input w = (Returns tt, w1) ->
        explain_resolve B self provider_name auto_fallback w1 = (Returns p, w2) ->
        explain_probe B self code p cb w2 = (Returns (key, None), w3) ->
        explain_metrics B p w3 = (Returns m, w4) ->
        explain_code B p code m cb w4 = (Raises e, m', w5) ->
        cache w5 = cache w
        /\ (cache w' <> cache w ->
            auto_fallback = true
            /\ exists result expire_time,
                 r = Returns result
                 /\ model_provider (metrics result)
                    = fallback_name (BaseProvider.name p)
                 /\ cache w'
                    = <[_get_cache_key code (fallback_name (BaseProvider.name p))
                          (model (metrics result))
                        := {| entry_value := result;
                              entry_expire_time := Some expire_time |}]> (cache w))).
Proof.
  intros self Hrun.
  pose proof (explain_run settings B self code cb fuel _ _ _ _ _ _ Hrun)
    as [Hwritten _].
  split; [exact Hwritten|]. split; [|split].
  - intros e ->. destruct Hwritten as [Hsame | (result & t & Hr & _)];
      [exact Hsame | discriminate].
  - intros e w1 Hvalid. destruct fuel as [|fuel]; [discriminate|].
    cbn [explain] in Hrun. rewrite Hvalid in Hrun. injection Hrun as <- <-.
    split; [reflexivity|].
    exact (proj1 (quiet_explain_validate settings B self code _ _ _ _ Hvalid)).
  - intros w1 p w2 key w3 m w4 e m' w5 Hvalid Hresolve Hprobe Hmetrics Hcode.
    pose proof (proj1 (quiet_explain_validate settings B self code _ _ _ _ Hvalid)) as Hc1.
    pose proof (proj1 (quiet_explain_resolve B self _ _ _ _ _ Hresolve)) as Hc2.
    pose proof (proj1 (quiet_explain_probe B self code p cb _ _ _ Hprobe)) as Hc3.
    pose proof (proj1 (quiet_explain_metrics B p _ _ _ Hmetrics)) as Hc4.
    pose proof (proj1 (proj1 (explain_code_frame B p code m cb _ _ _ _ Hcode))) as Hc5.
    assert (cache w5 = cache w) as Hc05 by congruence.
    split; [exact Hc05|]. intros Hchanged.
    destruct fuel as [|fuel]; [discriminate|].
    apply (explain_try_raises B self code p cb key) in Hcode.
    cbn [explain] in Hrun.
    rewrite Hvalid, Hresolve, Hprobe, Hmetrics, Hcode in Hrun.
    destruct (is_Exception e).
    2: { injection Hrun as <- <-. contradiction. }
    destruct auto_fallback.
    2: { injection Hrun as <- <-. contradiction. }
    split; [reflexivity|].
    destruct (fallback_registered settings default (BaseProvider.name p))
      as (other & Hother & Hname & _).
    fold self in Hother.
    unfold _get_fallback_provider, bind in Hrun. rewrite Hother in Hrun.
    destruct (is_available B other (tick w5)) as [[[]|e'] w6] eqn:Havail;
      apply quiet_is_available in Havail as [Hc6 _]; cbn [cache tick] in Hc6;
      cbv beta iota delta [ret] in Hrun.
    + pose proof (explain_run settings B self code cb fuel _ _ _ _ _ _ Hrun)
        as [[Hsame | (result & t & Hr & Hfresh & Hnew)] _].
      { exfalso. apply Hchanged. congruence. }
      subst r. exists result, t. split; [reflexivity|].
      assert (model_provider (metrics result) = BaseProvider.name other) as Hby.
      { apply (generated_by_requested settings B default fuel code
                 (BaseProvider.name other) cb false w6 result w');
          [rewrite Hname; apply fallback_name_truthy | exact Hrun | exact Hfresh]. }
      rewrite Hname in Hby. split; [exact Hby|].
      rewrite Hnew, Hby. congruence.
    + injection Hrun as <- <-. exfalso. apply Hchanged. congruence.
    + injection Hrun as <- <-. exfalso. apply Hchanged. congruence.
Qed.

(** Gemini is interrupted while it streams and the interrupt goes through
    to the caller; nothing is written.  With every service down and
    validation on, a blank input is rejected; nothing is written either. *)
Lemma cache_written_on_success_witness :
  let self := CodeExplainer_init Scenario.with_key None in
  (exists w',
      explain Scenario.with_key Scenario.interrupted 2 self Scenario.code None
        true None false Scenario.fresh
      = Some (Raises (mk_exn KeyboardInterrupt ""), w')
      /\ cache w' = cache Scenario.fresh)
  /\ (exists w',
        explain Scenario.with_key Scenario.all_down 2 self "   " None
          true None true Scenario.fresh
        = Some (Raises (mk_exn ValueError
                          "Input validation failed: Code is too short (minimum 10 characters)"),
                w')
        /\ cache w' = cache Scenario.fresh).
Proof.
  cbv zeta. split.
  - eassert (explain Scenario.with_key Scenario.interrupted 2
               (CodeExplainer_init Scenario.with_key None) Scenario.code
               None true None false Scenario.fresh = Some (_, _)) as Hrun
      by (vm_compute; reflexivity).
    destruct (cache_written_on_success Scenario.with_key Scenario.interrupted
                None None true false None Scenario.code 2 _ _ _ Hrun)
      as (_ & Hraise & _).
    eexists. split; [exact Hrun|]. eapply Hraise. reflexivity.
  - eassert (explain Scenario.with_key Scenario.all_down 2
               (CodeExplainer_init Scenario.with_key None) "   "
               None true None true Scenario.fresh = Some (_, _)) as Hrun
      by (vm_compute; reflexivity).
    destruct (cache_written_on_success Scenario.with_key Scenario.all_down
                None None true true None "   " 2 _ _ _ Hrun)
      as (_ & _ & Hreject & _).
    eexists. split; [exact Hrun|]. eapply Hreject. reflexivity.
Defined.

(* ===================================================================== *)
(** * Cache hits *)
(* ===================================================================== *)

(** X1: on a hit the stored result comes back with [cache_hit] set, its start
    and end times moved to the readings of the clock around the lookup, and
    one call of the sink with the whole explanation; nothing but the lookup
    and that call happens after the provider is resolved, and the cache is
    left as it was. *)
Theorem cache_hit_returns (settings : Settings) (B : Backend)
    (self : CodeExplainer) (code : string) (provider_name : option string)
    (auto_fallback validate_input : bool) (cb : option Callable) (fuel : nat)
    (w w1 w2 : World) (p : BaseProvider.t) (row : CacheEntry) :
  use_cache self = true ->
  explain_validate settings B self code validate_input w = (Returns tt, w1) ->
  explain_resolve B self provider_name auto_fallback w1 = (Returns p, w2) ->
  cache w2 !! _get_cache_key code (BaseProvider.name p) (BaseProvider.model p)
  = Some row ->
  match entry_expire_time row with
  | Some expire_time => (clock B (S (ticks w2)) <? expire_time)%float = true
  | None => True
  end ->
  let hit :=
    set_metrics
      (set_end_time (clock B (S (S (ticks w2))))
         (set_start_time (clock B (ticks w2))
            (set_cache_hit true (metrics (entry_value row)))))
      (entry_value row) in
  exists w',
    explain settings B (S fuel) self code provider_name auto_fallback cb
      validate_input w = Some (Returns hit, w')
    /\ trace w'
       = (trace w2
            ++ EvCacheGet (_get_cache_key code (BaseProvider.name p)
                             (BaseProvider.model p))
            :: callback_events cb (explanation (entry_value row)))%list
    /\ cache w' = cache w2.
Proof.
  intros Huse Hvalid Hresolve Hrow Hfresh hit.
  cbn [explain]. rewrite Hvalid, Hresolve.
  unfold explain_probe. rewrite Huse.
  unfold bind, time_time, cache_get. cbn [cache tick log ticks].
  rewrite Hrow.
  assert (forall w3 : World,
             trace (call_callback cb (explanation (entry_value row)) w3)
             = (trace w3 ++ callback_events cb (explanation (entry_value row)))%list)
    as Htrace by (intros w3; apply trace_call_callback).
  destruct (entry_expire_time row) as [t|]; [rewrite Hfresh|];
    (eexists; split; [reflexivity|]; split;
     [ rewrite Htrace; cbn [trace tick log]; now rewrite <- app_assoc
     | now rewrite cache_call_callback ]).
Qed.

(** A second call for the same code, with validation switched off. *)
Lemma cache_hit_returns_witness :
  let B := Scenario.gemini_limited Scenario.hello in
  let self := CodeExplainer_init Scenario.with_key None in
  exists result w',
    explain Scenario.with_key B 1 self Scenario.code None true
      (Some recording_callback) false Scenario.warm = Some (Returns result, w')
    /\ cache_hit (metrics result) = true
    /\ start_time (metrics result) = Scenario.readings 0
    /\ end_time (metrics result) = Some (Scenario.readings 2)
    /\ trace w'
       = [EvCacheGet (_get_cache_key Scenario.code "gemini" "gemini-2.5-flash");
          EvCallback "Adds one to its argument."].
Proof.
  intros B self.
  destruct (cache_hit_returns Scenario.with_key B self Scenario.code None true
              false (Some recording_callback) 0 Scenario.warm Scenario.warm
              Scenario.warm
              (GeminiProvider Scenario.with_key (Some "gemini-2.5-flash"))
              {| entry_value := Scenario.earlier; entry_expire_time := None |}
              eq_refl eq_refl eq_refl)
    as (w' & Hrun & Htrace & _).
  - vm_compute. reflexivity.
  - exact I.
  - eexists _, w'. split; [exact Hrun|].
    split; [reflexivity|]. split; [reflexivity|]. split; [reflexivity|].
    rewrite Htrace. reflexivity.
Defined.

(** C2 on the code: with [validate_input] on, which is the default, the
    validator runs before the cache is looked at.  The key of the request is
    in the cache; all the same, Ollama's and Gemini's validators are both
    asked before the lookup, and when the validator turns the input down the
    stored result is not returned at all. *)
Theorem cache_hit_validates_first :
  let self := CodeExplainer_init Scenario.with_key None in
  let key := _get_cache_key Scenario.code "gemini" "gemini-2.5-flash" in
  let prompt := validation_prompt_for Scenario.with_key Scenario.code in
  (exists result w',
      explain Scenario.with_key (Scenario.gemini_limited Scenario.hello) 2 self
        Scenario.code None true (Some recording_callback) true Scenario.warm
      = Some (Returns result, w')
      /\ cache_hit (metrics result) = true
      /\ explanation result = explanation Scenario.earlier
      /\ trace w'
         = [EvOllamaList;
            EvOllamaChat "llama3.2:1b" prompt;
            EvGeminiGenerateContent "gemini-2.5-flash" prompt;
            EvCacheGet key;
            EvCallback "Adds one to its argument."]
      /\ validator_calls (trace w') = 2%nat
      /\ generation_calls (trace w') = 0%nat)
  /\ (exists w',
        explain Scenario.with_key Scenario.rejecting 2 self
          Scenario.code None true (Some recording_callback) true Scenario.warm
        = Some (Raises (mk_exn ValueError "Input validation failed: Not code"), w')
        /\ trace w'
           = [EvOllamaList; EvGeminiGenerateContent "gemini-2.5-flash" prompt]).
Proof.
  cbv zeta. split.
  - eexists _, _. split; [vm_compute; reflexivity|].
    vm_compute. repeat split.
  - eexists. split; vm_compute; reflexivity.
Qed.

(* ===================================================================== *)
(** * Availability and the list of providers *)
(* ===================================================================== *)

(** X2: once a provider has answered whether it is available, asking again
    gives the same answer and changes nothing.  Gemini answers from its key
    alone; Ollama asks the server for its model list only while its memo is
    empty, and an answer, positive or negative, fills the memo. *)
Theorem is_available_settles (B : Backend) (p : BaseProvider.t)
    (w w1 : World) (known : bool) :
  is_available B p w = (Returns known, w1) ->
  is_available B p w1 = (Returns known, w1)
  /\ cache w1 = cache w
  /\ (w1 = w
      \/ (BaseProvider.class p = BaseProvider.OllamaProvider
          /\ ollama_is_available_cache w = None
          /\ ollama_is_available_cache w1 = Some known
          /\ trace w1 = (trace w ++ [EvOllamaList])%list)).
Proof. apply is_available_memo. Qed.

Lemma is_available_settles_witness :
  let p := OllamaProvider Scenario.with_key None in
  let w1 := snd (is_available Scenario.all_down p Scenario.fresh) in
  is_available Scenario.all_down p Scenario.fresh = (Returns false, w1)
  /\ is_available Scenario.all_down p w1 = (Returns false, w1)
  /\ trace w1 = [EvOllamaList].
Proof.
  intros p w1.
  assert (is_available Scenario.all_down p Scenario.fresh = (Returns false, w1))
    as Hfirst by reflexivity.
  split; [exact Hfirst|].
  destruct (is_available_settles _ _ _ _ _ Hfirst) as (Hagain & _ & _).
  split; [exact Hagain | reflexivity].
Defined.

(** X3: [list_available_providers] lists "gemini" when the API key is not
    empty, then "ollama" when the server answers; and a provider is listed
    exactly when [_get_provider] hands it out by that name afterwards. *)
Theorem listed_providers_resolve (settings : Settings) (B : Backend)
    (default : option string) (w w' : World) (names : list string) :
  let self := CodeExplainer_init settings default in
  list_available_providers B self w = (Returns names, w') ->
  (exists running,
      is_available B (OllamaProvider settings (Some (ollama_model settings))) w
      = (Returns running, w')
      /\ names
         = ((if PyStr.truthy (gemini_api_key settings) then ["gemini"] else [])
              ++ (if running then ["ollama"] else []))%list)
  /\ (forall name,
        PyStr.truthy name = true ->
        In name names <->
        exists p, _get_provider B self (Some name) w' = (Returns p, w')).
Proof.
  intros self. unfold list_available_providers. cbn [available_among].
  unfold self at 1 2. rewrite providers_gemini, providers_ollama.
  unfold bind.
  change (is_available B (GeminiProvider settings (Some (gemini_model settings))) w)
    with (Returns (BaseProvider.is_available
                     (GeminiProvider settings (Some (gemini_model settings)))), w).
  assert (BaseProvider.is_available
            (GeminiProvider settings (Some (gemini_model settings)))
          = PyStr.truthy (gemini_api_key settings)) as Hkey.
  { cbn. destruct (gemini_api_key settings); reflexivity. }
  rewrite Hkey.
  destruct (is_available B (OllamaProvider settings (Some (ollama_model settings))) w)
    as [[running|e] w1] eqn:Hollama; [|discriminate].
  cbn [ret]. intros H. injection H as <- <-.
  destruct (is_available_memo _ _ _ _ _ Hollama) as (Hagain & _).
  split.
  - exists running. split; [reflexivity|].
    destruct (PyStr.truthy (gemini_api_key settings)), running; reflexivity.
  - intros name Hname.
    unfold _get_provider. cbn [py_or]. rewrite Hname.
    destruct (decide (name = "gemini")) as [->|Hg];
      [|destruct (decide (name = "ollama")) as [->|Ho]].
    + unfold self. rewrite providers_gemini. unfold bind.
      change (is_available B (GeminiProvider settings (Some (gemini_model settings))) w1)
        with (Returns (BaseProvider.is_available
                         (GeminiProvider settings (Some (gemini_model settings)))), w1).
      rewrite Hkey.
      destruct (PyStr.truthy (gemini_api_key settings)), running; cbn;
        split; intros H; eauto; try (destruct H as [p H]; discriminate);
        repeat (destruct H as [H|H]; try discriminate); try contradiction.
    + unfold self. rewrite providers_ollama. unfold bind. rewrite Hagain.
      destruct (PyStr.truthy (gemini_api_key settings)), running; cbn;
        split; intros H; eauto; try (destruct H as [p H]; discriminate);
        repeat (destruct H as [H|H]; try discriminate); try contradiction.
    + unfold self. rewrite providers_other by assumption.
      split.
      * intros H. exfalso.
        destruct (PyStr.truthy (gemini_api_key settings)), running; cbn in H;
          repeat (destruct H as [H|H]; try congruence); try contradiction.
      * intros [p H]. discriminate.
Qed.

Lemma listed_providers_resolve_witness :
  let self := CodeExplainer_init Scenario.without_key None in
  let B := Scenario.gemini_limited Scenario.hello in
  exists w',
    list_available_providers B self Scenario.fresh = (Returns ["ollama"], w')
    /\ (exists p, _get_provider B self (Some "ollama") w' = (Returns p, w'))
    /\ ~ (exists p, _get_provider B self (Some "gemini") w' = (Returns p, w')).
Proof.
  intros self B.
  eassert (list_available_providers B self Scenario.fresh = (Returns _, _)) as Hrun
    by reflexivity.
  destruct (listed_providers_resolve _ _ _ _ _ _ Hrun) as [_ Hiff].
  eexists. split; [exact Hrun|]. split.
  - apply (Hiff "ollama" eq_refl). left. reflexivity.
  - intros H. apply (Hiff "gemini" eq_refl) in H.
    destruct H as [H|[]]. discriminate.
Defined.

(* ===================================================================== *)
(** * Errors of the providers *)
(* ===================================================================== *)

(** X4: whatever goes wrong in [generate_structured], of either provider,
    reaches the caller as a plain [ProviderError] whose message is the
    provider's prefix followed by the cause, the cache is untouched, and the
    cause is the one of the path taken.  Gemini without a client: "Gemini
    client not initialized", and nothing was sent.  Otherwise the one
    structured request was sent, and the cause is the message of the
    exception that the request raised, or the provider's "returned empty
    structured response" for an answer without content, or, for Ollama, the
    message of the exception that parsing the content raised. *)
Theorem structured_errors (B : Backend) (self : BaseProvider.t) (prompt : string)
    (w w' : World) (e : exn) :
  generate_structured B self prompt w = (Raises e, w') ->
  is_Exception e = true ->
  exists cause,
    e = mk_exn ProviderError (structured_prefix self ++ cause)
    /\ cache w' = cache w
    /\ match BaseProvider.class self with
       | BaseProvider.GeminiProvider =>
           (gemini_client self = false
            /\ cause = "Gemini client not initialized"
            /\ w' = w)
           \/ (gemini_client self = true
               /\ w' = log (structured_request self prompt) w
               /\ ((exists e0,
                       gemini_generate_content B (BaseProvider.model self) prompt
                       = Raises e0
                       /\ is_Exception e0 = true
                       /\ cause = str_of e0)
                   \/ (gemini_generate_content B (BaseProvider.model self) prompt
                       = Returns None
                       /\ cause = "Gemini returned empty structured response")))
       | BaseProvider.OllamaProvider =>
           w' = log (structured_request self prompt) w
           /\ ((exists e0,
                   ollama_chat B (BaseProvider.model self) prompt = Raises e0
                   /\ is_Exception e0 = true
                   /\ cause = str_of e0)
               \/ (exists content,
                      ollama_chat B (BaseProvider.model self) prompt
                      = Returns content
                      /\ match content with
                         | Some c => PyStr.truthy c = false
                         | None => True
                         end
                      /\ cause = "Ollama returned empty structured response")
               \/ (exists c e0,
                      ollama_chat B (BaseProvider.model self) prompt
                      = Returns (Some c)
                      /\ PyStr.truthy c = true
                      /\ model_validate_json B c = Raises e0
                      /\ is_Exception e0 = true
                      /\ cause = str_of e0))
       end.
Proof.
  unfold generate_structured, structured_prefix, structured_request.
  destruct (BaseProvider.class self).
  - unfold gemini_generate_structured, try_except.
    destruct (gemini_client self); cbn [negb].
    + destruct (gemini_generate_content B _ _) as [[parsed|]|e0];
        [discriminate| |]; cbn [is_Exception mk_exn exn_class].
      * intros H. injection H as <- <-. intros _.
        eexists. split; [reflexivity|]. split; [reflexivity|].
        right. split; [reflexivity|]. split; [reflexivity|].
        right. split; reflexivity.
      * destruct (is_Exception e0) eqn:He0;
          intros H; injection H as <- <-; [|congruence]. intros _.
        eexists. split; [reflexivity|]. split; [reflexivity|].
        right. split; [reflexivity|]. split; [reflexivity|].
        left. exists e0. now repeat split.
    + cbn. intros H. injection H as <- <-. intros _.
      eexists. split; [reflexivity|]. split; [reflexivity|].
      left. now repeat split.
  - unfold ollama_generate_structured, try_except.
    destruct (ollama_chat B _ _) as [[c|]|e0].
    + destruct (PyStr.truthy c) eqn:Hc.
      * destruct (model_validate_json B c) as [v|e0] eqn:Hparse; [discriminate|].
        destruct (is_Exception e0) eqn:He0;
          intros H; injection H as <- <-; [|congruence]. intros _.
        eexists. split; [reflexivity|]. split; [reflexivity|].
        split; [reflexivity|]. right. right. exists c, e0. now repeat split.
      * cbn [is_Exception mk_exn exn_class].
        intros H. injection H as <- <-. intros _.
        eexists. split; [reflexivity|]. split; [reflexivity|].
        split; [reflexivity|]. right. left. exists (Some c). now repeat split.
    + cbn [is_Exception mk_exn exn_class].
      intros H. injection H as <- <-. intros _.
      eexists. split; [reflexivity|]. split; [reflexivity|].
      split; [reflexivity|]. right. left. exists None. now repeat split.
    + destruct (is_Exception e0) eqn:He0;
        intros H; injection H as <- <-; [|congruence]. intros _.
      eexists. split; [reflexivity|]. split; [reflexivity|].
      split; [reflexivity|]. left. exists e0. now repeat split.
Qed.

(** Ollama's validator is asked and the connection is refused: the caller
    sees the prefix followed by "Connection refused", after the one request. *)
Lemma structured_errors_witness :
  exists w',
    generate_structured Scenario.validators_down
      (OllamaProvider Scenario.with_key None) "Is this code?" Scenario.fresh
    = (Raises (mk_exn ProviderError
                 "Ollama structured generation error: Connection refused"), w')
    /\ trace w' = [EvOllamaChat "llama3.2:1b" "Is this code?"].
Proof.
  eassert (generate_structured Scenario.validators_down
             (OllamaProvider Scenario.with_key None) "Is this code?"
             Scenario.fresh
           = (Raises _, _)) as Hrun by reflexivity.
  destruct (structured_errors _ _ _ _ _ _ Hrun eq_refl)
    as (cause & _ & _ & Hsent & _).
  eexists. split; [exact Hrun|].
  rewrite Hsent. reflexivity.
Defined.

Lemma ollama_classify_class (self : BaseProvider.t) (e : exn) :
  is_ProviderError (ollama_classify self e) = true.
Proof.
  unfold ollama_classify.
  repeat match goal with |- context [if ?c then _ else _] => destruct c end;
    reflexivity.
Qed.

Lemma gemini_classify_class (self : BaseProvider.t) (e : exn) :
  is_ProviderError (gemini_classify self e) = true.
Proof.
  unfold gemini_classify.
  repeat match goal with |- context [if ?c then _ else _] => destruct c end;
    reflexivity.
Qed.

Lemma invoke_model_errors (B : Backend) (self : BaseProvider.t)
    (prompt code : string) (m : PerformanceMetrics) (cb : option Callable)
    (w : World) e m' w' :
  _invoke_model B self prompt code m cb w = (Raises e, m', w') ->
  is_Exception e = true -> is_ProviderError e = true.
Proof.
  unfold _invoke_model. destruct (BaseProvider.class self).
  - unfold gemini_invoke_model.
    match goal with
    | |- context [let (_, _) := ?body in _] =>
        destruct body as [[[text|e0] m1] w1]
    end; [discriminate|].
    destruct (is_Exception e0) eqn:He0; intros H; injection H as <- <- <-.
    + intros _. apply gemini_classify_class.
    + congruence.
  - unfold ollama_invoke_model.
    match goal with
    | |- context [let (_, _) := ?body in _] =>
        destruct body as [[[text|e0] m1] w1]
    end; [discriminate|].
    destruct (is_Exception e0) eqn:He0; intros H; injection H as <- <- <-.
    + intros _. apply ollama_classify_class.
    + congruence.
Qed.

(** X5: an exception that leaves [explain_code] is a [ProviderError] or one
    of its three subclasses, its message is recorded in [metrics.error], and
    the metrics name the provider and the model that failed. *)
Theorem generation_errors (B : Backend) (self : BaseProvider.t) (code : string)
    (m : PerformanceMetrics) (cb : option Callable) (w w' : World)
    (e : exn) (m' : PerformanceMetrics) :
  explain_code B self code m cb w = (Raises e, m', w') ->
  is_Exception e = true ->
  is_ProviderError e = true
  /\ error m' = Some (str_of e)
  /\ model m' = BaseProvider.model self
  /\ model_provider m' = BaseProvider.name self.
Proof.
  intros Hrun Hexn.
  pose proof (explain_code_frame _ _ _ _ _ _ _ _ _ Hrun) as (_ & Hm & Hp & _).
  unfold explain_code in Hrun.
  destruct (_invoke_model B self _ code _ cb w) as [[[text|e0] m1] w1] eqn:Hinvoke;
    [discriminate|].
  destruct (is_Exception e0) eqn:He0; injection Hrun as <- <- <-.
  - split; [exact (invoke_model_errors _ _ _ _ _ _ _ _ _ _ Hinvoke He0)|].
    split; [reflexivity|]. split; assumption.
  - congruence.
Qed.

Lemma generation_errors_witness :
  let B := Scenario.gemini_limited Scenario.hello in
  let self := GeminiProvider Scenario.with_key None in
  exists m' w',
    explain_code B self Scenario.code Scenario.blank_metrics None Scenario.fresh
    = (Raises (mk_exn RateLimitError
                 "Gemini rate limit exceeded: 429 quota exceeded"), m', w')
    /\ error m' = Some "Gemini rate limit exceeded: 429 quota exceeded".
Proof.
  intros B self.
  eassert (explain_code B self Scenario.code Scenario.blank_metrics None
             Scenario.fresh = (Raises _, _, _)) as Hrun by reflexivity.
  destruct (generation_errors _ _ _ _ _ _ _ _ _ Hrun eq_refl) as (_ & Herror & _).
  eexists _, _. split; [exact Hrun | exact Herror].
Defined.

Lemma append_empty_inv (a b : string) : a ++ b = "" -> a = "" /\ b = "".
Proof. destruct a; [auto | discriminate]. Qed.

Lemma concat_empty_no_fragments (emitted : list string) :
  PyStr.concat_all emitted = "" -> non_empty emitted = [].
Proof.
  induction emitted as [|f rest IH]; [reflexivity|].
  cbn [PyStr.concat_all non_empty]. intros H.
  apply append_empty_inv in H as [-> Hrest]. cbn. auto.
Qed.

Lemma callbacks_none_when_empty (provider : string) (cb : option Callable)
    (emitted : list string) (t : list Event) :
  PyStr.concat_all emitted = "" ->
  callbacks (t ++ forwarding provider cb emitted) = callbacks t.
Proof.
  intros Hempty. rewrite callbacks_app, callbacks_of_stream.
  rewrite (concat_empty_no_fragments _ Hempty).
  destruct cb; now rewrite app_nil_r.
Qed.

Lemma ollama_empty_classified (self : BaseProvider.t) :
  ollama_classify self (mk_exn ProviderError "Ollama returned empty response")
  = mk_exn ProviderError "Ollama error: Ollama returned empty response".
Proof. reflexivity. Qed.

Lemma gemini_empty_classified (self : BaseProvider.t) :
  gemini_classify self (mk_exn ProviderError "Gemini returned empty response")
  = mk_exn ProviderError "Gemini API error: Gemini returned empty response".
Proof. reflexivity. Qed.

Lemma ollama_empty_response (B : Backend) (self : BaseProvider.t) (code : string)
    (cb : option Callable) (s : Stream OllamaChunk)
    (m : PerformanceMetrics) (w : World) :
  BaseProvider.class self = BaseProvider.OllamaProvider ->
  ollama_chat_stream B (BaseProvider.model self)
    (full_prompt BaseProvider._build_prompt code) = Returns s ->
  ollama_end s tt = Returns tt ->
  PyStr.concat_all (ollama_emitted s) = "" ->
  exists m' w',
    explain_code B self code m cb w
    = (Raises (mk_exn ProviderError "Ollama error: Ollama returned empty response"),
       m', w')
    /\ callbacks (trace w') = callbacks (trace w).
Proof.
  intros Hclass Hs Hend Hempty.
  unfold explain_code, _invoke_model. rewrite Hclass.
  unfold ollama_invoke_model. rewrite Hs.
  set (ev := EvOllamaChatStream _ _). set (m0 := set_model_provider _ _).
  destruct (ollama_for_chunks_spec B cb s None "" m0 (log ev w))
    as (m1 & w1 & -> & [Ht Hc Ha Hm Hp Hh]).
  rewrite ollama_end_reply, Hend.
  change ("" ++ PyStr.concat_all (ollama_emitted s))
    with (PyStr.concat_all (ollama_emitted s)).
  rewrite Hempty. cbn [PyStr.truthy negb].
  change (is_Exception (mk_exn ProviderError "Ollama returned empty response"))
    with true.
  cbv iota. rewrite ollama_empty_classified.
  change (is_Exception
            (mk_exn ProviderError "Ollama error: Ollama returned empty response"))
    with true.
  cbv iota. eexists _, _. split; [reflexivity|].
  rewrite Ht, callbacks_app, callbacks_of_ollama.
  rewrite (concat_empty_no_fragments _ Hempty).
  cbn [trace log]. rewrite callbacks_app. cbn.
  destruct cb; now rewrite !app_nil_r.
Qed.

Lemma gemini_empty_response (B : Backend) (self : BaseProvider.t) (code : string)
    (cb : option Callable) (s : Stream GeminiChunk)
    (m : PerformanceMetrics) (w : World) :
  BaseProvider.class self = BaseProvider.GeminiProvider ->
  gemini_client self = true ->
  gemini_generate_content_stream B (BaseProvider.model self)
    (full_prompt BaseProvider._build_prompt code) = Returns s ->
  stream_end s tt = Returns tt ->
  PyStr.concat_all (fragments gemini_fragment s) = "" ->
  exists m' w',
    explain_code B self code m cb w
    = (Raises (mk_exn ProviderError
                 "Gemini API error: Gemini returned empty response"), m', w')
    /\ callbacks (trace w') = callbacks (trace w).
Proof.
  intros Hclass Hclient Hs Hend Hempty.
  unfold explain_code, _invoke_model. rewrite Hclass.
  unfold gemini_invoke_model. rewrite Hclient, Hs. cbn [negb].
  set (ev := EvGeminiGenerateContentStream _ _). set (m0 := set_model_provider _ _).
  destruct (gemini_for_chunks_spec B cb s None "" None m0 (log ev w))
    as (m1 & w1 & -> & [Ht Hc Ha Hm Hp Hh]).
  rewrite stream_end_reply, Hend.
  change ("" ++ PyStr.concat_all (fragments gemini_fragment s))
    with (PyStr.concat_all (fragments gemini_fragment s)).
  rewrite Hempty. cbn [PyStr.truthy negb].
  change (is_Exception (mk_exn ProviderError "Gemini returned empty response"))
    with true.
  cbv iota. rewrite gemini_empty_classified.
  change (is_Exception
            (mk_exn ProviderError "Gemini API error: Gemini returned empty response"))
    with true.
  cbv iota. eexists _, _. split; [reflexivity|].
  rewrite Ht. rewrite (callbacks_none_when_empty _ _ _ _ Hempty).
  cbn [trace log]. rewrite callbacks_app. cbn. now rewrite app_nil_r.
Qed.

(** X6: the emptiness check of [_invoke_model] comes before the stripping
    of [explain_code].  A loop that ends without any text makes either
    provider raise its "returned empty response" error, and the sink is never
    called; text of white space only passes the check and is returned as the
    empty explanation.  The loop of Gemini ends when the stream does; the
    loop of Ollama ends when the stream does and every chunk flagged [done]
    came with its two counters. *)
Theorem empty_generation (B : Backend) (self : BaseProvider.t) (code : string)
    (cb : option Callable) :
  (forall s,
      BaseProvider.class self = BaseProvider.OllamaProvider ->
      ollama_chat_stream B (BaseProvider.model self)
        (full_prompt BaseProvider._build_prompt code) = Returns s ->
      ollama_end s tt = Returns tt ->
      checks_before_stripping B self code cb (ollama_emitted s)
        "Ollama error: Ollama returned empty response")
  /\ (forall s,
        BaseProvider.class self = BaseProvider.GeminiProvider ->
        gemini_client self = true ->
        gemini_generate_content_stream B (BaseProvider.model self)
          (full_prompt BaseProvider._build_prompt code) = Returns s ->
        stream_end s tt = Returns tt ->
        checks_before_stripping B self code cb (fragments gemini_fragment s)
          "Gemini API error: Gemini returned empty response").
Proof.
  split.
  - intros s Hclass Hs Hend. split.
    + intros Hempty m w. now apply ollama_empty_response with (s := s).
    + intros Htext Hblank m w.
      destruct (ollama_streamed B self code cb s Hclass Hs m w)
        as (r & m' & w' & Hrun & _ & _ & Hreturns).
      destruct (Hreturns Hend Htext) as [_ ->].
      exists m', w'. now rewrite Hrun, Hblank.
  - intros s Hclass Hclient Hs Hend. split.
    + intros Hempty m w. now apply gemini_empty_response with (s := s).
    + intros Htext Hblank m w.
      destruct (gemini_streamed B self code cb s Hclass Hclient Hs m w)
        as (r & m' & w' & Hrun & _ & _ & Hreturns).
      destruct (Hreturns Hend Htext) as [_ ->].
      exists m', w'. now rewrite Hrun, Hblank.
Qed.

Lemma empty_generation_witness :
  let self := OllamaProvider Scenario.with_key None in
  let silent := Scenario.gemini_limited [Scenario.chunk "" true] in
  let blank := Scenario.gemini_limited [Scenario.chunk ("  " ++ PyStr.LF) true] in
  (exists m' w',
      explain_code silent self Scenario.code Scenario.blank_metrics
        (Some recording_callback) Scenario.fresh
      = (Raises (mk_exn ProviderError
                   "Ollama error: Ollama returned empty response"), m', w')
      /\ callbacks (trace w') = [])
  /\ (exists m' w',
        explain_code blank self Scenario.code Scenario.blank_metrics
          (Some recording_callback) Scenario.fresh = (Returns "", m', w')).
Proof.
  intros self silent blank. split.
  - destruct (empty_generation silent self Scenario.code (Some recording_callback))
      as [Hollama _].
    destruct (Hollama _ eq_refl eq_refl eq_refl) as [Hempty _].
    exact (Hempty eq_refl Scenario.blank_metrics Scenario.fresh).
  - destruct (empty_generation blank self Scenario.code (Some recording_callback))
      as [Hollama _].
    destruct (Hollama _ eq_refl eq_refl eq_refl) as [_ Hblank].
    exact (Hblank eq_refl eq_refl Scenario.blank_metrics Scenario.fresh).
Defined.

(** X7: without an API key the Gemini provider is not available, and both
    of its requests fail with "Gemini client not initialized" before anything
    is sent: the world is left as it was. *)
Theorem gemini_needs_key (settings : Settings) (B : Backend)
    (model : option string) (prompt code : string) (m : PerformanceMetrics)
    (cb : option Callable) (w : World) :
  gemini_api_key settings = "" ->
  let self := GeminiProvider settings model in
  is_available B self w = (Returns false, w)
  /\ generate_structured B self prompt w
     = (Raises (mk_exn ProviderError
                  "Gemini structured generation error: Gemini client not initialized"),
        w)
  /\ exists m',
       explain_code B self code m cb w
       = (Raises (mk_exn ProviderError
                    "Gemini API error: Gemini client not initialized"), m', w).
Proof.
  intros Hkey self.
  assert (gemini_client self = false) as Hclient
    by (unfold gemini_client, self; cbn; now rewrite Hkey).
  split; [|split].
  - unfold is_available, self. cbn. now rewrite Hkey.
  - unfold generate_structured, self. cbn [BaseProvider.class GeminiProvider].
    unfold gemini_generate_structured, try_except. fold self. rewrite Hclient.
    reflexivity.
  - unfold explain_code, _invoke_model, self.
    cbn [BaseProvider.class GeminiProvider].
    unfold gemini_invoke_model. fold self. rewrite Hclient. cbn [negb].
    eexists. reflexivity.
Qed.

Lemma gemini_needs_key_witness :
  let self := GeminiProvider Scenario.without_key None in
  is_available Scenario.all_down self Scenario.fresh = (Returns false, Scenario.fresh)
  /\ fst (generate_structured Scenario.all_down self "Is this code?" Scenario.fresh)
     = Raises (mk_exn ProviderError
                 "Gemini structured generation error: Gemini client not initialized").
Proof.
  cbv zeta.
  destruct (gemini_needs_key Scenario.without_key Scenario.all_down None
              "Is this code?" Scenario.code Scenario.blank_metrics None
              Scenario.fresh eq_refl) as (Havail & Hstructured & _).
  split; [exact Havail|]. now rewrite Hstructured.
Defined.

(* ===================================================================== *)
(** * The time to the first token *)
(* ===================================================================== *)

Lemma ticks_call_callback (cb : option Callable) (text : string) (w : World) :
  ticks (call_callback cb text w) = ticks w.
Proof. now destruct cb. Qed.

Ltac clock_step loop :=
  match goal with
  | IH : forall _, _ |- context [loop ?B ?rest ?cb ?a ?b ?c ?d] =>
      let H := fresh "Hrest" in
      pose proof (IH a b c d) as H; cbv zeta in H;
      unfold first_token_clock in H; cbn in H |- *;
      rewrite ?ticks_call_callback in H; cbn in H;
      try exact H;
      try (destruct H as (? & ? & ?); now auto)
  end.

Lemma ollama_for_chunks_clock (B : Backend) (cb : option Callable)
    (s : Stream OllamaChunk) :
  forall first_token_time text m w,
    let out := ollama_for_chunks B s cb first_token_time text m w in
    match first_token_time with
    | None => first_token_clock B (ollama_emitted s) m (snd (fst out)) w (snd out)
    | Some _ =>
        start_time (snd (fst out)) = start_time m
        /\ time_to_first_token (snd (fst out)) = time_to_first_token m
        /\ ticks (snd out) = ticks w
    end.
Proof.
  induction s as [|chunk rest IH|e]; intros ftt text m w.
  - destruct ftt; cbn; unfold first_token_clock; cbn; auto.
  - cbn [ollama_for_chunks ollama_emitted].
    unfold first_token_clock, chunk_total. cbn [non_empty].
    fold (ollama_fragment chunk).
    destruct ftt as [t|];
      destruct (PyStr.truthy (ollama_fragment chunk)) eqn:Htext;
      destruct (oc_done chunk);
      try destruct (add_counts _ _) as [total|bad];
      cbv beta iota zeta;
      first [ clock_step ollama_for_chunks
            | cbn; rewrite ?ticks_call_callback; cbn; auto ].
  - destruct ftt; cbn; unfold first_token_clock; cbn; auto.
Qed.

Lemma gemini_for_chunks_clock (B : Backend) (cb : option Callable)
    (s : Stream GeminiChunk) :
  forall first_token_time text final m w,
    let out := gemini_for_chunks B s cb first_token_time text final m w in
    match first_token_time with
    | None => first_token_clock B (fragments gemini_fragment s) m (snd (fst out)) w (snd out)
    | Some _ =>
        start_time (snd (fst out)) = start_time m
        /\ time_to_first_token (snd (fst out)) = time_to_first_token m
        /\ ticks (snd out) = ticks w
    end.
Proof.
  induction s as [|chunk rest IH|e]; intros ftt text final m w.
  - destruct ftt; cbn; unfold first_token_clock; cbn; auto.
  - cbn [gemini_for_chunks fragments].
    unfold first_token_clock. cbn [non_empty].
    fold (gemini_fragment chunk).
    destruct ftt as [t|];
      destruct (PyStr.truthy (gemini_fragment chunk)) eqn:Htext;
      cbv beta iota zeta;
      match goal with
      | |- context [gemini_for_chunks B rest cb ?a ?b ?c ?d ?e] =>
          pose proof (IH a b c d e) as Hrest; cbv zeta in Hrest;
          unfold first_token_clock in Hrest; cbn in Hrest |- *;
          rewrite ?ticks_call_callback in Hrest; cbn in Hrest;
          try exact Hrest;
          try (destruct Hrest as (? & ? & ?); now auto)
      end.
  - destruct ftt; cbn; unfold first_token_clock; cbn; auto.
Qed.

(** A chunk flagged [done] that lacks a counter ends the loop: what the
    stream holds after it is never asked for, and no first-token time is
    taken for the text that follows. *)
Example first_token_time_uncounted :
  non_empty (fragments ollama_fragment
               (stream_of_list [Scenario.uncounted ""; Scenario.chunk "Hi" true]))
  = ["Hi"]
  /\ ollama_emitted
       (stream_of_list [Scenario.uncounted ""; Scenario.chunk "Hi" true])
     = [""]
  /\ time_to_first_token
       (snd (fst (explain_code
                    (Scenario.gemini_limited
                       [Scenario.uncounted ""; Scenario.chunk "Hi" true])
                    (OllamaProvider Scenario.with_key None) Scenario.code
                    Scenario.blank_metrics None Scenario.fresh)))
     = None
  /\ ticks (snd (explain_code
                   (Scenario.gemini_limited
                      [Scenario.uncounted ""; Scenario.chunk "Hi" true])
                   (OllamaProvider Scenario.with_key None) Scenario.code
                   Scenario.blank_metrics None Scenario.fresh))
     = 0%nat.
Proof. vm_compute. repeat split. Qed.

(** X8: the time to the first token is taken once, at the first fragment
    that is not empty, as that reading of the clock minus the start time;
    a stream without text reads no clock and leaves the field as it was.
    This holds however the stream finishes.  The fragments are those the
    loop is handed: for Ollama those up to the first chunk flagged [done]
    that lacks a counter, which are all the fragments of the stream when
    every such chunk has its counters. *)
Theorem first_token_time_recorded (B : Backend) (self : BaseProvider.t)
    (code : string) (cb : option Callable) :
  (forall s,
      BaseProvider.class self = BaseProvider.OllamaProvider ->
      ollama_chat_stream B (BaseProvider.model self)
        (full_prompt BaseProvider._build_prompt code) = Returns s ->
      forall m w, exists r m' w',
        explain_code B self code m cb w = (r, m', w')
        /\ first_token_clock B (ollama_emitted s) m m' w w'
        /\ (all_counted s = true ->
            first_token_clock B (fragments ollama_fragment s) m m' w w'))
  /\ (forall s,
        BaseProvider.class self = BaseProvider.GeminiProvider ->
        gemini_client self = true ->
        gemini_generate_content_stream B (BaseProvider.model self)
          (full_prompt BaseProvider._build_prompt code) = Returns s ->
        forall m w, exists r m' w',
          explain_code B self code m cb w = (r, m', w')
          /\ first_token_clock B (fragments gemini_fragment s) m m' w w').
Proof.
  split.
  - intros s Hclass Hs m w.
    unfold explain_code, _invoke_model. rewrite Hclass.
    unfold ollama_invoke_model. rewrite Hs.
    match goal with
    | |- context [ollama_for_chunks B s cb None "" ?m0 ?w0] =>
        pose proof (ollama_for_chunks_clock B cb s None "" m0 w0) as Hloop;
        cbv zeta in Hloop;
        destruct (ollama_for_chunks B s cb None "" m0 w0) as [[r m1] w1]
    end.
    cbn [fst snd] in Hloop.
    assert (forall emitted,
               first_token_clock B emitted
                 (set_model_provider "ollama" (set_model (BaseProvider.model self) m))
                 m1 (log (EvOllamaChatStream (BaseProvider.model self)
                            (full_prompt BaseProvider._build_prompt code)) w) w1 ->
               first_token_clock B emitted m m1 w w1) as Hframe
      by (unfold first_token_clock; cbn; auto).
    assert (first_token_clock B (ollama_emitted s) m m1 w w1
            /\ (all_counted s = true ->
                first_token_clock B (fragments ollama_fragment s) m m1 w w1))
      as Hclock.
    { split; [now apply Hframe|].
      intros Hcounted. destruct (ollama_counted s Hcounted) as (<- & _).
      now apply Hframe. }
    clear Hloop Hframe.
    destruct r as [text|e].
    + destruct (PyStr.truthy text); cbn [negb];
        do 3 eexists; (split; [reflexivity|]); exact Hclock.
    + destruct (is_Exception e) eqn:He.
      * assert (is_Exception (ollama_classify self e) = true) as ->
          by (unfold ollama_classify;
              repeat match goal with
                     | |- context [if ?b then _ else _] => destruct b
                     end; reflexivity).
        do 3 eexists; (split; [reflexivity|]); exact Hclock.
      * rewrite He. do 3 eexists; (split; [reflexivity|]); exact Hclock.
  - intros s Hclass Hclient Hs m w.
    unfold explain_code, _invoke_model. rewrite Hclass.
    unfold gemini_invoke_model. rewrite Hclient, Hs. cbn [negb].
    match goal with
    | |- context [gemini_for_chunks B s cb None "" None ?m0 ?w0] =>
        pose proof (gemini_for_chunks_clock B cb s None "" None m0 w0) as Hloop;
        cbv zeta in Hloop;
        destruct (gemini_for_chunks B s cb None "" None m0 w0) as [[r m1] w1]
    end.
    cbn [fst snd] in Hloop. unfold first_token_clock in *.
    cbn in Hloop.
    destruct r as [[text final]|e].
    + assert (forall final m2,
                 m2 = match final with
                      | Some chunk =>
                          match gc_usage_metadata chunk with
                          | Some n => set_total_tokens n m1
                          | None => m1
                          end
                      | None => m1
                      end ->
                 start_time m2 = start_time m1
                 /\ time_to_first_token m2 = time_to_first_token m1) as Hsame.
      { intros [chunk|] m2 ->; [destruct (gc_usage_metadata chunk)|]; now cbn. }
      destruct (Hsame final _ eq_refl) as [Hstart Hfirst].
      destruct (PyStr.truthy text); cbn [negb];
        do 3 eexists; (split; [reflexivity|]); cbn;
        cbn in Hstart, Hfirst; rewrite ?Hstart, ?Hfirst; exact Hloop.
    + destruct (is_Exception e) eqn:He.
      * assert (is_Exception (gemini_classify self e) = true) as ->
          by (unfold gemini_classify;
              repeat match goal with
                     | |- context [if ?b then _ else _] => destruct b
                     end; reflexivity).
        do 3 eexists; (split; [reflexivity|]); cbn; exact Hloop.
      * rewrite He. do 3 eexists; (split; [reflexivity|]); cbn; exact Hloop.
Qed.

Lemma first_token_time_recorded_witness :
  exists r m' w',
    explain_code
      (Scenario.gemini_limited (Scenario.chunk "" false :: Scenario.hello))
      (OllamaProvider Scenario.with_key None) Scenario.code
      Scenario.blank_metrics None (tick (tick Scenario.fresh)) = (r, m', w')
    /\ time_to_first_token m' = Some 2%float
    /\ ticks w' = 3%nat.
Proof.
  destruct (first_token_time_recorded
              (Scenario.gemini_limited (Scenario.chunk "" false :: Scenario.hello))
              (OllamaProvider Scenario.with_key None) Scenario.code None)
    as [Hollama _].
  destruct (Hollama _ eq_refl eq_refl Scenario.blank_metrics
              (tick (tick Scenario.fresh)))
    as (r & m' & w' & Hrun & _ & Hcounted).
  destruct (Hcounted eq_refl) as (_ & Hfirst & Hticks).
  exists r, m', w'. split; [exact Hrun|].
  split; [rewrite Hfirst; vm_compute; reflexivity | exact Hticks].
Defined.

(* ===================================================================== *)
(** * The verdict of the validators *)
(* ===================================================================== *)

Lemma explain_validate_verdict (settings : Settings) (B : Backend)
    (self : CodeExplainer) (code : string) (w w' : World)
    (verdict : ValidationResult) :
  _validate_input_code settings B self code w = (Returns verdict, w') ->
  explain_validate settings B self code true w = (verdict_reply verdict, w').
Proof.
  intros Hrun. unfold explain_validate, bind, verdict_reply. rewrite Hrun.
  now destruct (is_valid verdict).
Qed.

Lemma explain_rejected (settings : Settings) (B : Backend)
    (self : CodeExplainer) (code : string) (w w' : World) (e : exn) :
  explain_validate settings B self code true w = (Raises e, w') ->
  forall fuel provider_name auto_fallback cb,
    explain settings B (S fuel) self code provider_name auto_fallback cb true w
    = Some (Raises e, w').
Proof.
  intros Hrun fuel provider_name auto_fallback cb.
  cbn [explain]. now rewrite Hrun.
Qed.

(** X9: for an input within the length bounds the first validator that
    answers decides.  Ollama's verdict is returned as it is and Gemini is
    not asked; Gemini's verdict counts when Ollama gave none, whatever was
    noted about Ollama; and a negative verdict makes [explain] raise
    "Input validation failed: " followed by the reason, before any provider
    is resolved. *)
Theorem first_verdict_decides (settings : Settings) (B : Backend)
    (default : option string) (code : string) (w : World) :
  let self := CodeExplainer_init settings default in
  let ollama := OllamaProvider settings (Some (ollama_model settings)) in
  let gemini := GeminiProvider settings (Some (gemini_model settings)) in
  let prompt := validation_prompt_for settings code in
  min_code_length settings <= PyStr.len (PyStr.strip code) ->
  PyStr.len code <= max_code_length settings ->
  (forall w1 verdict w2,
      is_available B ollama w = (Returns true, w1) ->
      generate_structured B ollama prompt w1 = (Returns verdict, w2) ->
      _validate_input_code settings B self code w = (Returns verdict, w2)
      /\ explain_validate settings B self code true w
         = (verdict_reply verdict, w2))
  /\ (forall noted w1 w2 verdict w3,
        candidate_fails settings B code "ollama" ollama w noted w1 ->
        is_available B gemini w1 = (Returns true, w2) ->
        generate_structured B gemini prompt w2 = (Returns verdict, w3) ->
        _validate_input_code settings B self code w = (Returns verdict, w3)
        /\ explain_validate settings B self code true w
           = (verdict_reply verdict, w3))
  /\ (forall verdict w',
        _validate_input_code settings B self code w = (Returns verdict, w') ->
        is_valid verdict = false ->
        forall fuel provider_name auto_fallback cb,
          explain settings B (S fuel) self code provider_name auto_fallback
            cb true w
          = Some (Raises (mk_exn ValueError
                            ("Input validation failed: " ++ reason verdict)),
                  w')).
Proof.
  intros self ollama gemini prompt Hmin Hmax.
  assert (forall w1 verdict w2,
             is_available B ollama w = (Returns true, w1) ->
             generate_structured B ollama prompt w1 = (Returns verdict, w2) ->
             _validate_input_code settings B self code w = (Returns verdict, w2))
    as Hfirst.
  { intros w1 verdict w2 Havail Hanswer.
    rewrite validate_in_bounds by assumption.
    cbn [validate_with]. unfold self at 1. rewrite providers_ollama.
    unfold bind. fold ollama. rewrite Havail. cbn [negb].
    unfold try_except. fold prompt. now rewrite Hanswer. }
  assert (forall noted w1 w2 verdict w3,
             candidate_fails settings B code "ollama" ollama w noted w1 ->
             is_available B gemini w1 = (Returns true, w2) ->
             generate_structured B gemini prompt w2 = (Returns verdict, w3) ->
             _validate_input_code settings B self code w = (Returns verdict, w3))
    as Hsecond.
  { intros noted w1 w2 verdict w3 Hfails Havail Hanswer.
    rewrite validate_in_bounds by assumption.
    rewrite (validate_with_fails settings B self code "ollama" ollama
               ["gemini"] [] noted w w1)
      by (try apply providers_ollama; assumption).
    cbn [validate_with]. unfold self at 1. rewrite providers_gemini.
    unfold bind. fold gemini. rewrite Havail. cbn [negb].
    unfold try_except. fold prompt. now rewrite Hanswer. }
  split; [|split].
  - intros w1 verdict w2 Havail Hanswer.
    split; [now apply Hfirst with (w1 := w1)|].
    apply explain_validate_verdict. now apply Hfirst with (w1 := w1).
  - intros noted w1 w2 verdict w3 Hfails Havail Hanswer.
    split; [now apply Hsecond with (noted := noted) (w1 := w1) (w2 := w2)|].
    apply explain_validate_verdict.
    now apply Hsecond with (noted := noted) (w1 := w1) (w2 := w2).
  - intros verdict w' Hrun Hinvalid fuel provider_name auto_fallback cb.
    apply explain_rejected.
    rewrite (explain_validate_verdict _ _ _ _ _ _ _ Hrun).
    unfold verdict_reply. now rewrite Hinvalid.
Qed.

Lemma first_verdict_decides_witness :
  exists w',
    explain Scenario.with_key Scenario.rejecting 2
      (CodeExplainer_init Scenario.with_key None) Scenario.code None true
      None true Scenario.fresh
    = Some (Raises (mk_exn ValueError "Input validation failed: Not code"), w')
    /\ generation_calls (trace w') = 0%nat.
Proof.
  destruct (first_verdict_decides Scenario.with_key Scenario.rejecting None
              Scenario.code Scenario.fresh)
    as (_ & Hsecond & Hreject); [vm_compute; discriminate ..|].
  eexists. split.
  - apply (Hreject Scenario.turned_down); [|reflexivity].
    eapply Hsecond.
    + apply candidate_unavailable. reflexivity.
    + reflexivity.
    + reflexivity.
  - reflexivity.
Defined.

(* ===================================================================== *)
(** * The cache: keys, writes and the next call *)
(* ===================================================================== *)

Lemma hex_digit_is_hex (n : Z) :
  0 <= n < 16 -> is_hex (Sha256.hex_digit n) = true.
Proof.
  intros Hn.
  assert (forallb (fun k => is_hex (Sha256.hex_digit (Z.of_nat k))) (seq 0 16)
          = true) as Hall by reflexivity.
  rewrite forallb_forall in Hall.
  rewrite <- (Z2Nat.id n) by lia.
  apply Hall, in_seq. lia.
Qed.

Lemma be_bytes_length (width : nat) (x : Z) :
  List.length (Sha256.be_bytes width x) = width.
Proof. induction width as [|k IH]; cbn [Sha256.be_bytes List.length]; congruence. Qed.

Lemma be_bytes_range (width : nat) (x : Z) :
  Forall (fun b => 0 <= b < 256) (Sha256.be_bytes width x).
Proof.
  induction width as [|k IH]; cbn [Sha256.be_bytes]; constructor; [|exact IH].
  apply Z.mod_pos_bound. lia.
Qed.

Lemma digest_length (msg : list Sha256.byte) :
  List.length (Sha256.digest msg) = 32%nat.
Proof.
  unfold Sha256.digest. cbn [flat_map].
  rewrite !length_app, !be_bytes_length. reflexivity.
Qed.

Lemma digest_range (msg : list Sha256.byte) :
  Forall (fun b => 0 <= b < 256) (Sha256.digest msg).
Proof.
  unfold Sha256.digest. cbn [flat_map].
  repeat (apply Forall_app; split; [apply be_bytes_range|]). constructor.
Qed.

Lemma hex_length (bs : list Sha256.byte) :
  String.length (Sha256.hex bs) = (2 * List.length bs)%nat.
Proof.
  induction bs as [|b rest IH]; [reflexivity|].
  cbn [Sha256.hex String.length List.length]. lia.
Qed.

Lemma hex_is_hex (bs : list Sha256.byte) :
  Forall (fun b => 0 <= b < 256) bs ->
  all_chars is_hex (Sha256.hex bs) = true.
Proof.
  induction 1 as [|b rest Hb _ IH]; [reflexivity|].
  cbn [Sha256.hex all_chars].
  rewrite !hex_digit_is_hex, IH; [reflexivity| |].
  - apply Z.mod_pos_bound. lia.
  - split; [apply Z.div_pos; lia | apply Z.div_lt_upper_bound; lia].
Qed.

Lemma cache_key_truthy (code provider_name model : string) :
  PyStr.truthy (_get_cache_key code provider_name model) = true.
Proof.
  unfold _get_cache_key, Sha256.hexdigest.
  pose proof (hex_length (Sha256.digest
                            (Sha256.encode (cache_input code provider_name model))))
    as Hlen.
  rewrite digest_length in Hlen.
  destruct (Sha256.hex _); [discriminate | reflexivity].
Qed.

(** X10: a cache key is sixty-four lowercase hexadecimal digits; in
    particular it is never empty, so the test [if self.use_cache and
    cache_key] only ever depends on [use_cache]. *)
Theorem cache_key_format (code provider_name model : string) :
  let key := _get_cache_key code provider_name model in
  PyStr.len key = 64
  /\ all_chars is_hex key = true
  /\ PyStr.truthy key = true.
Proof.
  cbv zeta. split; [|split].
  - unfold _get_cache_key, Sha256.hexdigest, PyStr.len.
    rewrite hex_length, digest_length. reflexivity.
  - unfold _get_cache_key, Sha256.hexdigest. apply hex_is_hex, digest_range.
  - apply cache_key_truthy.
Qed.

Lemma explain_probe_outcome (B : Backend) (self : CodeExplainer) (code : string)
    (p : BaseProvider.t) (cb : option Callable) (w : World) key hit w' :
  use_cache self = true ->
  explain_probe B self code p cb w = (Returns (key, hit), w') ->
  key = Some (_get_cache_key code (BaseProvider.name p) (BaseProvider.model p))
  /\ match hit with
     | Some cached => cache_hit (metrics cached) = true
     | None => True
     end.
Proof.
  intros Huse. unfold explain_probe. rewrite Huse.
  unfold bind, time_time.
  destruct (cache_get B _ _) as [[[cached|]|e] w1].
  - intros H. injection H as <- <- _. split; reflexivity.
  - intros H. injection H as <- <- _. split; [reflexivity | exact I].
  - discriminate.
Qed.

Lemma explain_try_stores (B : Backend) (self : CodeExplainer) (code : string)
    (p : BaseProvider.t) (cb : option Callable) (k : string)
    (m : PerformanceMetrics) (w : World) result m' w' :
  use_cache self = true ->
  PyStr.truthy k = true ->
  explain_try B self code p cb (Some k) m w = (Returns result, m', w') ->
  cache w' !! k
  = Some {| entry_value := result;
            entry_expire_time :=
              Some (clock B (Nat.pred (ticks w'))
                    + nearest_float (self_cache_ttl self))%float |}.
Proof.
  intros Huse Hk. unfold explain_try.
  destruct (explain_code B p code m cb w) as [[[text|e1] m1] w1] eqn:Hcode;
    [|discriminate].
  rewrite Huse, Hk. cbn [andb].
  intros H. injection H as <- _ <-.
  cbn [snd cache_set cache set_cache tick log ticks Nat.pred].
  apply lookup_insert_eq.
Qed.

Section Stored.

Variable settings : Settings.
Variable B : Backend.
Variable self : CodeExplainer.
Variable code : string.
Variable cb : option Callable.
Hypothesis caching : use_cache self = true.

Lemma explain_stores (fuel : nat) :
  forall provider_name auto_fallback validate_input w result w',
    explain settings B fuel self code provider_name auto_fallback cb
      validate_input w = Some (Returns result, w') ->
    cache_hit (metrics result) = false ->
    cache w'
    !! _get_cache_key code (model_provider (metrics result))
         (model (metrics result))
    = Some {| entry_value := result;
              entry_expire_time :=
                Some (clock B (Nat.pred (ticks w'))
                      + nearest_float (self_cache_ttl self))%float |}.
Proof.
  induction fuel as [|fuel IH];
    intros provider_name auto_fallback validate_input w result w';
    [discriminate|].
  cbn [explain].
  destruct (explain_validate _ _ _ _ _ w) as [[[]|e] w1] eqn:Hv; [|discriminate].
  destruct (explain_resolve _ _ _ _ w1) as [[p|e] w2] eqn:Hres; [|discriminate].
  destruct (explain_probe _ _ _ _ _ w2) as [[[key hit]|e] w3] eqn:Hprobe;
    [|discriminate].
  apply explain_probe_outcome in Hprobe as [-> Hhit]; [|exact caching].
  destruct hit as [cached|].
  { intros H. injection H as <- <-. congruence. }
  destruct (explain_metrics _ _ w3) as [[m|e] w4] eqn:Hmet; [|discriminate].
  destruct (explain_try _ _ _ _ _ _ _ w4) as [[[generated|e] m'] w5] eqn:Htry.
  - intros H. injection H as <- <-. intros _.
    apply explain_try_returns in Htry as Hfacts.
    destruct Hfacts as (_ & Hm & Hp & _).
    apply explain_try_stores in Htry; [|exact caching|apply cache_key_truthy].
    now rewrite Hm, Hp.
  - destruct (is_Exception e); [|discriminate].
    destruct auto_fallback; [|discriminate].
    destruct (_get_fallback_provider _ _ _ (tick w5)) as [[[other|]|e'] w6] eqn:Hfb;
      [|discriminate|discriminate].
    intros Hrec Hfresh. exact (IH _ _ _ _ _ _ Hrec Hfresh).
Qed.

End Stored.

(** X11: with the cache switched on, a result that [explain] generated,
    directly or by the fallback retry, has been stored under the key of the
    provider and model named in its metrics, to expire one time to live
    after the clock reading of the write: as long as nothing else is
    written, a [get] of that key answers the result when the clock reads
    less than that expiry, and nothing from then on. *)
Theorem generated_is_stored (settings : Settings) (B : Backend)
    (self : CodeExplainer) (code : string) (cb : option Callable)
    (fuel : nat) (provider_name : option string)
    (auto_fallback validate_input : bool) (w w' : World)
    (result : ExplanationResult) :
  use_cache self = true ->
  explain settings B fuel self code provider_name auto_fallback cb
    validate_input w = Some (Returns result, w') ->
  cache_hit (metrics result) = false ->
  let key :=
    _get_cache_key code (model_provider (metrics result))
      (model (metrics result)) in
  let expiry :=
    (clock B (Nat.pred (ticks w')) + nearest_float (self_cache_ttl self))%float in
  forall later,
    cache later = cache w' ->
    cache_get B key later
    = (Returns (if (clock B (ticks later) <? expiry)%float
                then Some result else None),
       tick (log (EvCacheGet key) later)).
Proof.
  intros Huse Hrun Hfresh key expiry later Hsame.
  pose proof (explain_stores settings B self code cb Huse fuel _ _ _ _ _ _
                Hrun Hfresh) as Hrow.
  fold key expiry in Hrow.
  unfold cache_get. cbn [cache tick log]. rewrite Hsame, Hrow.
  cbn [entry_expire_time entry_value].
  now destruct (clock B (ticks later) <? expiry)%float.
Qed.

Lemma generated_is_stored_witness :
  exists result w',
    explain Scenario.with_key (Scenario.gemini_limited Scenario.hello) 2
      (CodeExplainer_init Scenario.with_key None) Scenario.code None true
      (Some recording_callback) true Scenario.fresh
    = Some (Returns result, w')
    /\ model_provider (metrics result) = "ollama"
    /\ fst (cache_get (Scenario.gemini_limited Scenario.hello)
              (_get_cache_key Scenario.code "ollama"
                 (ollama_model Scenario.with_key)) w')
       = Returns (Some result).
Proof.
  eassert (explain Scenario.with_key (Scenario.gemini_limited Scenario.hello) 2
             (CodeExplainer_init Scenario.with_key None) Scenario.code None true
             (Some recording_callback) true Scenario.fresh
           = Some (Returns _, _)) as Hrun
    by (vm_compute; reflexivity).
  pose proof (generated_is_stored Scenario.with_key
                (Scenario.gemini_limited Scenario.hello)
                (CodeExplainer_init Scenario.with_key None) Scenario.code
                (Some recording_callback) 2 None true true Scenario.fresh _ _
                eq_refl Hrun eq_refl _ eq_refl) as Hget.
  eexists _, _. split; [exact Hrun|].
  split; [reflexivity|].
  cbv zeta in Hget. cbn [metrics model_provider model] in Hget.
  etransitivity; [exact (f_equal fst Hget)|].
  vm_compute. reflexivity.
Defined.

(** X12: store and look up.  After [explain] has generated a result with
    the cache on, a later call for the same code that passes validation,
    resolves to the provider and model that generated it and looks the key
    up before the expiry returns that result, marked as a hit and with the
    times of the lookup, without any further generation request and
    without touching the cache. *)
Theorem explain_again_hits (settings : Settings) (B : Backend)
    (self : CodeExplainer) (code : string) (cb cb' : option Callable)
    (fuel fuel' : nat) (provider_name provider_name' : option string)
    (auto_fallback validate_input auto_fallback' validate_input' : bool)
    (w w' w1 w2 : World) (result : ExplanationResult) (p : BaseProvider.t) :
  use_cache self = true ->
  explain settings B fuel self code provider_name auto_fallback cb
    validate_input w = Some (Returns result, w') ->
  cache_hit (metrics result) = false ->
  explain_validate settings B self code validate_input' w' = (Returns tt, w1) ->
  explain_resolve B self provider_name' auto_fallback' w1 = (Returns p, w2) ->
  BaseProvider.name p = model_provider (metrics result) ->
  BaseProvider.model p = model (metrics result) ->
  (clock B (S (ticks w2))
   <? clock B (Nat.pred (ticks w')) + nearest_float (self_cache_ttl self))%float
  = true ->
  exists w'',
    explain settings B (S fuel') self code provider_name' auto_fallback' cb'
      validate_input' w'
    = Some (Returns
              (set_metrics
                 (set_end_time (clock B (S (S (ticks w2))))
                    (set_start_time (clock B (ticks w2))
                       (set_cache_hit true (metrics result))))
                 result),
            w'')
    /\ generation_calls (trace w'') = generation_calls (trace w')
    /\ trace w''
       = (trace w2
            ++ EvCacheGet (_get_cache_key code (BaseProvider.name p)
                             (BaseProvider.model p))
            :: callback_events cb' (explanation result))%list
    /\ cache w'' = cache w'.
Proof.
  intros Huse Hrun Hfresh Hvalid Hresolve Hname Hmodel Hlive.
  pose proof (explain_stores settings B self code cb Huse fuel _ _ _ _ _ _
                Hrun Hfresh) as Hstored.
  apply quiet_explain_validate in Hvalid as Hv. destruct Hv as [Hc1 Hr1].
  apply quiet_explain_resolve in Hresolve as Hr. destruct Hr as [Hc2 Hr2].
  destruct (requests_trans 0 0 _ _ _ Hr1 Hr2) as (events & Hevents & Hnone).
  assert (cache w2
          !! _get_cache_key code (BaseProvider.name p) (BaseProvider.model p)
          = Some {| entry_value := result;
                    entry_expire_time :=
                      Some (clock B (Nat.pred (ticks w'))
                            + nearest_float (self_cache_ttl self))%float |})
    as Hrow.
  { now rewrite Hc2, Hc1, Hname, Hmodel. }
  cbn [explain]. rewrite Hvalid, Hresolve.
  unfold explain_probe. rewrite Huse.
  unfold bind, time_time, cache_get. cbn [cache tick log ticks].
  rewrite Hrow. cbn [entry_expire_time entry_value]. rewrite Hlive.
  eexists. split; [reflexivity|].
  rewrite trace_call_callback, cache_call_callback.
  cbn [trace tick log cache]. rewrite <- app_assoc.
  split; [|split; [reflexivity | congruence]].
  rewrite Hevents, !generation_calls_app.
  cbn [generation_calls].
  assert (forall text, generation_calls (callback_events cb' text) = 0%nat)
    as Hsink by (intros text; destruct cb'; reflexivity).
  rewrite Hsink. lia.
Qed.

Lemma explain_again_hits_witness :
  exists result w' again w'',
    explain Scenario.with_key (Scenario.gemini_limited Scenario.hello) 2
      (CodeExplainer_init Scenario.with_key None) Scenario.code
      (Some "ollama") false None false Scenario.fresh
    = Some (Returns result, w')
    /\ explain Scenario.with_key (Scenario.gemini_limited Scenario.hello) 2
         (CodeExplainer_init Scenario.with_key None) Scenario.code
         (Some "ollama") false (Some recording_callback) false w'
       = Some (Returns again, w'')
    /\ explanation again = explanation result
    /\ cache_hit (metrics again) = true
    /\ generation_calls (trace w'') = 1%nat.
Proof.
  eassert (explain Scenario.with_key (Scenario.gemini_limited Scenario.hello) 2
             (CodeExplainer_init Scenario.with_key None) Scenario.code
             (Some "ollama") false None false Scenario.fresh
           = Some (Returns _, _)) as Hrun
    by (vm_compute; reflexivity).
  match type of Hrun with
  | _ = Some (Returns _, ?after) =>
      eassert (explain_resolve (Scenario.gemini_limited Scenario.hello)
                 (CodeExplainer_init Scenario.with_key None) (Some "ollama")
                 false after
               = (Returns _, _)) as Hresolve by (vm_compute; reflexivity)
  end.
  destruct (explain_again_hits Scenario.with_key
              (Scenario.gemini_limited Scenario.hello)
              (CodeExplainer_init Scenario.with_key None) Scenario.code None
              (Some recording_callback) 2 1 (Some "ollama") (Some "ollama")
              false false false false Scenario.fresh _ _ _ _ _
              eq_refl Hrun eq_refl eq_refl Hresolve eq_refl eq_refl eq_refl)
    as (w'' & Hagain & Hcalls & _).
  eexists _, _, _, w''. split; [exact Hrun|]. split; [exact Hagain|].
  split; [reflexivity|]. split; [reflexivity|].
  rewrite Hcalls. reflexivity.
Defined.

(* ===================================================================== *)
(** * Termination and the requests of a call *)
(* ===================================================================== *)

(** X13: [explain] always answers, and its recursion is one level deep:
    depth 2 is enough for every call, depth 1 when [auto_fallback] is off,
    more depth changes nothing; a call sends at most two generation
    requests, and at most one without [auto_fallback]. *)
Theorem explain_answers (settings : Settings) (B : Backend)
    (self : CodeExplainer) (code : string) (cb : option Callable)
    (provider_name : option string) (auto_fallback validate_input : bool)
    (w : World) :
  exists r w',
    explain settings B 2 self code provider_name auto_fallback cb
      validate_input w = Some (r, w')
    /\ (forall fuel,
          explain settings B (S (S fuel)) self code provider_name
            auto_fallback cb validate_input w = Some (r, w'))
    /\ (auto_fallback = false ->
        explain settings B 1 self code provider_name auto_fallback cb
          validate_input w = Some (r, w'))
    /\ requests (if auto_fallback then 2 else 1) w w'.
Proof.
  destruct (explain_depth settings B self code cb 0 provider_name
              auto_fallback validate_input w) as [_ (r & w' & Hrun)].
  exists r, w'. split; [exact Hrun|]. split; [|split].
  - intros fuel.
    destruct (explain_depth settings B self code cb fuel provider_name
                auto_fallback validate_input w) as [-> _].
    exact Hrun.
  - intros ->. now rewrite <- (explain_no_fallback_depth settings B self code cb 1).
  - now apply (explain_run settings B self code cb 2 _ _ _ _ _ _ Hrun).
Qed.

Lemma take_all (n : nat) (s : string) :
  (String.length s <= n)%nat -> PyStr.take n s = s.
Proof.
  revert n. induction s as [|c rest IH]; intros [|n] Hlen; cbn in *;
    try reflexivity; try lia.
  now rewrite IH by lia.
Qed.

Lemma take_length (n : nat) (s : string) :
  String.length (PyStr.take n s) = Nat.min n (String.length s).
Proof.
  revert n. induction s as [|c rest IH]; intros [|n]; cbn; try reflexivity.
  now rewrite IH.
Qed.

Lemma length_append (a b : string) :
  String.length (a ++ b) = (String.length a + String.length b)%nat.
Proof.
  induction a as [|c a IH]; [reflexivity|].
  change (String c a ++ b) with (String c (a ++ b)).
  cbn [String.length]. now rewrite IH.
Qed.

(** X14: the validator is shown the code itself when it is no longer than
    [validation_sample_size], and otherwise its first
    [validation_sample_size] characters followed by a line saying
    "... (truncated)": never more than sixteen characters above the limit. *)
Theorem validation_sample (settings : Settings) (code : string) :
  0 <= validation_sample_size settings ->
  exists sample,
    validation_prompt_for settings code = get_validation_prompt sample
    /\ PyStr.len sample <= validation_sample_size settings + 16
    /\ (PyStr.len code <= validation_sample_size settings -> sample = code)
    /\ (validation_sample_size settings < PyStr.len code ->
        sample
        = PyStr.take (Z.to_nat (validation_sample_size settings)) code
          ++ PyStr.LF ++ "... (truncated)").
Proof.
  intros Hsize. unfold validation_prompt_for, PyStr.slice_to.
  assert ((validation_sample_size settings <? 0) = false) as ->
    by (apply Z.ltb_ge; lia).
  destruct (validation_sample_size settings <? PyStr.len code) eqn:Hlong.
  - apply Z.ltb_lt in Hlong. eexists. split; [reflexivity|].
    split; [|split; [lia | reflexivity]].
    unfold PyStr.len in *. rewrite length_append, take_length.
    change (String.length (PyStr.LF ++ "... (truncated)")) with 16%nat. lia.
  - apply Z.ltb_ge in Hlong. eexists. split; [reflexivity|].
    unfold PyStr.len in *.
    rewrite take_all by lia.
    split; [lia|]. split; [reflexivity | lia].
Qed.

Lemma validation_sample_witness :
  exists sample,
    validation_prompt_for Scenario.with_key Scenario.code
    = get_validation_prompt sample
    /\ sample = Scenario.code.
Proof.
  destruct (validation_sample Scenario.with_key Scenario.code)
    as (sample & Hprompt & _ & Hshort & _); [vm_compute; discriminate|].
  exists sample. split; [exact Hprompt|].
  apply Hshort. vm_compute. discriminate.
Defined.

Lemma asks_refl (w : World) : asks 0 w w.
Proof. exists []. now rewrite app_nil_r. Qed.

Lemma asks_trans (n m : nat) (w1 w2 w3 : World) :
  asks n w1 w2 -> asks m w2 w3 -> asks (n + m) w1 w3.
Proof.
  intros (e1 & H1 & Hn) (e2 & H2 & Hm). exists (e1 ++ e2)%list.
  rewrite H2, H1, <- app_assoc, validator_calls_app. split; [reflexivity | lia].
Qed.

Lemma asks_weaken (n m : nat) (w w' : World) :
  (n <= m)%nat -> asks n w w' -> asks m w w'.
Proof. intros Hle (e & H & Hn). exists e. split; [exact H | lia]. Qed.

Lemma asks_same_trace (w w' : World) : trace w' = trace w -> asks 0 w w'.
Proof. intros H. exists []. now rewrite app_nil_r. Qed.

Lemma asks_event (ev : Event) (n : nat) (w w' : World) :
  trace w' = (trace w ++ [ev])%list ->
  (validator_calls [ev] <= n)%nat -> asks n w w'.
Proof. intros H Hn. now exists [ev]. Qed.

Lemma asking_ret {A} (a : A) : asking 0 (ret a).
Proof. intros w r w' H. injection H as _ <-. apply asks_refl. Qed.

Lemma asking_raise {A} (e : exn) : asking 0 (@raise A e).
Proof. intros w r w' H. injection H as _ <-. apply asks_refl. Qed.

Lemma asking_bind {A C} (n m : nat) (c : M A) (k : A -> M C) :
  asking n c -> (forall a, asking m (k a)) -> asking (n + m) (bind c k).
Proof.
  intros Hc Hk w r w'. unfold bind.
  destruct (c w) as [[a|e] w1] eqn:Hrun; intros H.
  - exact (asks_trans _ _ _ _ _ (Hc _ _ _ Hrun) (Hk a _ _ _ H)).
  - injection H as _ <-. apply (asks_weaken n); [lia|]. exact (Hc _ _ _ Hrun).
Qed.

Lemma asking_try_except {A} (n m : nat) (c : M A) (catches : exn -> bool)
    (handler : exn -> M A) :
  asking n c -> (forall e, asking m (handler e)) ->
  asking (n + m) (try_except c catches handler).
Proof.
  intros Hc Hh w r w'. unfold try_except.
  destruct (c w) as [[a|e] w1] eqn:Hrun.
  - intros H. injection H as _ <-.
    apply (asks_weaken n); [lia|]. exact (Hc _ _ _ Hrun).
  - destruct (catches e); intros H.
    + exact (asks_trans _ _ _ _ _ (Hc _ _ _ Hrun) (Hh e _ _ _ H)).
    + injection H as _ <-. apply (asks_weaken n); [lia|]. exact (Hc _ _ _ Hrun).
Qed.

Lemma asking_is_available (B : Backend) (p : BaseProvider.t) :
  asking 0 (is_available B p).
Proof.
  intros w r w' Hrun. unfold is_available in Hrun.
  destruct (BaseProvider.class p).
  - injection Hrun as _ <-. apply asks_refl.
  - unfold ollama_is_available in Hrun.
    destruct (ollama_is_available_cache w) as [known|].
    + injection Hrun as _ <-. apply asks_refl.
    + destruct (ollama_list B) as [[]|e]; [|destruct (is_Exception e)];
        injection Hrun as _ <-;
        now apply (asks_event EvOllamaList).
Qed.

Lemma asking_generate_structured (B : Backend) (p : BaseProvider.t)
    (prompt : string) :
  asking 1 (generate_structured B p prompt).
Proof.
  intros w r w'. unfold generate_structured.
  destruct (BaseProvider.class p).
  - unfold gemini_generate_structured, try_except, raise.
    destruct (gemini_client p).
    + destruct (gemini_generate_content B _ _) as [[parsed|]|e]; cbn;
        try destruct (is_Exception e);
        intros H; injection H as _ <-;
        now apply (asks_event (EvGeminiGenerateContent (BaseProvider.model p) prompt)).
    + cbn. intros H. injection H as _ <-.
      apply (asks_weaken 0); [lia | apply asks_refl].
  - unfold ollama_generate_structured, try_except, raise.
    destruct (ollama_chat B _ _) as [[c|]|e]; cbn;
      try destruct (PyStr.truthy c);
      try destruct (model_validate_json B c) as [v|e];
      cbn; try destruct (is_Exception e);
      intros H; injection H as _ <-;
      now apply (asks_event (EvOllamaChat (BaseProvider.model p) prompt)).
Qed.

Section Asking.

Variable settings : Settings.
Variable B : Backend.
Variable self : CodeExplainer.
Variable code : string.

Lemma asking_validate_with (names : list string) :
  forall validation_errors,
    asking (List.length names)
      (validate_with settings B self code names validation_errors).
Proof.
  induction names as [|name rest IH]; intros errors.
  - cbn [validate_with List.length]. apply asking_ret.
  - cbn [validate_with List.length].
    destruct (providers self !! name) as [provider|].
    + intros w r w' Hrun.
      apply (asking_bind 0 (S (List.length rest))) in Hrun; [exact Hrun| |].
      * apply asking_is_available.
      * intros available. destruct available; cbn [negb].
        -- apply (asking_try_except 1 (List.length rest));
             [apply asking_generate_structured | intros e; apply IH].
        -- intros w0 r0 w0' H0. apply (asks_weaken (List.length rest)); [lia|].
           exact (IH _ _ _ _ H0).
    + intros w r w' Hrun. apply (asks_weaken (List.length rest)); [lia|].
      exact (IH _ _ _ _ Hrun).
Qed.

Lemma asking_validate_input_code :
  asking 2 (_validate_input_code settings B self code).
Proof.
  unfold _validate_input_code.
  destruct (_ <? _); [intros w r w' H; apply (asks_weaken 0); [lia|];
                      exact (asking_ret _ _ _ _ H)|].
  destruct (_ <? _); [intros w r w' H; apply (asks_weaken 0); [lia|];
                      exact (asking_ret _ _ _ _ H)|].
  apply (asking_validate_with ["ollama"; "gemini"]).
Qed.

Lemma asking_explain_validate (validate_input : bool) :
  asking (if validate_input then 2 else 0)
    (explain_validate settings B self code validate_input).
Proof.
  unfold explain_validate. destruct validate_input; [|apply asking_ret].
  apply (asking_bind 2 0); [apply asking_validate_input_code|].
  intros verdict. destruct (negb (is_valid verdict));
    [apply asking_raise | apply asking_ret].
Qed.

Lemma asking_get_provider (provider_name : option string) :
  asking 0 (_get_provider B self provider_name).
Proof.
  unfold _get_provider.
  destruct (providers self !! _) as [provider|]; [|apply asking_raise].
  apply (asking_bind 0 0); [apply asking_is_available|].
  intros available. destruct (negb available);
    [apply asking_raise | apply asking_ret].
Qed.

Lemma asking_get_fallback_provider (failed : string) :
  asking 0 (_get_fallback_provider B self failed).
Proof.
  unfold _get_fallback_provider.
  destruct (providers self !! _) as [provider|]; [|apply asking_ret].
  apply (asking_bind 0 0); [apply asking_is_available|].
  intros available. destruct available; apply asking_ret.
Qed.

Lemma asking_explain_resolve (provider_name : option string)
    (auto_fallback : bool) :
  asking 0 (explain_resolve B self provider_name auto_fallback).
Proof.
  unfold explain_resolve.
  apply (asking_try_except 0 0); [apply asking_get_provider|].
  intros e. destruct (negb auto_fallback); [apply asking_raise|].
  apply (asking_bind 0 0); [apply asking_get_fallback_provider|].
  intros [provider|]; [apply asking_ret | apply asking_raise].
Qed.

End Asking.

Lemma forwarding_generation (provider : string) (cb : option Callable)
    (emitted : list string) :
  forallb is_generation_event (forwarding provider cb emitted) = true.
Proof.
  induction emitted as [|f rest IH]; [reflexivity|].
  cbn [forwarding forallb is_generation_event andb].
  rewrite forallb_app, IH, andb_true_r.
  destruct (PyStr.truthy f); [destruct cb|]; reflexivity.
Qed.

Lemma validator_calls_generation (events : list Event) :
  forallb is_generation_event events = true -> validator_calls events = 0%nat.
Proof.
  induction events as [|ev rest IH]; [reflexivity|].
  cbn [forallb]. intros [Hev Hrest]%andb_true_iff.
  destruct ev; try discriminate; cbn [validator_calls]; auto.
Qed.

Lemma generation_only_refl (w : World) : generation_only w w.
Proof. split; [reflexivity|]. exists []. now rewrite app_nil_r. Qed.

Lemma ollama_forwarding_generation (cb : option Callable)
    (s : Stream OllamaChunk) :
  forallb is_generation_event (ollama_forwarding cb s) = true.
Proof.
  induction s as [|chunk rest IH|e]; [reflexivity | | reflexivity].
  cbn [ollama_forwarding forallb is_generation_event andb].
  rewrite forallb_app.
  destruct (chunk_total chunk); [rewrite IH|];
    destruct (PyStr.truthy (ollama_fragment chunk)); [destruct cb| |destruct cb|];
    reflexivity.
Qed.

Lemma generation_only_loop (events : list Event) (ev : Event)
    (m m' : PerformanceMetrics) (w w' : World) :
  is_generation_event ev = true ->
  forallb is_generation_event events = true ->
  loop_frame events m m' (log ev w) w' ->
  generation_only w w'.
Proof.
  intros Hev Hevents [Ht _ Ha _ _ _]. split; [exact Ha|].
  exists (ev :: events).
  split.
  - rewrite Ht. cbn [trace log]. now rewrite <- app_assoc.
  - cbn [forallb]. now rewrite Hev, Hevents.
Qed.

Lemma generation_only_log (ev : Event) (w : World) :
  is_generation_event ev = true -> generation_only w (log ev w).
Proof.
  intros Hev. split; [reflexivity|]. exists [ev].
  split; [reflexivity|]. cbn [forallb]. now rewrite Hev.
Qed.

Lemma ollama_invoke_model_events (B : Backend) (self : BaseProvider.t)
    (prompt code : string) (m : PerformanceMetrics) (cb : option Callable)
    (w : World) r m' w' :
  ollama_invoke_model B self prompt code m cb w = (r, m', w') ->
  generation_only w w'.
Proof.
  unfold ollama_invoke_model.
  set (ev := EvOllamaChatStream _ _).
  destruct (ollama_chat_stream B _ _) as [s|e].
  - destruct (ollama_for_chunks_spec B cb s None "" m (log ev w))
      as (m1 & w1 & -> & Hloop).
    apply generation_only_loop in Hloop;
      [|reflexivity|apply ollama_forwarding_generation].
    destruct (ollama_end s _) as [text|e];
      [destruct (PyStr.truthy text); cbn [negb] | ];
      try destruct (is_Exception _);
      intros H; injection H as <- <- <-; exact Hloop.
  - destruct (is_Exception e); intros H; injection H as <- <- <-;
      now apply generation_only_log.
Qed.

Lemma gemini_invoke_model_events (B : Backend) (self : BaseProvider.t)
    (prompt code : string) (m : PerformanceMetrics) (cb : option Callable)
    (w : World) r m' w' :
  gemini_invoke_model B self prompt code m cb w = (r, m', w') ->
  generation_only w w'.
Proof.
  unfold gemini_invoke_model.
  destruct (gemini_client self); cbn [negb].
  - set (ev := EvGeminiGenerateContentStream _ _).
    destruct (gemini_generate_content_stream B _ _) as [s|e].
    + destruct (gemini_for_chunks_spec B cb s None "" None m (log ev w))
        as (m1 & w1 & -> & Hloop).
      apply generation_only_loop in Hloop;
        [|reflexivity|apply forwarding_generation].
      destruct (stream_end s _) as [[text final]|e];
        [destruct (PyStr.truthy text); cbn [negb] | ];
        try destruct (is_Exception _);
        intros H; injection H as <- <- <-; exact Hloop.
    + destruct (is_Exception e); intros H; injection H as <- <- <-;
        now apply generation_only_log.
  - cbn. intros H; injection H as <- <- <-. apply generation_only_refl.
Qed.

Lemma explain_code_events (B : Backend) (self : BaseProvider.t) (code : string)
    (m : PerformanceMetrics) (cb : option Callable) (w : World) r m' w' :
  explain_code B self code m cb w = (r, m', w') ->
  generation_only w w'.
Proof.
  unfold explain_code, _invoke_model.
  set (m0 := set_model_provider _ _).
  destruct (BaseProvider.class self) eqn:Hclass.
  - destruct (gemini_invoke_model B self BaseProvider._build_prompt code m0 cb w)
      as [[r1 m1] w1] eqn:Hrun.
    apply gemini_invoke_model_events in Hrun.
    destruct r1 as [text|e]; [|destruct (is_Exception e)];
      intros H; injection H as <- <- <-; exact Hrun.
  - destruct (ollama_invoke_model B self BaseProvider._build_prompt code m0 cb w)
      as [[r1 m1] w1] eqn:Hrun.
    apply ollama_invoke_model_events in Hrun.
    destruct r1 as [text|e]; [|destruct (is_Exception e)];
      intros H; injection H as <- <- <-; exact Hrun.
Qed.

Lemma asks_generation (w w' : World) : generation_only w w' -> asks 0 w w'.
Proof.
  intros [_ (events & Ht & Hev)]. exists events. split; [exact Ht|].
  now rewrite validator_calls_generation.
Qed.

Lemma asking_time_time (B : Backend) : asking 0 (time_time B).
Proof.
  intros w r w' H. unfold time_time in H. injection H as _ <-.
  now apply asks_same_trace.
Qed.

Lemma asking_cache_get (B : Backend) (key : string) : asking 0 (cache_get B key).
Proof.
  intros w r w' H. unfold cache_get in H.
  apply (asks_event (EvCacheGet key)); [|cbn; lia].
  destruct (cache _ !! key) as [row|];
    [destruct (entry_expire_time row); [destruct (_ <? _)%float|]|];
    injection H as _ <-; reflexivity.
Qed.

Lemma asks_call_callback (cb : option Callable) (text : string) (w : World) :
  asks 0 w (call_callback cb text w).
Proof.
  destruct cb; [|apply asks_refl].
  now apply (asks_event (EvCallback text)).
Qed.

Section AskingExplain.

Variable settings : Settings.
Variable B : Backend.
Variable self : CodeExplainer.
Variable code : string.
Variable cb : option Callable.

Lemma asking_explain_probe (p : BaseProvider.t) :
  asking 0 (explain_probe B self code p cb).
Proof.
  unfold explain_probe. destruct (use_cache self); [|apply asking_ret].
  apply (asking_bind 0 0); [apply asking_time_time|]. intros cache_start.
  apply (asking_bind 0 0); [apply asking_cache_get|]. intros [cached|];
    [|apply asking_ret].
  apply (asking_bind 0 0); [apply asking_time_time|]. intros cache_end.
  intros w r w' H. injection H as _ <-. apply asks_call_callback.
Qed.

Lemma asking_explain_metrics (p : BaseProvider.t) :
  asking 0 (explain_metrics B p).
Proof.
  unfold explain_metrics.
  apply (asking_bind 0 0); [apply asking_time_time|]. intros start.
  apply asking_ret.
Qed.

Lemma asks_explain_try (p : BaseProvider.t) (key : option string)
    (m : PerformanceMetrics) (w : World) r m' w' :
  explain_try B self code p cb key m w = (r, m', w') -> asks 0 w w'.
Proof.
  unfold explain_try.
  destruct (explain_code B p code m cb w) as [[[text|e] m1] w1] eqn:Hcode;
    apply explain_code_events, asks_generation in Hcode;
    intros H; injection H as _ _ <-; [|exact Hcode].
  apply (asks_trans 0 0 _ _ _ Hcode).
  destruct key as [k|]; [destruct (use_cache self && PyStr.truthy k)|].
  - now apply (asks_event (EvCacheSet k)).
  - now apply asks_same_trace.
  - now apply asks_same_trace.
Qed.

Lemma asks_explain (fuel : nat) :
  forall provider_name auto_fallback validate_input w r w',
    explain settings B fuel self code provider_name auto_fallback cb
      validate_input w = Some (r, w') ->
    asks (if validate_input then 2 else 0) w w'.
Proof.
  induction fuel as [|fuel IH];
    intros provider_name auto_fallback validate_input w r w'; [discriminate|].
  set (n := if validate_input then 2%nat else 0%nat).
  assert (forall a b, asks n w a -> asks 0 a b -> asks n w b) as Hmore.
  { intros a b Ha Hb. replace n with (n + 0)%nat by lia.
    exact (asks_trans _ _ _ _ _ Ha Hb). }
  cbn [explain].
  destruct (explain_validate _ _ _ _ _ w) as [[[]|e] w1] eqn:Hv;
    apply asking_explain_validate in Hv; fold n in Hv.
  2: { intros H. injection H as <- <-. exact Hv. }
  destruct (explain_resolve _ _ _ _ w1) as [[p|e] w2] eqn:Hres;
    apply asking_explain_resolve in Hres; pose proof (Hmore _ _ Hv Hres) as H2.
  2: { intros H. injection H as <- <-. exact H2. }
  destruct (explain_probe _ _ _ _ _ w2) as [[[key hit]|e] w3] eqn:Hprobe;
    apply asking_explain_probe in Hprobe; pose proof (Hmore _ _ H2 Hprobe) as H3.
  2: { intros H. injection H as <- <-. exact H3. }
  destruct hit as [cached|].
  { intros H. injection H as <- <-. exact H3. }
  destruct (explain_metrics _ _ w3) as [[m|e] w4] eqn:Hmet;
    apply asking_explain_metrics in Hmet; pose proof (Hmore _ _ H3 Hmet) as H4.
  2: { intros H. injection H as <- <-. exact H4. }
  destruct (explain_try _ _ _ _ _ _ _ w4) as [[[result|e] m'] w5] eqn:Htry;
    apply asks_explain_try in Htry; pose proof (Hmore _ _ H4 Htry) as H5.
  { intros H. injection H as <- <-. exact H5. }
  destruct (is_Exception e).
  2: { intros H. injection H as <- <-. exact H5. }
  assert (asks n w (tick w5)) as H5'
    by (apply (Hmore _ _ H5); now apply asks_same_trace).
  destruct auto_fallback.
  2: { intros H. injection H as <- <-. exact H5'. }
  destruct (_get_fallback_provider _ _ _ (tick w5)) as [[[other|]|e'] w6] eqn:Hfb;
    apply asking_get_fallback_provider in Hfb;
    pose proof (Hmore _ _ H5' Hfb) as H6.
  - intros Hrec. apply IH in Hrec. exact (Hmore _ _ H6 Hrec).
  - intros H. injection H as <- <-. exact H6.
  - intros H. injection H as <- <-. exact H6.
Qed.

End AskingExplain.

(** X15: a call of [explain] sends at most two structured requests to the
    validators, and none with [validate_input] off; the fallback retry does
    not validate again. *)
Theorem validation_traffic (settings : Settings) (B : Backend)
    (self : CodeExplainer) (code : string) (cb : option Callable)
    (fuel : nat) (provider_name : option string)
    (auto_fallback validate_input : bool) (w w' : World)
    (r : Reply ExplanationResult) :
  explain settings B fuel self code provider_name auto_fallback cb
    validate_input w = Some (r, w') ->
  (validator_calls (trace w)
   <= validator_calls (trace w')
   <= validator_calls (trace w) + (if validate_input then 2 else 0))%nat.
Proof.
  intros Hrun.
  destruct (asks_explain settings B self code cb fuel _ _ _ _ _ _ Hrun)
    as (events & -> & Hbound).
  rewrite validator_calls_app. lia.
Qed.

Lemma validation_traffic_witness :
  exists r w',
    explain Scenario.with_key Scenario.validators_down 2
      (CodeExplainer_init Scenario.with_key None) Scenario.code
      (Some "gemini") false None true Scenario.fresh
    = Some (r, w')
    /\ (validator_calls (trace Scenario.fresh)
        <= validator_calls (trace w')
        <= validator_calls (trace Scenario.fresh) + 2)%nat
    /\ validator_calls (trace w') = 2%nat.
Proof.
  eassert (explain Scenario.with_key Scenario.validators_down 2
             (CodeExplainer_init Scenario.with_key None) Scenario.code
             (Some "gemini") false None true Scenario.fresh
           = Some (_, _)) as Hrun
    by (vm_compute; reflexivity).
  eexists _, _. split; [exact Hrun|].
  split; [|reflexivity].
  exact (validation_traffic _ _ _ _ _ _ _ _ _ _ _ _ Hrun).
Defined.

(* ===================================================================== *)
(** * The availability probe during a call *)
(* ===================================================================== *)

Lemma list_calls_app (a b : list Event) :
  list_calls (a ++ b) = (list_calls a + list_calls b)%nat.
Proof.
  induction a as [|ev a IH]; [reflexivity|].
  destruct ev; cbn [list_calls app]; rewrite IH; reflexivity.
Qed.

Lemma list_calls_generation (events : list Event) :
  forallb is_generation_event events = true -> list_calls events = 0%nat.
Proof.
  induction events as [|ev rest IH]; [reflexivity|].
  cbn [forallb]. intros [Hev Hrest]%andb_true_iff.
  destruct ev; try discriminate; cbn [list_calls]; auto.
Qed.

Lemma probed_same {A} (w w' : World) (r : Reply A) (events : list Event) :
  trace w' = (trace w ++ events)%list ->
  list_calls events = 0%nat ->
  ollama_is_available_cache w' = ollama_is_available_cache w ->
  probed w r w'.
Proof. intros Ht Hn Ha. exists events. auto. Qed.

Lemma probed_refl {A} (w : World) (r : Reply A) : probed w r w.
Proof. apply (probed_same w w r []); [now rewrite app_nil_r | reflexivity ..]. Qed.

Lemma probed_then {A C} (w w1 w' : World) (r1 : Reply A) (r : Reply C) :
  probed w r1 w1 -> ~ uncaught r1 -> probed w1 r w' -> probed w r w'.
Proof.
  intros (e1 & Ht1 & H1) Hgo (e2 & Ht2 & H2).
  exists (e1 ++ e2)%list. rewrite Ht2, Ht1, <- app_assoc, list_calls_app.
  split; [reflexivity|].
  destruct H1 as [[Hn1 Ha1] | (Hn1 & Hnone & [Hfilled | Hstop])];
    destruct H2 as [[Hn2 Ha2] | (Hn2 & Hnone2 & Hend)].
  - left. split; [lia | congruence].
  - right. split; [lia|]. split; [congruence | exact Hend].
  - right. split; [lia|]. split; [exact Hnone|]. left. congruence.
  - contradiction.
  - contradiction.
  - contradiction.
Qed.

Lemma returns_not_uncaught {A} (a : A) : ~ uncaught (Returns a).
Proof. intros (e & H & _). discriminate. Qed.

Lemma caught_is_handled {A} (e : exn) :
  is_Exception e = true -> ~ uncaught (@Raises A e).
Proof. intros He (e' & H & Hno). injection H as <-. congruence. Qed.

Lemma probed_reply {A C} (w w' : World) (r : Reply A) (r' : Reply C) :
  probed w r w' -> (uncaught r -> uncaught r') -> probed w r' w'.
Proof.
  intros (events & Ht & H) Hsame. exists events. split; [exact Ht|].
  destruct H as [H | (Hn & Hnone & [Hfilled | Hstop])]; auto 6.
Qed.

Lemma probing_ret {A} (a : A) : probing (ret a).
Proof. intros w r w' H. injection H as _ <-. apply probed_refl. Qed.

Lemma probing_raise {A} (e : exn) : probing (@raise A e).
Proof. intros w r w' H. injection H as _ <-. apply probed_refl. Qed.

Lemma probing_bind {A C} (c : M A) (k : A -> M C) :
  probing c -> (forall a, probing (k a)) -> probing (bind c k).
Proof.
  intros Hc Hk w r w'. unfold bind.
  destruct (c w) as [[a|e] w1] eqn:Hrun; intros H.
  - exact (probed_then _ _ _ _ _ (Hc _ _ _ Hrun) (returns_not_uncaught a)
             (Hk a _ _ _ H)).
  - injection H as <- <-. apply (probed_reply _ _ _ _ (Hc _ _ _ Hrun)).
    intros (e' & He' & Hno). injection He' as <-. now exists e.
Qed.

Lemma probing_try_except {A} (c : M A) (catches : exn -> bool)
    (handler : exn -> M A) :
  (forall e, catches e = true -> is_Exception e = true) ->
  probing c -> (forall e, probing (handler e)) ->
  probing (try_except c catches handler).
Proof.
  intros Hcatch Hc Hh w r w'. unfold try_except.
  destruct (c w) as [[a|e] w1] eqn:Hrun.
  - intros H. injection H as <- <-. exact (Hc _ _ _ Hrun).
  - destruct (catches e) eqn:Hcaught; intros H.
    + exact (probed_then _ _ _ _ _ (Hc _ _ _ Hrun)
               (caught_is_handled e (Hcatch e Hcaught)) (Hh e _ _ _ H)).
    + injection H as <- <-. exact (Hc _ _ _ Hrun).
Qed.

Lemma value_error_is_exception (e : exn) :
  is_ValueError e = true -> is_Exception e = true.
Proof. unfold is_ValueError, is_Exception. now destruct (exn_class e). Qed.

Lemma probing_is_available (B : Backend) (p : BaseProvider.t) :
  probing (is_available B p).
Proof.
  intros w r w' Hrun. unfold is_available in Hrun.
  destruct (BaseProvider.class p).
  - injection Hrun as _ <-. apply probed_refl.
  - unfold ollama_is_available in Hrun.
    destruct (ollama_is_available_cache w) as [known|] eqn:Hmemo.
    + injection Hrun as _ <-. apply probed_refl.
    + exists [EvOllamaList].
      destruct (ollama_list B) as [[]|e]; [|destruct (is_Exception e) eqn:He];
        injection Hrun as <- <-; (split; [reflexivity|]); right;
        (split; [reflexivity|]); (split; [exact Hmemo|]).
      * left. discriminate.
      * left. discriminate.
      * right. now exists e.
Qed.

Lemma probing_generate_structured (B : Backend) (p : BaseProvider.t)
    (prompt : string) :
  probing (generate_structured B p prompt).
Proof.
  intros w r w'. unfold generate_structured.
  destruct (BaseProvider.class p).
  - unfold gemini_generate_structured, try_except, raise.
    destruct (gemini_client p).
    + destruct (gemini_generate_content B _ _) as [[parsed|]|e]; cbn;
        try destruct (is_Exception e);
        intros H; injection H as _ <-;
        now apply (probed_same _ _ _
                     [EvGeminiGenerateContent (BaseProvider.model p) prompt]).
    + cbn. intros H. injection H as _ <-. apply probed_refl.
  - unfold ollama_generate_structured, try_except, raise.
    destruct (ollama_chat B _ _) as [[c|]|e]; cbn;
      try destruct (PyStr.truthy c);
      try destruct (model_validate_json B c) as [v|e];
      cbn; try destruct (is_Exception e);
      intros H; injection H as _ <-;
      now apply (probed_same _ _ _ [EvOllamaChat (BaseProvider.model p) prompt]).
Qed.

Lemma probed_generation {A} (w w' : World) (r : Reply A) :
  generation_only w w' -> probed w r w'.
Proof.
  intros [Ha (events & Ht & Hev)].
  apply (probed_same _ _ _ events); [exact Ht | | exact Ha].
  now apply list_calls_generation.
Qed.

Lemma probing_time_time (B : Backend) : probing (time_time B).
Proof.
  intros w r w' H. unfold time_time in H. injection H as _ <-.
  apply (probed_same _ _ _ []); [now rewrite app_nil_r | reflexivity ..].
Qed.

Lemma probing_cache_get (B : Backend) (key : string) : probing (cache_get B key).
Proof.
  intros w r w' H. unfold cache_get in H.
  apply (probed_same _ _ _ [EvCacheGet key]); [|reflexivity|];
    (destruct (cache _ !! key) as [row|];
     [destruct (entry_expire_time row); [destruct (_ <? _)%float|]|];
     injection H as _ <-; reflexivity).
Qed.

Lemma probed_call_callback {A} (cb : option Callable) (text : string)
    (w : World) (r : Reply A) :
  probed w r (call_callback cb text w).
Proof.
  destruct cb; [|apply probed_refl].
  now apply (probed_same _ _ _ [EvCallback text]).
Qed.

Section Probing.

Variable settings : Settings.
Variable B : Backend.
Variable self : CodeExplainer.
Variable code : string.
Variable cb : option Callable.

Lemma probing_validate_with (names : list string) :
  forall validation_errors,
    probing (validate_with settings B self code names validation_errors).
Proof.
  induction names as [|name rest IH]; intros errors.
  - cbn [validate_with]. apply probing_ret.
  - cbn [validate_with].
    destruct (providers self !! name) as [provider|]; [|apply IH].
    apply probing_bind; [apply probing_is_available|].
    intros available. destruct available; cbn [negb]; [|apply IH].
    apply probing_try_except;
      [auto | apply probing_generate_structured | intros e; apply IH].
Qed.

Lemma probing_explain_validate (validate_input : bool) :
  probing (explain_validate settings B self code validate_input).
Proof.
  unfold explain_validate. destruct validate_input; [|apply probing_ret].
  apply probing_bind.
  - unfold _validate_input_code.
    destruct (_ <? _); [apply probing_ret|].
    destruct (_ <? _); [apply probing_ret|].
    apply probing_validate_with.
  - intros verdict. destruct (negb (is_valid verdict));
      [apply probing_raise | apply probing_ret].
Qed.

Lemma probing_get_provider (provider_name : option string) :
  probing (_get_provider B self provider_name).
Proof.
  unfold _get_provider.
  destruct (providers self !! _) as [provider|]; [|apply probing_raise].
  apply probing_bind; [apply probing_is_available|].
  intros available. destruct (negb available);
    [apply probing_raise | apply probing_ret].
Qed.

Lemma probing_get_fallback_provider (failed : string) :
  probing (_get_fallback_provider B self failed).
Proof.
  unfold _get_fallback_provider.
  destruct (providers self !! _) as [provider|]; [|apply probing_ret].
  apply probing_bind; [apply probing_is_available|].
  intros available. destruct available; apply probing_ret.
Qed.

Lemma probing_explain_resolve (provider_name : option string)
    (auto_fallback : bool) :
  probing (explain_resolve B self provider_name auto_fallback).
Proof.
  unfold explain_resolve.
  apply probing_try_except;
    [apply value_error_is_exception | apply probing_get_provider|].
  intros e. destruct (negb auto_fallback); [apply probing_raise|].
  apply probing_bind; [apply probing_get_fallback_provider|].
  intros [provider|]; [apply probing_ret | apply probing_raise].
Qed.

Lemma probing_explain_probe (p : BaseProvider.t) :
  probing (explain_probe B self code p cb).
Proof.
  unfold explain_probe. destruct (use_cache self); [|apply probing_ret].
  apply probing_bind; [apply probing_time_time|]. intros cache_start.
  apply probing_bind; [apply probing_cache_get|]. intros [cached|];
    [|apply probing_ret].
  apply probing_bind; [apply probing_time_time|]. intros cache_end.
  intros w r w' H. injection H as _ <-. apply probed_call_callback.
Qed.

Lemma probing_explain_metrics (p : BaseProvider.t) :
  probing (explain_metrics B p).
Proof.
  unfold explain_metrics.
  apply probing_bind; [apply probing_time_time|]. intros start.
  apply probing_ret.
Qed.

Lemma probed_explain_try {A} (p : BaseProvider.t) (key : option string)
    (m : PerformanceMetrics) (w : World) r m' w' (r0 : Reply A) :
  explain_try B self code p cb key m w = (r, m', w') -> probed w r0 w'.
Proof.
  unfold explain_try.
  destruct (explain_code B p code m cb w) as [[[text|e] m1] w1] eqn:Hcode;
    apply explain_code_events in Hcode;
    intros H; injection H as _ _ <-; [|now apply probed_generation].
  apply (probed_then w w1 _ (Returns tt) r0);
    [now apply probed_generation | apply returns_not_uncaught |].
  destruct key as [k|]; [destruct (use_cache self && PyStr.truthy k)|].
  - now apply (probed_same _ _ _ [EvCacheSet k]).
  - apply (probed_same _ _ _ []); [now rewrite app_nil_r | reflexivity ..].
  - apply (probed_same _ _ _ []); [now rewrite app_nil_r | reflexivity ..].
Qed.

Lemma probed_explain (fuel : nat) :
  forall provider_name auto_fallback validate_input w r w',
    explain settings B fuel self code provider_name auto_fallback cb
      validate_input w = Some (r, w') ->
    probed w r w'.
Proof.
  induction fuel as [|fuel IH];
    intros provider_name auto_fallback validate_input w r w'; [discriminate|].
  assert (forall {A C} a b (x : A) (r' : Reply C),
             probed w (Returns x) a -> probed a r' b -> probed w r' b) as Hmore.
  { intros A C a b x r' Ha Hb.
    exact (probed_then _ _ _ _ _ Ha (returns_not_uncaught x) Hb). }
  assert (forall {A C} a (e : exn),
             probed w (@Raises A e) a -> probed w (@Raises C e) a) as Hsame.
  { intros A C a e Ha. apply (probed_reply _ _ _ _ Ha).
    intros (e' & He' & Hno). injection He' as <-. now exists e. }
  cbn [explain].
  destruct (explain_validate _ _ _ _ _ w) as [[[]|e] w1] eqn:Hv;
    apply probing_explain_validate in Hv.
  2: { intros H. injection H as <- <-. exact (Hsame _ _ _ _ Hv). }
  destruct (explain_resolve _ _ _ _ w1) as [[p|e] w2] eqn:Hres;
    apply probing_explain_resolve in Hres; pose proof (Hmore _ _ _ _ _ _ Hv Hres) as H2.
  2: { intros H. injection H as <- <-. exact (Hsame _ _ _ _ H2). }
  destruct (explain_probe _ _ _ _ _ w2) as [[[key hit]|e] w3] eqn:Hprobe;
    apply probing_explain_probe in Hprobe;
    pose proof (Hmore _ _ _ _ _ _ H2 Hprobe) as H3.
  2: { intros H. injection H as <- <-. exact (Hsame _ _ _ _ H3). }
  destruct hit as [cached|].
  { intros H. injection H as <- <-.
    apply (probed_reply _ _ _ _ H3). intros Hno.
    now apply returns_not_uncaught in Hno. }
  destruct (explain_metrics _ _ w3) as [[m|e] w4] eqn:Hmet;
    apply probing_explain_metrics in Hmet;
    pose proof (Hmore _ _ _ _ _ _ H3 Hmet) as H4.
  2: { intros H. injection H as <- <-. exact (Hsame _ _ _ _ H4). }
  destruct (explain_try _ _ _ _ _ _ _ w4) as [[[result|e] m'] w5] eqn:Htry.
  { intros H. injection H as <- <-.
    eapply Hmore; [exact H4 | eapply probed_explain_try; exact Htry]. }
  destruct (is_Exception e).
  2: { intros H. injection H as <- <-.
       eapply Hmore; [exact H4 | eapply probed_explain_try; exact Htry]. }
  assert (probed w (Returns tt) (tick w5)) as H5.
  { eapply Hmore; [exact H4|].
    apply (probed_then w4 w5 _ (Returns tt));
      [eapply probed_explain_try; exact Htry
      | apply returns_not_uncaught |].
    apply (probed_same _ _ _ []); [now rewrite app_nil_r | reflexivity ..]. }
  assert (forall r' : Reply ExplanationResult, probed w r' (tick w5)) as H5'.
  { intros r'. apply (probed_reply _ _ _ _ H5). intros Hno.
    now apply returns_not_uncaught in Hno. }
  destruct auto_fallback.
  2: { intros H. injection H as <- <-. apply H5'. }
  destruct (_get_fallback_provider _ _ _ (tick w5)) as [[[other|]|e'] w6] eqn:Hfb;
    apply probing_get_fallback_provider in Hfb;
    pose proof (Hmore _ _ _ _ _ _ H5 Hfb) as H6.
  - intros Hrec. apply IH in Hrec. exact (Hmore _ _ _ _ _ _ H6 Hrec).
  - intros H. injection H as <- <-.
    apply (probed_reply _ _ _ _ H6). intros Hno.
    now apply returns_not_uncaught in Hno.
  - intros H. injection H as <- <-. exact (Hsame _ _ _ _ H6).
Qed.

End Probing.

(** X16: during a call of [explain] the Ollama server is asked for its
    model list at most once, and not at all when the availability is
    already known; after the one request the answer is remembered, unless
    the call was interrupted. *)
Theorem ollama_listed_once (settings : Settings) (B : Backend)
    (self : CodeExplainer) (code : string) (cb : option Callable)
    (fuel : nat) (provider_name : option string)
    (auto_fallback validate_input : bool) (w w' : World)
    (r : Reply ExplanationResult) :
  explain settings B fuel self code provider_name auto_fallback cb
    validate_input w = Some (r, w') ->
  (list_calls (trace w) <= list_calls (trace w')
   <= list_calls (trace w) + 1)%nat
  /\ (forall known,
        ollama_is_available_cache w = Some known ->
        list_calls (trace w') = list_calls (trace w)
        /\ ollama_is_available_cache w' = Some known)
  /\ (list_calls (trace w') = S (list_calls (trace w)) ->
      ollama_is_available_cache w = None
      /\ (ollama_is_available_cache w' <> None \/ uncaught r)).
Proof.
  intros Hrun.
  destruct (probed_explain settings B self code cb fuel _ _ _ _ _ _ Hrun)
    as (events & -> & Hcases).
  rewrite list_calls_app.
  destruct Hcases as [[Hn Ha] | (Hn & Hnone & Hend)]; rewrite Hn.
  - split; [lia|]. split.
    + intros known Hknown. split; [lia | congruence].
    + intros Hone. lia.
  - split; [lia|]. split.
    + intros known Hknown. congruence.
    + intros _. auto.
Qed.

Lemma ollama_listed_once_witness :
  exists r w',
    explain Scenario.with_key Scenario.validators_down 2
      (CodeExplainer_init Scenario.with_key None) Scenario.code
      (Some "gemini") false None true Scenario.fresh
    = Some (r, w')
    /\ (list_calls (trace w') <= 1)%nat
    /\ validator_calls (trace w') = 2%nat
    /\ ollama_is_available_cache w' = Some true.
Proof.
  eassert (explain Scenario.with_key Scenario.validators_down 2
             (CodeExplainer_init Scenario.with_key None) Scenario.code
             (Some "gemini") false None true Scenario.fresh
           = Some (_, _)) as Hrun
    by (vm_compute; reflexivity).
  destruct (ollama_listed_once _ _ _ _ _ _ _ _ _ _ _ _ Hrun)
    as ([_ Hbound] & _ & _).
  eexists _, _. split; [exact Hrun|].
  split; [exact Hbound | split; reflexivity].
Defined.

(* ===================================================================== *)
(** * Token counts *)
(* ===================================================================== *)

Lemma last_done_init (s : Stream OllamaChunk) :
  forall init,
    last_done s init
    = match last_done s None with Some chunk => Some chunk | None => init end.
Proof.
  induction s as [|chunk rest IH|e]; intros init; cbn [last_done];
    try reflexivity.
  destruct (oc_done chunk); [|apply IH].
  rewrite (IH (Some chunk)). now destruct (last_done rest None).
Qed.

Lemma ollama_for_chunks_tokens (B : Backend) (cb : option Callable)
    (s : Stream OllamaChunk) :
  forall first_token_time text m w,
    total_tokens (snd (fst (ollama_for_chunks B s cb first_token_time text m w)))
    = ollama_total s (total_tokens m).
Proof.
  induction s as [|chunk rest IH|e]; intros ftt text m w; try reflexivity.
  cbn [ollama_for_chunks ollama_total]. unfold chunk_total.
  destruct ftt as [t|];
    destruct (PyStr.truthy match oc_content chunk with Some c => c | None => "" end);
    destruct (oc_done chunk) eqn:Hdone;
    try destruct (add_counts _ _) as [total|bad];
    cbv beta iota zeta; rewrite ?IH; reflexivity.
Qed.

(** On a stream whose chunks flagged [done] all come with their counters,
    the count is the sum of the counters of the last such chunk. *)
Lemma ollama_total_counted (s : Stream OllamaChunk) :
  all_counted s = true ->
  forall init,
    match last_done s None with
    | Some chunk =>
        exists p c,
          oc_prompt_eval_count chunk = Some p
          /\ oc_eval_count chunk = Some c
          /\ ollama_total s init = Some (p + c)
    | None => ollama_total s init = init
    end.
Proof.
  induction s as [|chunk rest IH|e]; cbn [all_counted last_done ollama_total];
    [reflexivity | | reflexivity].
  unfold chunk_total. destruct (oc_done chunk).
  - destruct (oc_prompt_eval_count chunk) as [p|] eqn:Hp;
      destruct (oc_eval_count chunk) as [c|] eqn:Hc;
      cbn [add_counts]; try discriminate.
    intros Hrest init. specialize (IH Hrest (Some (p + c))).
    rewrite last_done_init. destruct (last_done rest None) as [chunk'|].
    + exact IH.
    + exists p, c. now rewrite Hp, Hc.
  - intros Hrest init. exact (IH Hrest init).
Qed.

Lemma gemini_for_chunks_tokens (B : Backend) (cb : option Callable)
    (s : Stream GeminiChunk) :
  forall first_token_time text final m w,
    total_tokens
      (snd (fst (gemini_for_chunks B s cb first_token_time text final m w)))
    = total_tokens m.
Proof.
  induction s as [|chunk rest IH|e]; intros ftt text final m w; try reflexivity.
  cbn [gemini_for_chunks].
  destruct ftt as [t|];
    destruct (PyStr.truthy match gc_text chunk with Some c => c | None => "" end);
    cbv beta iota zeta; rewrite IH; reflexivity.
Qed.

(** X17: the token count left in the metrics.  Ollama: the sum of the two
    counters of the last chunk flagged done that the loop got through, also
    when the stream fails later, and the old value when there is none; the
    loop gets through every chunk up to the first one flagged done that
    lacks a counter, so when no such chunk lacks one the count is the sum
    of the counters of the last chunk flagged done in the stream.  Gemini:
    the total of the last chunk's usage metadata, taken only when the
    stream ends; a stream that fails leaves the old value. *)
Theorem token_accounting (B : Backend) (self : BaseProvider.t) (code : string)
    (cb : option Callable) :
  (forall s,
      BaseProvider.class self = BaseProvider.OllamaProvider ->
      ollama_chat_stream B (BaseProvider.model self)
        (full_prompt BaseProvider._build_prompt code) = Returns s ->
      forall m w, exists r m' w',
        explain_code B self code m cb w = (r, m', w')
        /\ total_tokens m' = ollama_total s (total_tokens m)
        /\ (all_counted s = true ->
            match last_done s None with
            | Some chunk =>
                exists p c,
                  oc_prompt_eval_count chunk = Some p
                  /\ oc_eval_count chunk = Some c
                  /\ total_tokens m' = Some (p + c)
            | None => total_tokens m' = total_tokens m
            end))
  /\ (forall s,
        BaseProvider.class self = BaseProvider.GeminiProvider ->
        gemini_client self = true ->
        gemini_generate_content_stream B (BaseProvider.model self)
          (full_prompt BaseProvider._build_prompt code) = Returns s ->
        forall m w, exists r m' w',
          explain_code B self code m cb w = (r, m', w')
          /\ total_tokens m'
             = match stream_end s tt, last_chunk s None with
               | Returns _, Some chunk =>
                   match gc_usage_metadata chunk with
                   | Some total_token_count => total_token_count
                   | None => total_tokens m
                   end
               | _, _ => total_tokens m
               end).
Proof.
  split.
  - intros s Hclass Hs m w.
    unfold explain_code, _invoke_model. rewrite Hclass.
    unfold ollama_invoke_model. rewrite Hs.
    match goal with
    | |- context [ollama_for_chunks B s cb None "" ?m0 ?w0] =>
        pose proof (ollama_for_chunks_tokens B cb s None "" m0 w0) as Hloop;
        destruct (ollama_for_chunks B s cb None "" m0 w0) as [[r m1] w1]
    end.
    cbn [fst snd total_tokens set_model set_model_provider] in Hloop.
    assert (total_tokens m1 = ollama_total s (total_tokens m)
            /\ (all_counted s = true ->
                match last_done s None with
                | Some chunk =>
                    exists p c,
                      oc_prompt_eval_count chunk = Some p
                      /\ oc_eval_count chunk = Some c
                      /\ total_tokens m1 = Some (p + c)
                | None => total_tokens m1 = total_tokens m
                end)) as Hcount.
    { split; [exact Hloop|]. intros Hcounted. rewrite Hloop.
      exact (ollama_total_counted s Hcounted (total_tokens m)). }
    clear Hloop.
    destruct r as [text|e].
    + destruct (PyStr.truthy text); cbn [negb];
        do 3 eexists; (split; [reflexivity|]); exact Hcount.
    + destruct (is_Exception e) eqn:He.
      * assert (is_Exception (ollama_classify self e) = true) as ->
          by (unfold ollama_classify;
              repeat match goal with
                     | |- context [if ?b then _ else _] => destruct b
                     end; reflexivity).
        do 3 eexists; (split; [reflexivity|]); exact Hcount.
      * rewrite He. do 3 eexists; (split; [reflexivity|]); exact Hcount.
  - intros s Hclass Hclient Hs m w.
    unfold explain_code, _invoke_model. rewrite Hclass.
    unfold gemini_invoke_model. rewrite Hclient, Hs. cbn [negb].
    match goal with
    | |- context [gemini_for_chunks B s cb None "" None ?m0 ?w0] =>
        pose proof (gemini_for_chunks_tokens B cb s None "" None m0 w0) as Hloop;
        destruct (gemini_for_chunks_spec B cb s None "" None m0 w0)
          as (m1 & w1 & Hrun & _)
    end.
    rewrite Hrun in Hloop |- *.
    cbn [fst snd total_tokens set_model set_model_provider] in Hloop.
    assert (forall v : string * option GeminiChunk,
               stream_end s v
               = match stream_end s tt with
                 | Returns _ => Returns v
                 | Raises e => Raises e
                 end) as Hend.
    { intros v. clear. induction s as [|chunk rest IH|e]; cbn; auto. }
    rewrite Hend. destruct (stream_end s tt) as [[]|e].
    + destruct (last_chunk s None) as [chunk|];
        [destruct (gc_usage_metadata chunk) as [count|]|];
        destruct (PyStr.truthy _); cbn [negb];
        do 3 eexists; (split; [reflexivity|]); cbn; try exact Hloop; reflexivity.
    + destruct (is_Exception e) eqn:He.
      * assert (is_Exception (gemini_classify self e) = true) as ->
          by (unfold gemini_classify;
              repeat match goal with
                     | |- context [if ?b then _ else _] => destruct b
                     end; reflexivity).
        do 3 eexists; (split; [reflexivity|]); cbn.
        destruct (last_chunk s None); exact Hloop.
      * rewrite He. do 3 eexists; (split; [reflexivity|]); cbn.
        destruct (last_chunk s None); exact Hloop.
Qed.

(** The stream "Hello", " world" ends with the counters 7 and 13: twenty
    tokens.  A final chunk without its [prompt_eval_count] leaves the count
    unset. *)
Lemma token_accounting_witness :
  (exists r m' w',
      explain_code (Scenario.gemini_limited Scenario.hello)
        (OllamaProvider Scenario.with_key None) Scenario.code
        Scenario.blank_metrics None Scenario.fresh = (r, m', w')
      /\ total_tokens m' = Some 20)
  /\ (exists r m' w',
        explain_code (Scenario.gemini_limited [Scenario.uncounted "Hi"])
          (OllamaProvider Scenario.with_key None) Scenario.code
          Scenario.blank_metrics None Scenario.fresh = (r, m', w')
        /\ total_tokens m' = None).
Proof.
  split.
  - destruct (token_accounting (Scenario.gemini_limited Scenario.hello)
                (OllamaProvider Scenario.with_key None) Scenario.code None)
      as [Hollama _].
    destruct (Hollama _ eq_refl eq_refl Scenario.blank_metrics Scenario.fresh)
      as (r & m' & w' & Hrun & Hcount & _).
    exists r, m', w'. split; [exact Hrun | exact Hcount].
  - destruct (token_accounting
                (Scenario.gemini_limited [Scenario.uncounted "Hi"])
                (OllamaProvider Scenario.with_key None) Scenario.code None)
      as [Hollama _].
    destruct (Hollama _ eq_refl eq_refl Scenario.blank_metrics Scenario.fresh)
      as (r & m' & w' & Hrun & Hcount & _).
    exists r, m', w'. split; [exact Hrun | exact Hcount].
Defined.

(* ===================================================================== *)
(** * The shape of a generated result *)
(* ===================================================================== *)

Lemma ollama_for_chunks_bookkeeping (B : Backend) (cb : option Callable)
    (s : Stream OllamaChunk) :
  forall first_token_time text m w,
    same_bookkeeping m
      (snd (fst (ollama_for_chunks B s cb first_token_time text m w))).
Proof.
  induction s as [|chunk rest IH|e]; intros ftt text m w;
    try (repeat split; reflexivity).
  cbn [ollama_for_chunks].
  destruct ftt as [t|];
    destruct (PyStr.truthy match oc_content chunk with Some c => c | None => "" end);
    destruct (oc_done chunk);
    try destruct (add_counts _ _) as [total|bad];
    cbv beta iota zeta;
    first
      [ match goal with
        | |- context [ollama_for_chunks B rest cb ?a ?b ?c ?d] =>
            destruct (IH a b c d) as (Hs & He & Hr)
        end;
        repeat split; assumption
      | repeat split; reflexivity ].
Qed.

Lemma gemini_for_chunks_bookkeeping (B : Backend) (cb : option Callable)
    (s : Stream GeminiChunk) :
  forall first_token_time text final m w,
    same_bookkeeping m
      (snd (fst (gemini_for_chunks B s cb first_token_time text final m w))).
Proof.
  induction s as [|chunk rest IH|e]; intros ftt text final m w;
    try (repeat split; reflexivity).
  cbn [gemini_for_chunks].
  destruct ftt as [t|];
    destruct (PyStr.truthy match gc_text chunk with Some c => c | None => "" end);
    cbv beta iota zeta;
    match goal with
    | |- context [gemini_for_chunks B rest cb ?a ?b ?c ?d ?e] =>
        destruct (IH a b c d e) as (Hs & He & Hr)
    end;
    repeat split; assumption.
Qed.

Lemma lstrip_head (s : string) :
  PyStr.lstrip s = ""
  \/ exists c rest, PyStr.lstrip s = String c rest /\ PyStr.is_space c = false.
Proof.
  induction s as [|c rest IH]; [now left|].
  cbn [PyStr.lstrip]. destruct (PyStr.is_space c) eqn:Hc; [exact IH|].
  right. now exists c, rest.
Qed.

Lemma rstrip_head (c : ascii) (rest : string) :
  PyStr.is_space c = false ->
  exists kept, PyStr.rstrip (String c rest) = String c kept.
Proof.
  intros Hc. cbn [PyStr.rstrip]. rewrite Hc.
  destruct (PyStr.rstrip rest); eauto.
Qed.

Lemma rstrip_idempotent (s : string) :
  PyStr.rstrip (PyStr.rstrip s) = PyStr.rstrip s.
Proof.
  induction s as [|c rest IH]; [reflexivity|].
  cbn [PyStr.rstrip].
  destruct (PyStr.rstrip rest) as [|k kept] eqn:Hrest.
  - destruct (PyStr.is_space c) eqn:Hc; [reflexivity|].
    cbn [PyStr.rstrip]. now rewrite Hc.
  - change (PyStr.rstrip (String c (String k kept)))
      with (match PyStr.rstrip (String k kept) with
            | "" => if PyStr.is_space c then "" else String c ""
            | String a b => String c (String a b)
            end).
    now rewrite IH.
Qed.

Lemma strip_idempotent (s : string) :
  PyStr.strip (PyStr.strip s) = PyStr.strip s.
Proof.
  unfold PyStr.strip.
  destruct (lstrip_head s) as [-> | (c & rest & -> & Hc)]; [reflexivity|].
  destruct (rstrip_head c rest Hc) as [kept Hkept].
  rewrite Hkept. cbn [PyStr.lstrip]. rewrite Hc.
  rewrite <- Hkept. apply rstrip_idempotent.
Qed.

Lemma classified_is_exception (self : BaseProvider.t) (e : exn) :
  is_Exception (ollama_classify self e) = true
  /\ is_Exception (gemini_classify self e) = true.
Proof.
  unfold ollama_classify, gemini_classify. split;
    repeat match goal with
           | |- context [if ?b then _ else _] => destruct b
           end; reflexivity.
Qed.

Lemma explain_code_returns (B : Backend) (self : BaseProvider.t) (code : string)
    (m : PerformanceMetrics) (cb : option Callable) (w : World) text m' w' :
  explain_code B self code m cb w = (Returns text, m', w') ->
  same_bookkeeping m m'
  /\ PyStr.strip text = text
  /\ (ticks w' = ticks w \/ ticks w' = S (ticks w)).
Proof.
  unfold explain_code, _invoke_model.
  set (m0 := set_model_provider _ _).
  assert (forall emitted m1 w0 w1,
             first_token_clock B emitted m0 m1 w0 w1 ->
             ticks w1 = ticks w0 \/ ticks w1 = S (ticks w0)) as Hticks.
  { intros emitted m1 w0 w1 [_ H]. destruct (non_empty emitted); tauto. }
  destruct (BaseProvider.class self).
  - unfold gemini_invoke_model.
    destruct (gemini_client self); cbn [negb]; [|discriminate].
    destruct (gemini_generate_content_stream B _ _) as [s|e];
      [|destruct (is_Exception e) eqn:He;
        rewrite ?He, ?(proj2 (classified_is_exception self e)); discriminate].
    match goal with
    | |- context [gemini_for_chunks B s cb None "" None ?a ?b] =>
        pose proof (gemini_for_chunks_bookkeeping B cb s None "" None a b) as Hbook;
        pose proof (gemini_for_chunks_clock B cb s None "" None a b) as Hclock;
        cbv zeta in Hclock;
        destruct (gemini_for_chunks B s cb None "" None a b) as [[r m1] w1]
    end.
    cbn [fst snd] in Hbook, Hclock. apply Hticks in Hclock. cbn [ticks log] in Hclock.
    destruct r as [[answer final]|e];
      [|destruct (is_Exception e) eqn:He;
        rewrite ?He, ?(proj2 (classified_is_exception self e)); discriminate].
    destruct (PyStr.truthy answer); cbn [negb]; [|discriminate].
    intros H. injection H as <- <- <-.
    split; [|split; [apply strip_idempotent | exact Hclock]].
    destruct final as [chunk|]; [destruct (gc_usage_metadata chunk)|];
      exact Hbook.
  - unfold ollama_invoke_model.
    destruct (ollama_chat_stream B _ _) as [s|e];
      [|destruct (is_Exception e) eqn:He;
        rewrite ?He, ?(proj1 (classified_is_exception self e)); discriminate].
    match goal with
    | |- context [ollama_for_chunks B s cb None "" ?a ?b] =>
        pose proof (ollama_for_chunks_bookkeeping B cb s None "" a b) as Hbook;
        pose proof (ollama_for_chunks_clock B cb s None "" a b) as Hclock;
        cbv zeta in Hclock;
        destruct (ollama_for_chunks B s cb None "" a b) as [[r m1] w1]
    end.
    cbn [fst snd] in Hbook, Hclock. apply Hticks in Hclock. cbn [ticks log] in Hclock.
    destruct r as [answer|e];
      [|destruct (is_Exception e) eqn:He;
        rewrite ?He, ?(proj1 (classified_is_exception self e)); discriminate].
    destruct (PyStr.truthy answer); cbn [negb]; [|discriminate].
    intros H. injection H as <- <- <-.
    split; [exact Hbook | split; [apply strip_idempotent | exact Hclock]].
Qed.

Lemma explain_probe_hit_flag (B : Backend) (self : CodeExplainer)
    (code : string) (p : BaseProvider.t) (cb : option Callable) (w : World)
    key cached w' :
  explain_probe B self code p cb w = (Returns (key, Some cached), w') ->
  cache_hit (metrics cached) = true.
Proof.
  unfold explain_probe. destruct (use_cache self); [|discriminate].
  unfold bind, time_time.
  destruct (cache_get B _ _) as [[[stored|]|e] w1]; try discriminate.
  intros H. injection H as _ <- _. reflexivity.
Qed.

Lemma explain_try_result (B : Backend) (self : CodeExplainer) (code : string)
    (p : BaseProvider.t) (cb : option Callable) (key : option string)
    (w3 w4 : World) (m : PerformanceMetrics) result m' w' :
  explain_metrics B p w3 = (Returns m, w4) ->
  explain_try B self code p cb key m w4 = (Returns result, m', w') ->
  well_formed_result B code result.
Proof.
  unfold explain_metrics, bind, time_time, ret.
  intros H. injection H as <- <-.
  unfold explain_try.
  destruct (explain_code _ _ _ _ _ _) as [[[text|e] m1] w1] eqn:Hcode;
    [|discriminate].
  apply explain_code_returns in Hcode as ((Hstart & Hend & Herror) & Hstrip & Hticks).
  cbn [start_time end_time error ticks tick] in Hstart, Hend, Herror, Hticks.
  intros H. injection H as <- _ _.
  cbn [original_code explanation metrics timestamp].
  split; [reflexivity|]. split; [exact Hstrip|]. split; [exact Herror|].
  exists (ticks w3).
  destruct Hticks as [Hticks | Hticks]; [exists 1%nat | exists 2%nat];
    cbn [end_time start_time set_end_time ticks tick]; rewrite Hticks;
    (split; [auto|]); (split; [exact Hstart|]);
    rewrite !Nat.add_succ_r, !Nat.add_0_r; split; reflexivity.
Qed.

Section Generated.

Variable settings : Settings.
Variable B : Backend.
Variable self : CodeExplainer.
Variable code : string.
Variable cb : option Callable.

Lemma explain_generated (fuel : nat) :
  forall provider_name auto_fallback validate_input w result w',
    explain settings B fuel self code provider_name auto_fallback cb
      validate_input w = Some (Returns result, w') ->
    cache_hit (metrics result) = false ->
    well_formed_result B code result.
Proof.
  induction fuel as [|fuel IH];
    intros provider_name auto_fallback validate_input w result w';
    [discriminate|].
  cbn [explain].
  destruct (explain_validate _ _ _ _ _ w) as [[[]|e] w1]; [|discriminate].
  destruct (explain_resolve _ _ _ _ w1) as [[p|e] w2]; [|discriminate].
  destruct (explain_probe _ _ _ _ _ w2) as [[[key hit]|e] w3] eqn:Hprobe;
    [|discriminate].
  destruct hit as [cached|].
  { apply explain_probe_hit_flag in Hprobe.
    intros H. injection H as <- <-. congruence. }
  destruct (explain_metrics _ _ w3) as [[m|e] w4] eqn:Hmet; [|discriminate].
  destruct (explain_try _ _ _ _ _ _ _ w4) as [[[generated|e] m'] w5] eqn:Htry.
  - intros H. injection H as <- <-. intros _.
    exact (explain_try_result _ _ _ _ _ _ _ _ _ _ _ _ Hmet Htry).
  - destruct (is_Exception e); [|discriminate].
    destruct auto_fallback; [|discriminate].
    destruct (_get_fallback_provider _ _ _ (tick w5)) as [[[other|]|e'] w6];
      [|discriminate|discriminate].
    apply IH.
Qed.

End Generated.

(** X18: a result that [explain] generated carries the code it was asked
    about, an explanation without leading or trailing white space, no
    error, and a start time, an end time and a time stamp taken from
    consecutive readings of the clock, the end one or two readings after the
    start. *)
Theorem generated_result (settings : Settings) (B : Backend)
    (self : CodeExplainer) (code : string) (cb : option Callable)
    (fuel : nat) (provider_name : option string)
    (auto_fallback validate_input : bool) (w w' : World)
    (result : ExplanationResult) :
  explain settings B fuel self code provider_name auto_fallback cb
    validate_input w = Some (Returns result, w') ->
  cache_hit (metrics result) = false ->
  well_formed_result B code result.
Proof. apply explain_generated. Qed.

Lemma generated_result_witness :
  exists result w',
    explain Scenario.with_key (Scenario.gemini_limited Scenario.padded_hello) 2
      {| self_default_provider := "gemini"; use_cache := false;
         self_cache_ttl := 86400;
         providers := providers (CodeExplainer_init Scenario.with_key None) |}
      Scenario.code None true None false Scenario.fresh
    = Some (Returns result, w')
    /\ explanation result = "Hello world"
    /\ model_provider (metrics result) = "ollama"
    /\ well_formed_result (Scenario.gemini_limited Scenario.padded_hello)
         Scenario.code result.
Proof.
  eassert (explain Scenario.with_key
             (Scenario.gemini_limited Scenario.padded_hello) 2
             {| self_default_provider := "gemini"; use_cache := false;
                self_cache_ttl := 86400;
                providers := providers (CodeExplainer_init Scenario.with_key None) |}
             Scenario.code None true None false Scenario.fresh
           = Some (Returns _, _)) as Hrun
    by (vm_compute; reflexivity).
  eexists _, _. split; [exact Hrun|].
  split; [reflexivity|]. split; [reflexivity|].
  exact (generated_result _ _ _ _ _ _ _ _ _ _ _ _ Hrun eq_refl).
Defined.
